(** * Liveness / anti-spoofing evaluator of [static/js/liveness.js]

    A shallow embedding of the [LivenessDetector] class and a verification of
    its per-frame state machine.

    Conventions of the embedding.
    - A JavaScript Number that holds a measurement (a landmark coordinate, a
      ratio, a score) is an IEEE-754 binary64 value: Rocq's primitive [float],
      whose operations are the ones the JavaScript engine performs.
    - A JavaScript Number that only counts ([blinkCount], the consecutive-frame
      counters) is a [nat]: [x++] is exact on doubles far beyond any number of
      frames a session can see.  [Date.now()] is an integer of milliseconds.
    - [Math.pow(d, 2)] is taken to be the correctly rounded square [d * d].
    - The methods that write to [this] are computations of a small state and
      exception monad over the record of the instance fields.  An exception
      carries the state at the point where it was raised, so that partial
      writes, if a method made any before throwing, would be visible.  The
      methods that only read are functions of that record.
    - One call of the asynchronous [detectLiveness] runs to its end before the
      next starts (the host awaits it on a timer); what the call obtains from
      outside the instance (the detector's answer, [Math.random()],
      [Date.now()]) is given with the frame.
    - The global [faceapi] exists only once [initialize()] has loaded the
      library; until then, reading it is a ReferenceError.  What reading it
      gives during a call is given with the frame. *)

From Stdlib Require Import Floats ZArith List Bool Arith Lia.
Import ListNotations.

#[local] Set Warnings "-inexact-float".

(** ** JavaScript numbers *)

Module Js.

Open Scope float_scope.

(** [Math.pow(x, 2)] *)
Definition pow2 (x : float) : float := x * x.

(** A counter read as a Number. *)
Definition of_nat (n : nat) : float :=
  PrimFloat.of_uint63 (Uint63.of_Z (Z.of_nat n)).

(** [Math.max(x, y)]: NaN if either is NaN, and [+0] above [-0]. *)
Definition max (x y : float) : float :=
  if is_nan x || is_nan y then nan
  else if x <? y then y
  else if y <? x then x
  else match classify x with NZero => y | _ => x end.

(** [Math.min(x, y)]: NaN if either is NaN, and [-0] below [+0]. *)
Definition min (x y : float) : float :=
  if is_nan x || is_nan y then nan
  else if x <? y then x
  else if y <? x then y
  else match classify x with PZero => y | _ => x end.

(** [x >= y] and [x > y] on Numbers (false as soon as one side is NaN). *)
Definition geb (x y : float) : bool := y <=? x.
Definition gtb (x y : float) : bool := y <? x.

End Js.

(** ** Data model *)

(** A 2-D landmark point ([{x, y}] of face-api). *)
Module Point.
Record t := mk { x : float; y : float }.
End Point.

(** What the code reads of a [FaceLandmarks68] object: four contours. *)
Record FaceLandmarks := mkFaceLandmarks {
  getLeftEye : list Point.t;
  getRightEye : list Point.t;
  getMouth : list Point.t;
  getNose : list Point.t }.

(** One element of the array that [detectAllFaces(...)] resolves to.  The
    expression probabilities it also carries are never read. *)
Record Detection := mkDetection { landmarks : FaceLandmarks }.

(** The values [livenessStatus] and the [status] field take. *)
Inductive Status :=
| pending | no_face | multiple_faces | active
| photo_detected | screen_detected | need_blinks | need_movement
| suspicious | inactive | error.

(** An entry of [frameHistory]: [{x, y, timestamp}]. *)
Module Sample.
Record t := mk { x : float; y : float; timestamp : Z }.
End Sample.

(** The mutable instance fields of [LivenessDetector]. *)
Record LivenessDetector := mkLivenessDetector {
  faceLandmarks : option FaceLandmarks;
  eyeAspectRatio : float;
  blinkCount : nat;
  headMovement : float * float * float;
  livenessStatus : Status;
  eyeClosedFrames : nat;
  eyeOpenFrames : nat;
  blinkDetected : bool;
  headMovementDetected : bool;
  mouthOpenFrames : nat;
  mouthClosedFrames : nat;
  mouthOpenDetected : bool;
  antiSpoofingScore : float;
  livenessScore : float;
  isLivenessActive : bool;
  frameHistory : list Sample.t;
  photoSpoofingDetected : bool;
  screenSpoofingDetected : bool;
  realPersonScore : float }.

(** The constants the constructor stores next to the fields; no method ever
    assigns them. *)
Definition maxHistorySize : nat := 10.
Definition EYE_AR_THRESHOLD : float := 0.25%float.
Definition EYE_AR_CONSEC_FRAMES : nat := 3.
Definition MOUTH_AR_THRESHOLD : float := 0.35%float.
Definition MOUTH_AR_CONSEC_FRAMES : nat := 5.
Definition MIN_BLINKS_REQUIRED : nat := 2.
Definition MIN_LIVENESS_SCORE : float := 80%float.
Definition ANTI_SPOOFING_THRESHOLD : float := 70%float.
Definition HEAD_MOVEMENT_THRESHOLD : float := 5%float.
Definition PHOTO_SPOOFING_THRESHOLD : float := 0.1%float.

(** [new LivenessDetector()] *)
Definition constructor : LivenessDetector :=
  {| faceLandmarks := None;
     eyeAspectRatio := 0%float;
     blinkCount := 0;
     headMovement := (0%float, 0%float, 0%float);
     livenessStatus := pending;
     eyeClosedFrames := 0;
     eyeOpenFrames := 0;
     blinkDetected := false;
     headMovementDetected := false;
     mouthOpenFrames := 0;
     mouthClosedFrames := 0;
     mouthOpenDetected := false;
     antiSpoofingScore := 0%float;
     livenessScore := 0%float;
     isLivenessActive := false;
     frameHistory := [];
     photoSpoofingDetected := false;
     screenSpoofingDetected := false;
     realPersonScore := 0%float |}.

(** The object literal a call of [detectLiveness] resolves to.  The four last
    fields are absent from the literals of the [pending] and [error] results. *)
Module LivenessData.
Record t := mk {
  status : Status;
  eyeBlinkCount : nat;
  mouthMovements : nat;
  headMovementDetected : bool;
  antiSpoofingScore : float;
  livenessScore : float;
  isActive : bool;
  blinkDetected : option bool;
  mouthOpenDetected : option bool;
  spoofingDetected : bool;
  realPersonScore : float;
  photoSpoofingDetected : option bool;
  screenSpoofingDetected : option bool }.
End LivenessData.

(** ** Field assignments [this.f = v] *)

Section Assign.
Variable s : LivenessDetector.

Definition set_faceLandmarks v :=
  mkLivenessDetector v (eyeAspectRatio s) (blinkCount s) (headMovement s)
    (livenessStatus s) (eyeClosedFrames s) (eyeOpenFrames s) (blinkDetected s)
    (headMovementDetected s) (mouthOpenFrames s) (mouthClosedFrames s)
    (mouthOpenDetected s) (antiSpoofingScore s) (livenessScore s)
    (isLivenessActive s) (frameHistory s) (photoSpoofingDetected s)
    (screenSpoofingDetected s) (realPersonScore s).
Definition set_eyeAspectRatio v :=
  mkLivenessDetector (faceLandmarks s) v (blinkCount s) (headMovement s)
    (livenessStatus s) (eyeClosedFrames s) (eyeOpenFrames s) (blinkDetected s)
    (headMovementDetected s) (mouthOpenFrames s) (mouthClosedFrames s)
    (mouthOpenDetected s) (antiSpoofingScore s) (livenessScore s)
    (isLivenessActive s) (frameHistory s) (photoSpoofingDetected s)
    (screenSpoofingDetected s) (realPersonScore s).
Definition set_blinkCount v :=
  mkLivenessDetector (faceLandmarks s) (eyeAspectRatio s) v (headMovement s)
    (livenessStatus s) (eyeClosedFrames s) (eyeOpenFrames s) (blinkDetected s)
    (headMovementDetected s) (mouthOpenFrames s) (mouthClosedFrames s)
    (mouthOpenDetected s) (antiSpoofingScore s) (livenessScore s)
    (isLivenessActive s) (frameHistory s) (photoSpoofingDetected s)
    (screenSpoofingDetected s) (realPersonScore s).
Definition set_livenessStatus v :=
  mkLivenessDetector (faceLandmarks s) (eyeAspectRatio s) (blinkCount s)
    (headMovement s) v (eyeClosedFrames s) (eyeOpenFrames s) (blinkDetected s)
    (headMovementDetected s) (mouthOpenFrames s) (mouthClosedFrames s)
    (mouthOpenDetected s) (antiSpoofingScore s) (livenessScore s)
    (isLivenessActive s) (frameHistory s) (photoSpoofingDetected s)
    (screenSpoofingDetected s) (realPersonScore s).
Definition set_eyeFrames closed open :=
  mkLivenessDetector (faceLandmarks s) (eyeAspectRatio s) (blinkCount s)
    (headMovement s) (livenessStatus s) closed open (blinkDetected s)
    (headMovementDetected s) (mouthOpenFrames s) (mouthClosedFrames s)
    (mouthOpenDetected s) (antiSpoofingScore s) (livenessScore s)
    (isLivenessActive s) (frameHistory s) (photoSpoofingDetected s)
    (screenSpoofingDetected s) (realPersonScore s).
Definition set_blinkDetected v :=
  mkLivenessDetector (faceLandmarks s) (eyeAspectRatio s) (blinkCount s)
    (headMovement s) (livenessStatus s) (eyeClosedFrames s) (eyeOpenFrames s) v
    (headMovementDetected s) (mouthOpenFrames s) (mouthClosedFrames s)
    (mouthOpenDetected s) (antiSpoofingScore s) (livenessScore s)
    (isLivenessActive s) (frameHistory s) (photoSpoofingDetected s)
    (screenSpoofingDetected s) (realPersonScore s).
Definition set_headMovementDetected v :=
  mkLivenessDetector (faceLandmarks s) (eyeAspectRatio s) (blinkCount s)
    (headMovement s) (livenessStatus s) (eyeClosedFrames s) (eyeOpenFrames s)
    (blinkDetected s) v (mouthOpenFrames s) (mouthClosedFrames s)
    (mouthOpenDetected s) (antiSpoofingScore s) (livenessScore s)
    (isLivenessActive s) (frameHistory s) (photoSpoofingDetected s)
    (screenSpoofingDetected s) (realPersonScore s).
Definition set_mouthFrames open closed :=
  mkLivenessDetector (faceLandmarks s) (eyeAspectRatio s) (blinkCount s)
    (headMovement s) (livenessStatus s) (eyeClosedFrames s) (eyeOpenFrames s)
    (blinkDetected s) (headMovementDetected s) open closed
    (mouthOpenDetected s) (antiSpoofingScore s) (livenessScore s)
    (isLivenessActive s) (frameHistory s) (photoSpoofingDetected s)
    (screenSpoofingDetected s) (realPersonScore s).
Definition set_mouthOpenDetected v :=
  mkLivenessDetector (faceLandmarks s) (eyeAspectRatio s) (blinkCount s)
    (headMovement s) (livenessStatus s) (eyeClosedFrames s) (eyeOpenFrames s)
    (blinkDetected s) (headMovementDetected s) (mouthOpenFrames s)
    (mouthClosedFrames s) v (antiSpoofingScore s) (livenessScore s)
    (isLivenessActive s) (frameHistory s) (photoSpoofingDetected s)
    (screenSpoofingDetected s) (realPersonScore s).
Definition set_antiSpoofingScore v :=
  mkLivenessDetector (faceLandmarks s) (eyeAspectRatio s) (blinkCount s)
    (headMovement s) (livenessStatus s) (eyeClosedFrames s) (eyeOpenFrames s)
    (blinkDetected s) (headMovementDetected s) (mouthOpenFrames s)
    (mouthClosedFrames s) (mouthOpenDetected s) v (livenessScore s)
    (isLivenessActive s) (frameHistory s) (photoSpoofingDetected s)
    (screenSpoofingDetected s) (realPersonScore s).
Definition set_livenessScore v :=
  mkLivenessDetector (faceLandmarks s) (eyeAspectRatio s) (blinkCount s)
    (headMovement s) (livenessStatus s) (eyeClosedFrames s) (eyeOpenFrames s)
    (blinkDetected s) (headMovementDetected s) (mouthOpenFrames s)
    (mouthClosedFrames s) (mouthOpenDetected s) (antiSpoofingScore s) v
    (isLivenessActive s) (frameHistory s) (photoSpoofingDetected s)
    (screenSpoofingDetected s) (realPersonScore s).
Definition set_isLivenessActive v :=
  mkLivenessDetector (faceLandmarks s) (eyeAspectRatio s) (blinkCount s)
    (headMovement s) (livenessStatus s) (eyeClosedFrames s) (eyeOpenFrames s)
    (blinkDetected s) (headMovementDetected s) (mouthOpenFrames s)
    (mouthClosedFrames s) (mouthOpenDetected s) (antiSpoofingScore s)
    (livenessScore s) v (frameHistory s) (photoSpoofingDetected s)
    (screenSpoofingDetected s) (realPersonScore s).
Definition set_frameHistory v :=
  mkLivenessDetector (faceLandmarks s) (eyeAspectRatio s) (blinkCount s)
    (headMovement s) (livenessStatus s) (eyeClosedFrames s) (eyeOpenFrames s)
    (blinkDetected s) (headMovementDetected s) (mouthOpenFrames s)
    (mouthClosedFrames s) (mouthOpenDetected s) (antiSpoofingScore s)
    (livenessScore s) (isLivenessActive s) v (photoSpoofingDetected s)
    (screenSpoofingDetected s) (realPersonScore s).
Definition set_photoSpoofingDetected v :=
  mkLivenessDetector (faceLandmarks s) (eyeAspectRatio s) (blinkCount s)
    (headMovement s) (livenessStatus s) (eyeClosedFrames s) (eyeOpenFrames s)
    (blinkDetected s) (headMovementDetected s) (mouthOpenFrames s)
    (mouthClosedFrames s) (mouthOpenDetected s) (antiSpoofingScore s)
    (livenessScore s) (isLivenessActive s) (frameHistory s) v
    (screenSpoofingDetected s) (realPersonScore s).
Definition set_screenSpoofingDetected v :=
  mkLivenessDetector (faceLandmarks s) (eyeAspectRatio s) (blinkCount s)
    (headMovement s) (livenessStatus s) (eyeClosedFrames s) (eyeOpenFrames s)
    (blinkDetected s) (headMovementDetected s) (mouthOpenFrames s)
    (mouthClosedFrames s) (mouthOpenDetected s) (antiSpoofingScore s)
    (livenessScore s) (isLivenessActive s) (frameHistory s)
    (photoSpoofingDetected s) v (realPersonScore s).
Definition set_realPersonScore v :=
  mkLivenessDetector (faceLandmarks s) (eyeAspectRatio s) (blinkCount s)
    (headMovement s) (livenessStatus s) (eyeClosedFrames s) (eyeOpenFrames s)
    (blinkDetected s) (headMovementDetected s) (mouthOpenFrames s)
    (mouthClosedFrames s) (mouthOpenDetected s) (antiSpoofingScore s)
    (livenessScore s) (isLivenessActive s) (frameHistory s)
    (photoSpoofingDetected s) (screenSpoofingDetected s) v.
End Assign.

(** ** The monad of methods: state of [this], and exceptions *)

Inductive Completion (A : Type) :=
| Normal (a : A)
| Throw.
Arguments Normal {A} a.
Arguments Throw {A}.

Definition M (A : Type) : Type :=
  LivenessDetector -> Completion A * LivenessDetector.

Definition ret {A} (a : A) : M A := fun s => (Normal a, s).

Definition bind {A B} (m : M A) (k : A -> M B) : M B :=
  fun s => match m s with
           | (Normal a, s') => k a s'
           | (Throw, s') => (Throw, s')
           end.

Definition this : M LivenessDetector := fun s => (Normal s, s).

Definition assign (f : LivenessDetector -> LivenessDetector) : M unit :=
  fun s => (Normal tt, f s).

(** A pure computation that may throw (a property read on [undefined]). *)
Definition lift {A} (c : Completion A) : M A := fun s => (c, s).

(** [try { m } catch (e) { h }] *)
Definition try_catch {A} (m : M A) (h : M A) : M A :=
  fun s => match m s with
           | (Normal a, s') => (Normal a, s')
           | (Throw, s') => h s'
           end.

Declare Scope js_scope.
Delimit Scope js_scope with js.
Notation "v <- m ;; k" := (bind m (fun v => k))
  (at level 61, m at next level, right associativity) : js_scope.
Notation "m ;; k" := (bind m (fun _ => k))
  (at level 61, right associativity) : js_scope.
Open Scope js_scope.

(** ** What one call of [detectLiveness] reads from outside the instance *)

(** What reading the global [faceapi] gives: a ReferenceError while no script
    has declared it, else its value, of which the guard tests the
    truthiness. *)
Inductive Global :=
| Undeclared
| Declared (truthy : bool).

(** The global is declared and truthy. *)
Definition loaded (g : Global) : bool :=
  match g with
  | Declared truthy => truthy
  | Undeclared => false
  end.

Record Frame := mkFrame {
  (** the argument is truthy *)
  videoElement : bool;
  (** what reading the global [faceapi] gives during the call *)
  faceapi : Global;
  (** what awaiting [faceapi.detectAllFaces(...)...] gives: the array of
      detections, or a rejection *)
  detectAllFaces : Completion (list Detection);
  (** the value [Math.random()] returns during this call *)
  Math_random : float;
  (** the value [Date.now()] returns during this call *)
  Date_now : Z }.

(** ** The methods *)

Section Methods.
Open Scope float_scope.

(** [distance(point1, point2)]; an index past the end of a contour reads
    [undefined], and reading [.x] of it throws. *)
Definition distance (point1 point2 : option Point.t) : M float :=
  match point2, point1 with
  | Some p2, Some p1 =>
      ret (sqrt (Js.pow2 (Point.x p2 - Point.x p1) +
                 Js.pow2 (Point.y p2 - Point.y p1)))
  | _, _ => lift Throw
  end.

Definition getEAR (eyePoints : list Point.t) : M float :=
  A <- distance (nth_error eyePoints 1) (nth_error eyePoints 5);;
  B <- distance (nth_error eyePoints 2) (nth_error eyePoints 4);;
  C <- distance (nth_error eyePoints 0) (nth_error eyePoints 3);;
  ret ((A + B) / (2 * C)).

Definition calculateEyeAspectRatio : M unit :=
  s <- this;;
  match faceLandmarks s with
  | None => ret tt
  | Some lm =>
      let leftEye := getLeftEye lm in
      let rightEye := getRightEye lm in
      leftEAR <- getEAR leftEye;;
      rightEAR <- getEAR rightEye;;
      assign (fun s => set_eyeAspectRatio s ((leftEAR + rightEAR) / 2));;
      s <- this;;
      if eyeAspectRatio s <? EYE_AR_THRESHOLD
      then assign (fun s => set_eyeFrames s (S (eyeClosedFrames s)) 0)
      else assign (fun s => set_eyeFrames s 0 (S (eyeOpenFrames s)))
  end.

Definition calculateMouthAspectRatio : M unit :=
  s <- this;;
  match faceLandmarks s with
  | None => ret tt
  | Some lm =>
      let mouth := getMouth lm in
      A <- distance (nth_error mouth 13) (nth_error mouth 19);;
      B <- distance (nth_error mouth 14) (nth_error mouth 18);;
      C <- distance (nth_error mouth 15) (nth_error mouth 17);;
      D <- distance (nth_error mouth 12) (nth_error mouth 16);;
      let mouthAR := (A + B + C) / (3 * D) in
      if Js.gtb mouthAR MOUTH_AR_THRESHOLD
      then assign (fun s => set_mouthFrames s (S (mouthOpenFrames s)) 0)
      else assign (fun s => set_mouthFrames s 0 (S (mouthClosedFrames s)))
  end.

Definition detectBlinks : M unit :=
  s <- this;;
  (if (EYE_AR_CONSEC_FRAMES <=? eyeClosedFrames s)%nat && negb (blinkDetected s)
   then assign (fun s => set_blinkCount s (S (blinkCount s)));;
        assign (fun s => set_blinkDetected s true)
   else ret tt);;
  s <- this;;
  if (EYE_AR_CONSEC_FRAMES <=? eyeOpenFrames s)%nat
  then assign (fun s => set_blinkDetected s false)
  else ret tt.

Definition detectMouthMovements : M unit :=
  s <- this;;
  (if (MOUTH_AR_CONSEC_FRAMES <=? mouthOpenFrames s)%nat
      && negb (mouthOpenDetected s)
   then assign (fun s => set_mouthOpenDetected s true)
   else ret tt);;
  s <- this;;
  if (MOUTH_AR_CONSEC_FRAMES <=? mouthClosedFrames s)%nat
  then assign (fun s => set_mouthOpenDetected s false)
  else ret tt.

(** The [for] loop of [detectHeadMovement], entered at index [i] with
    [prev = frameHistory[i-1]] and [rest] the entries from index [i] on. *)
Fixpoint movementLoop (prev : Sample.t) (rest : list Sample.t)
    (totalMovement : float) (movements : nat) : M (float * nat) :=
  match rest with
  | [] => ret (totalMovement, movements)
  | curr :: rest' =>
      let movementX := abs (Sample.x curr - Sample.x prev) in
      let movementY := abs (Sample.y curr - Sample.y prev) in
      let totalMovement := totalMovement + (movementX + movementY) in
      let movements := S movements in
      (if Js.gtb movementX HEAD_MOVEMENT_THRESHOLD
          || Js.gtb movementY HEAD_MOVEMENT_THRESHOLD
       then assign (fun s => set_headMovementDetected s true)
       else ret tt);;
      movementLoop curr rest' totalMovement movements
  end.

Definition detectHeadMovement (f : Frame) : M unit :=
  s <- this;;
  match faceLandmarks s with
  | None => ret tt
  | Some lm =>
      match getNose lm with
      | [] => ret tt
      | nosePoint :: _ =>
          assign (fun s => set_frameHistory s
                    (frameHistory s ++
                     [Sample.mk (Point.x nosePoint) (Point.y nosePoint)
                                (Date_now f)]));;
          s <- this;;
          (if (maxHistorySize <? length (frameHistory s))%nat
           then assign (fun s => set_frameHistory s (tl (frameHistory s)))
           else ret tt);;
          s <- this;;
          if (3 <=? length (frameHistory s))%nat
          then
            r <- match frameHistory s with
                 | [] => ret (0, O)
                 | first :: rest => movementLoop first rest 0 O
                 end;;
            let '(totalMovement, movements) := r in
            let avgMovement := totalMovement / Js.of_nat movements in
            s <- this;;
            if (avgMovement <? PHOTO_SPOOFING_THRESHOLD)
               && (5 <=? length (frameHistory s))%nat
            then assign (fun s => set_photoSpoofingDetected s true)
            else ret tt
          else ret tt
      end
  end.

(** The methods below only read: they are functions of the state (and, for
    the first, of the value [Math.random()] returns). *)

Definition calculateExpressionVariation (f : Frame) : float :=
  Math_random f * 0.5 + 0.5.

(** The [for] loop of [calculateMovementVariation]. *)
Fixpoint variationLoop (prev : Sample.t) (rest : list Sample.t)
    (totalVariation : float) (count : nat) : float * nat :=
  match rest with
  | [] => (totalVariation, count)
  | curr :: rest' =>
      let variation :=
        sqrt (Js.pow2 (Sample.x curr - Sample.x prev) +
              Js.pow2 (Sample.y curr - Sample.y prev)) in
      variationLoop curr rest' (totalVariation + variation) (S count)
  end.

Definition calculateMovementVariation (s : LivenessDetector) : float :=
  if (length (frameHistory s) <? 2)%nat then 0
  else
    let '(totalVariation, count) :=
      match frameHistory s with
      | [] => (0, O)
      | first :: rest => variationLoop first rest 0 O
      end in
    if (0 <? count)%nat then totalVariation / Js.of_nat count else 0.

Definition detectSpoofing (f : Frame) : M unit :=
  let expressionVariation := calculateExpressionVariation f in
  s <- this;;
  if (8 <=? length (frameHistory s))%nat
  then
    let recentMovements := calculateMovementVariation s in
    if recentMovements <? 0.05
    then assign (fun s => set_screenSpoofingDetected s true)
    else ret tt
  else ret tt.

Definition calculateAntiSpoofingScore : M unit :=
  s <- this;;
  let score := 100 in
  let score := if photoSpoofingDetected s then score - 50 else score in
  let score := if screenSpoofingDetected s then score - 50 else score in
  let movementVariation := calculateMovementVariation s in
  let score := if movementVariation <? 0.1 then score - 30 else score in
  let score := if movementVariation <? 0.05 then score - 20 else score in
  assign (fun s => set_antiSpoofingScore s (Js.max 0 (Js.min 100 score))).

Definition calculateRealPersonScore (s : LivenessDetector) : float :=
  let score := 0 in
  let score := if (2 <=? blinkCount s)%nat then score + 40 else score in
  let score := if (3 <=? blinkCount s)%nat then score + 10 else score in
  let score := if headMovementDetected s then score + 30 else score in
  let score := if mouthOpenDetected s then score + 20 else score in
  let score := score + antiSpoofingScore s * 0.1 in
  Js.min 100 score.

Definition getDetailedStatus (s : LivenessDetector) : Status :=
  if photoSpoofingDetected s then photo_detected
  else if screenSpoofingDetected s then screen_detected
  else if (blinkCount s <? MIN_BLINKS_REQUIRED)%nat then need_blinks
  else if negb (headMovementDetected s) then need_movement
  else if antiSpoofingScore s <? ANTI_SPOOFING_THRESHOLD then suspicious
  else inactive.

Definition calculateLivenessScore : M unit :=
  s <- this;;
  let score := 0 in
  let blinkScore := Js.min (Js.of_nat (blinkCount s) * 20) 40 in
  let score := score + blinkScore in
  let score := if mouthOpenDetected s then score + 20 else score in
  let score := if headMovementDetected s then score + 20 else score in
  let antiSpoofingPoints := antiSpoofingScore s * 0.2 in
  let score := score + antiSpoofingPoints in
  assign (fun s => set_livenessScore s (Js.min 100 (Js.max 0 score)));;
  assign (fun s => set_realPersonScore s (calculateRealPersonScore s));;
  s <- this;;
  let hasRequiredBlinks := (MIN_BLINKS_REQUIRED <=? blinkCount s)%nat in
  let hasHeadMovement := headMovementDetected s in
  let hasGoodAntiSpoofing :=
    Js.geb (antiSpoofingScore s) ANTI_SPOOFING_THRESHOLD in
  assign (fun s => set_isLivenessActive s
            (Js.geb (livenessScore s) MIN_LIVENESS_SCORE
             && hasRequiredBlinks
             && hasHeadMovement
             && hasGoodAntiSpoofing
             && negb (photoSpoofingDetected s)
             && negb (screenSpoofingDetected s)));;
  s <- this;;
  if isLivenessActive s
  then assign (fun s => set_livenessStatus s active)
  else assign (fun s => set_livenessStatus s (getDetailedStatus s)).

(** [getLivenessData()] only reads the fields: a function of the state. *)
Definition getLivenessData (s : LivenessDetector) : LivenessData.t :=
      {| LivenessData.status := livenessStatus s;
         LivenessData.eyeBlinkCount := blinkCount s;
         LivenessData.mouthMovements := if mouthOpenDetected s then 1 else 0;
         LivenessData.headMovementDetected := headMovementDetected s;
         LivenessData.antiSpoofingScore := antiSpoofingScore s;
         LivenessData.livenessScore := livenessScore s;
         LivenessData.isActive := isLivenessActive s;
         LivenessData.blinkDetected := Some (blinkDetected s);
         LivenessData.mouthOpenDetected := Some (mouthOpenDetected s);
         LivenessData.spoofingDetected :=
           photoSpoofingDetected s || screenSpoofingDetected s;
         LivenessData.realPersonScore := realPersonScore s;
         LivenessData.photoSpoofingDetected :=
           Some (photoSpoofingDetected s);
         LivenessData.screenSpoofingDetected :=
           Some (screenSpoofingDetected s) |}.

(** The literal returned by the guard and by the [catch] block. *)
Definition literal (st : Status) (spoofing : bool) : LivenessData.t :=
  {| LivenessData.status := st;
     LivenessData.eyeBlinkCount := 0;
     LivenessData.mouthMovements := 0;
     LivenessData.headMovementDetected := false;
     LivenessData.antiSpoofingScore := 0;
     LivenessData.livenessScore := 0;
     LivenessData.isActive := false;
     LivenessData.blinkDetected := None;
     LivenessData.mouthOpenDetected := None;
     LivenessData.spoofingDetected := spoofing;
     LivenessData.realPersonScore := 0;
     LivenessData.photoSpoofingDetected := None;
     LivenessData.screenSpoofingDetected := None |}.

(** The statements of the [try] block that follow the two early returns. *)
Definition singleFace (f : Frame) (detection : Detection) : M LivenessData.t :=
  assign (fun s => set_faceLandmarks s (Some (landmarks detection)));;
  calculateEyeAspectRatio;;
  calculateMouthAspectRatio;;
  detectBlinks;;
  detectMouthMovements;;
  detectHeadMovement f;;
  detectSpoofing f;;
  calculateAntiSpoofingScore;;
  calculateLivenessScore;;
  s <- this;; ret (getLivenessData s).

(** The [try] block. *)
Definition tryBlock (f : Frame) : M LivenessData.t :=
  detections <- lift (detectAllFaces f);;
  match detections with
  | [] =>
      assign (fun s => set_livenessStatus s no_face);;
      s <- this;; ret (getLivenessData s)
  | detection :: others =>
      if (1 <? length detections)%nat
      then assign (fun s => set_livenessStatus s multiple_faces);;
           s <- this;; ret (getLivenessData s)
      else singleFace f detection
  end.

(** The test [!videoElement || !faceapi] of the guard: [faceapi] is read
    only if [videoElement] is truthy, and the read throws if the global is
    not declared. *)
Definition guard (f : Frame) : M bool :=
  if negb (videoElement f) then ret true
  else
    match faceapi f with
    | Undeclared => lift Throw
    | Declared truthy => ret (negb truthy)
    end.

(** The guard stands before the [try]: what it throws leaves the call. *)
Definition detectLiveness (f : Frame) : M LivenessData.t :=
  stop <- guard f;;
  if stop
  then ret (literal pending false)
  else try_catch (tryBlock f) (ret (literal error true)).

Definition reset : M unit :=
  assign (fun s => set_blinkCount s 0);;
  assign (fun s => set_livenessScore s 0);;
  assign (fun s => set_isLivenessActive s false);;
  assign (fun s => set_blinkDetected s false);;
  assign (fun s => set_mouthOpenDetected s false);;
  assign (fun s => set_headMovementDetected s false);;
  assign (fun s => set_photoSpoofingDetected s false);;
  assign (fun s => set_screenSpoofingDetected s false);;
  assign (fun s => set_eyeFrames s 0 (eyeOpenFrames s));;
  assign (fun s => set_eyeFrames s (eyeClosedFrames s) 0);;
  assign (fun s => set_mouthFrames s 0 (mouthClosedFrames s));;
  assign (fun s => set_mouthFrames s (mouthOpenFrames s) 0);;
  assign (fun s => set_antiSpoofingScore s 0);;
  assign (fun s => set_realPersonScore s 0);;
  assign (fun s => set_livenessStatus s pending);;
  assign (fun s => set_frameHistory s []).

End Methods.

(** ** Running a session *)

(** The state a method leaves, and what it completes with. *)
Definition exec {A} (m : M A) (s : LivenessDetector) : LivenessDetector :=
  snd (m s).
Definition completion {A} (m : M A) (s : LivenessDetector) : Completion A :=
  fst (m s).

(** The host calls [detectLiveness] once per tick, each call running to its end
    before the next. *)
Fixpoint detectAll (fs : list Frame) (s : LivenessDetector)
    : list (Completion LivenessData.t) * LivenessDetector :=
  match fs with
  | [] => ([], s)
  | f :: fs' =>
      let '(c, s') := detectLiveness f s in
      let '(cs, s'') := detectAll fs' s' in
      (c :: cs, s'')
  end.

Definition session (fs : list Frame) (s : LivenessDetector) : LivenessDetector :=
  snd (detectAll fs s).

(** The single-face path of [detectLiveness] ran to its [return]: frame [f],
    met in state [s], produced the snapshot [c] and left the state [s']. *)
Definition processed (f : Frame) (s : LivenessDetector)
    (c : LivenessData.t) (s' : LivenessDetector) : Prop :=
  videoElement f = true /\ faceapi f = Declared true /\
  exists detection,
    detectAllFaces f = Normal [detection] /\
    singleFace f detection s = (Normal c, s').

(** The updates of the single-face path that follow the two ratio
    computations; none of them can throw. *)
Definition updates (f : Frame) : M unit :=
  detectBlinks;;
  detectMouthMovements;;
  detectHeadMovement f;;
  detectSpoofing f;;
  calculateAntiSpoofingScore;;
  calculateLivenessScore.

(** ** The specification's wording, for comparison with the code *)

Module Spec.
Open Scope float_scope.

(** Final verdict: every gate must hold. *)
Definition verdict (c : LivenessData.t) : Prop :=
  Js.geb (LivenessData.livenessScore c) 80 = true /\
  2 <= LivenessData.eyeBlinkCount c /\
  LivenessData.headMovementDetected c = true /\
  Js.geb (LivenessData.antiSpoofingScore c) 70 = true /\
  LivenessData.photoSpoofingDetected c = Some false /\
  LivenessData.screenSpoofingDetected c = Some false.

(** Status resolver: priority-ordered, first match wins. *)
Definition resolveStatus (faces : nat) (c : LivenessData.t) : Status :=
  if (faces =? 0)%nat then no_face
  else if (1 <? faces)%nat then multiple_faces
  else if LivenessData.isActive c then active
  else match LivenessData.photoSpoofingDetected c with
       | Some true => photo_detected
       | _ =>
       match LivenessData.screenSpoofingDetected c with
       | Some true => screen_detected
       | _ =>
         if (LivenessData.eyeBlinkCount c <? 2)%nat then need_blinks
         else if negb (LivenessData.headMovementDetected c) then need_movement
         else if LivenessData.antiSpoofingScore c <? 70 then suspicious
         else inactive
       end
       end.

End Spec.

(** ** Example landmark data *)

Module Scenario.
Open Scope float_scope.

Definition pt (a b : float) : Point.t := Point.mk a b.

(** An eye contour of width 4 whose lids are [v] apart: ratio [v / 4]. *)
Definition eye (v : float) : list Point.t :=
  [pt 0 0; pt 1 v; pt 3 v; pt 4 0; pt 3 0; pt 1 0].

(** A closed mouth contour (20 points). *)
Definition mouth : list Point.t :=
  repeat (pt 0 0) 12 ++
  [pt 0 0; pt 1 0; pt 2 0; pt 3 0; pt 4 0; pt 3 0; pt 2 0; pt 1 0].

Definition face (lids noseX : float) : Detection :=
  mkDetection (mkFaceLandmarks (eye lids) (eye lids) mouth [pt noseX 0]).

Definition frame (ds : list Detection) : Frame :=
  mkFrame true (Declared true) (Normal ds) 0.5 1000.

(** Eyes shut (ratio 0.125) and eyes open (ratio 0.5), nose at [noseX]. *)
Definition shut (noseX : float) : Frame := frame [face 0.5 noseX].
Definition open (noseX : float) : Frame := frame [face 2 noseX].

(** Two blinks while the head moves by 10 units per frame. *)
Definition twoBlinks : list Frame :=
  [shut 0; shut 10; shut 20; open 30; open 40; open 50;
   shut 60; shut 70; shut 80].

(** One blink, the head moving. *)
Definition oneBlink : list Frame := [shut 0; shut 10; shut 20].

End Scenario.

(** ** Notions the statements are written with *)

(** [total m]: the method returns, it never throws. *)
Definition total {A} (m : M A) : Prop :=
  forall s, exists a, completion m s = Normal a.

(** [keeps I m]: the method leaves a state satisfying [I] whenever it starts
    in one, whether it returns or throws. *)
Definition keeps {A} (I : LivenessDetector -> Prop) (m : M A) : Prop :=
  forall s, I s -> I (exec m s).

(** *** The single-face path, piece by piece *)

(** The per-frame eye aspect ratio of a landmark set, as
    [calculateEyeAspectRatio] computes it before it touches any field. *)
Definition eyeRatio (lm : FaceLandmarks) : Completion float :=
  completion
    (leftEAR <- getEAR (getLeftEye lm);;
     rightEAR <- getEAR (getRightEye lm);;
     ret ((leftEAR + rightEAR) / 2)%float)
    constructor.

(** The mouth aspect ratio, as [calculateMouthAspectRatio] computes it. *)
Definition mouthRatio (lm : FaceLandmarks) : Completion float :=
  let mouth := getMouth lm in
  completion
    (A <- distance (nth_error mouth 13) (nth_error mouth 19);;
     B <- distance (nth_error mouth 14) (nth_error mouth 18);;
     C <- distance (nth_error mouth 15) (nth_error mouth 17);;
     D <- distance (nth_error mouth 12) (nth_error mouth 16);;
     ret ((A + B + C) / (3 * D))%float)
    constructor.

(** The writes of [calculateEyeAspectRatio] once the ratio [e] is known, and
    those of [calculateMouthAspectRatio] for the ratio [mouthAR]. *)
Definition eyeWrites (e : float) (s : LivenessDetector) : LivenessDetector :=
  if (e <? EYE_AR_THRESHOLD)%float
  then set_eyeFrames (set_eyeAspectRatio s e) (S (eyeClosedFrames s)) 0
  else set_eyeFrames (set_eyeAspectRatio s e) 0 (S (eyeOpenFrames s)).

Definition mouthWrites (mouthAR : float) (s : LivenessDetector)
    : LivenessDetector :=
  if Js.gtb mouthAR MOUTH_AR_THRESHOLD
  then set_mouthFrames s (S (mouthOpenFrames s)) 0
  else set_mouthFrames s 0 (S (mouthClosedFrames s)).

(** The state in which the single-face path leaves [this]. *)
Definition faceState (f : Frame) (lm : FaceLandmarks) (e mouthAR : float)
    (s : LivenessDetector) : LivenessDetector :=
  exec (updates f)
    (mouthWrites mouthAR (eyeWrites e (set_faceLandmarks s (Some lm)))).

(** The writes of the three last updates of a frame. *)
Definition scoring (f : Frame) : M unit :=
  detectSpoofing f;; calculateAntiSpoofingScore;; calculateLivenessScore.

(** The statements of the single-face path, in order, up to the [return],
    and their execution one after the other. *)
Definition statements (f : Frame) (detection : Detection) : list (M unit) :=
  [ assign (fun s => set_faceLandmarks s (Some (landmarks detection)));
    calculateEyeAspectRatio;
    calculateMouthAspectRatio;
    detectBlinks;
    detectMouthMovements;
    detectHeadMovement f;
    detectSpoofing f;
    calculateAntiSpoofingScore;
    calculateLivenessScore ].

Fixpoint runAll (ms : list (M unit)) : M unit :=
  match ms with
  | [] => ret tt
  | m :: ms' => m;; runAll ms'
  end.

(** *** The motion history *)

(** [push] followed by the conditional [shift] of [detectHeadMovement]. *)
Definition pushAndTrim (h : list Sample.t) (entry : Sample.t) : list Sample.t :=
  if maxHistorySize <? length (h ++ [entry]) then tl (h ++ [entry])
  else h ++ [entry].

(** The last [n] elements of a list, in order. *)
Definition lastN {T} (n : nat) (l : list T) : list T :=
  skipn (length l - n) l.

(** What a call appends to the history: the nose point of a frame whose
    single-face path runs to the end, stamped with the time of the call. *)
Definition sampleOf (f : Frame) : option Sample.t :=
  if videoElement f && loaded (faceapi f) then
    match detectAllFaces f with
    | Normal [d] =>
        match eyeRatio (landmarks d), mouthRatio (landmarks d),
              getNose (landmarks d) with
        | Normal _, Normal _, nosePoint :: _ =>
            Some (Sample.mk (Point.x nosePoint) (Point.y nosePoint) (Date_now f))
        | _, _, _ => None
        end
    | _ => None
    end
  else None.

Fixpoint samplesOf (fs : list Frame) : list Sample.t :=
  match fs with
  | [] => []
  | f :: fs' =>
      match sampleOf f with
      | Some entry => entry :: samplesOf fs'
      | None => samplesOf fs'
      end
  end.

(** The [for] loop of [detectHeadMovement] as a function of the history: the
    sum, the number of steps, and whether a step exceeded the threshold. *)
Fixpoint movementScan (prev : Sample.t) (rest : list Sample.t)
    (totalMovement : float) (movements : nat) : float * nat * bool :=
  match rest with
  | [] => (totalMovement, movements, false)
  | curr :: rest' =>
      let movementX := abs (Sample.x curr - Sample.x prev) in
      let movementY := abs (Sample.y curr - Sample.y prev) in
      let '(t, n, b) :=
        movementScan curr rest'
          (totalMovement + (movementX + movementY))%float (S movements) in
      (t, n,
       Js.gtb movementX HEAD_MOVEMENT_THRESHOLD
       || Js.gtb movementY HEAD_MOVEMENT_THRESHOLD || b)
  end.

(** The loop run over a whole history. *)
Definition movementOf (h : list Sample.t) : float * nat * bool :=
  match h with
  | [] => (0%float, 0, false)
  | first :: rest => movementScan first rest 0 0
  end.

(** *** The blink detector *)

(** The eye aspect ratio of a frame whose single-face path runs to the end. *)
Definition eyeRatioOf (f : Frame) : option float :=
  if videoElement f && loaded (faceapi f) then
    match detectAllFaces f with
    | Normal [d] =>
        match eyeRatio (landmarks d), mouthRatio (landmarks d) with
        | Normal e, Normal _ => Some e
        | _, _ => None
        end
    | _ => None
    end
  else None.

(** A processed frame whose ratio is below the threshold, and one whose ratio
    is not (a NaN ratio is not below). *)
Definition eyesShut (f : Frame) : bool :=
  match eyeRatioOf f with
  | Some e => (e <? EYE_AR_THRESHOLD)%float
  | None => false
  end.

Definition eyesOpen (f : Frame) : bool :=
  match eyeRatioOf f with
  | Some e => negb (e <? EYE_AR_THRESHOLD)%float
  | None => false
  end.

(** The longest streak of consecutive open-eyed frames met along [fs], the
    streak running on entry being [o] frames long. *)
Fixpoint openStreak (o : nat) (fs : list Frame) : nat :=
  match fs with
  | [] => o
  | f :: fs' => Nat.max o (openStreak (if eyesOpen f then S o else 0) fs')
  end.

(** The four fields of the blink detector. *)
Definition blinkView (s : LivenessDetector) : nat * nat * bool * nat :=
  (eyeClosedFrames s, eyeOpenFrames s, blinkDetected s, blinkCount s).

(** What one processed frame does to them, [shut] telling whether its ratio
    is below the threshold. *)
Definition blinkStep (shut : bool) (v : nat * nat * bool * nat)
    : nat * nat * bool * nat :=
  let '(closed, open, latched, count) := v in
  let closed' := if shut then S closed else 0 in
  let open' := if shut then 0 else S open in
  (closed', open',
   if EYE_AR_CONSEC_FRAMES <=? open' then false
   else latched || (EYE_AR_CONSEC_FRAMES <=? closed'),
   if (EYE_AR_CONSEC_FRAMES <=? closed') && negb latched then S count
   else count).

(** *** What a call depends on *)

(** A history with its timestamps erased. *)
Definition untimed (h : list Sample.t) : list Sample.t :=
  map (fun e => Sample.mk (Sample.x e) (Sample.y e) 0%Z) h.

(** A state with the timestamps of its history erased, and with the two
    fields erased that [reset] leaves alone and the constructor's
    [headMovement], which no method reads or writes. *)
Definition norm (s : LivenessDetector) : LivenessDetector :=
  mkLivenessDetector (faceLandmarks s) 0%float (blinkCount s)
    (0%float, 0%float, 0%float)
    (livenessStatus s) (eyeClosedFrames s) (eyeOpenFrames s) (blinkDetected s)
    (headMovementDetected s) (mouthOpenFrames s) (mouthClosedFrames s)
    (mouthOpenDetected s) (antiSpoofingScore s) (livenessScore s)
    (isLivenessActive s) (untimed (frameHistory s)) (photoSpoofingDetected s)
    (screenSpoofingDetected s) (realPersonScore s).

(** The part of a state that later calls and snapshots depend on: counters,
    latches, flags, scores, status, and the positions of the motion history. *)
Definition observable (s : LivenessDetector) : LivenessDetector :=
  set_faceLandmarks (norm s) None.

(** Two frames that show the same thing to the detector; they may differ in
    what [Math.random()] and [Date.now()] return. *)
Definition sameLandmarks (f1 f2 : Frame) : Prop :=
  videoElement f1 = videoElement f2 /\
  faceapi f1 = faceapi f2 /\
  detectAllFaces f1 = detectAllFaces f2.

(** The same frames seen at other times, with another stream of
    [Math.random()]. *)
Definition replay (fs : list Frame) : list Frame :=
  map (fun f => mkFrame (videoElement f) (faceapi f) (detectAllFaces f)
                  0.125%float (Date_now f + 86400000)%Z) fs.

(** ** Claims taken at their word *)

(** C7 as the specification words it: a call never throws, whatever the input
    and the state. *)
Definition never_throws : Prop :=
  forall f s, exists c, completion (detectLiveness f) s = Normal c.

(** A call made with a video element before face-api.js is there. *)
Definition beforeLoad : Frame := mkFrame true Undeclared Throw 0.5 1000.


(** C4 as the specification words it: every maximal run of at least 3
    processed frames below the threshold adds exactly 1 to the counter.  The
    run is maximal on the left when the frame before it was not below, that is
    when [eyeClosedFrames] is 0 on entry. *)
Definition every_closure_counts : Prop :=
  forall fs run,
    let s := session fs constructor in
    eyeClosedFrames s = 0 ->
    Forall (fun f => eyesShut f = true) run ->
    3 <= length run ->
    blinkCount (session run s) = S (blinkCount s).

(** A session that is new or just reset, and has since seen at most frames
    that wrote nothing but the status: every observable field other than the
    status has its creation-time value. *)
Definition fresh (s : LivenessDetector) : Prop :=
  observable (set_livenessStatus s pending) = observable constructor.

(** C10 as worded in its last clause: a zero-face frame returns
    [{status: no_face, isActive: false, eyeBlinkCount: 0}] only on a fresh or
    just-reset session. *)
Definition triple_only_when_fresh : Prop :=
  forall fs f c s',
    let s := session fs constructor in
    videoElement f = true -> faceapi f = Declared true ->
    detectAllFaces f = Normal [] ->
    detectLiveness f s = (Normal c, s') ->
    LivenessData.status c = no_face /\
    LivenessData.isActive c = false /\
    LivenessData.eyeBlinkCount c = 0 ->
    fresh s.

(** C6: the eye aspect ratio in the specification's words, and amended. *)
Module EarSpec.
Open Scope float_scope.

(** Euclidean distance between two points. *)
Definition euclid (p q : Point.t) : float :=
  sqrt ((Point.x q - Point.x p) * (Point.x q - Point.x p) +
        (Point.y q - Point.y p) * (Point.y q - Point.y p)).

Definition point (eyePoints : list Point.t) (i : nat) : Point.t :=
  nth i eyePoints (Point.mk 0 0).

(** As the specification words it: the vertical distances (1,5) and (2,4)
    averaged, divided by twice the horizontal distance (0,3). *)
Definition asWorded (eyePoints : list Point.t) : float :=
  let vertical15 := euclid (point eyePoints 1) (point eyePoints 5) in
  let vertical24 := euclid (point eyePoints 2) (point eyePoints 4) in
  let horizontal := euclid (point eyePoints 0) (point eyePoints 3) in
  ((vertical15 + vertical24) / 2) / (2 * horizontal).

(** Amended: the sum of the two vertical distances, divided by twice the
    horizontal distance. *)
Definition amended (eyePoints : list Point.t) : float :=
  let vertical15 := euclid (point eyePoints 1) (point eyePoints 5) in
  let vertical24 := euclid (point eyePoints 2) (point eyePoints 4) in
  let horizontal := euclid (point eyePoints 0) (point eyePoints 3) in
  (vertical15 + vertical24) / (2 * horizontal).

(** The claim with the wording taken literally. *)
Definition getEAR_asWorded : Prop :=
  forall eyePoints, 6 <= length eyePoints ->
    completion (getEAR eyePoints) constructor = Normal (asWorded eyePoints).

End EarSpec.

(** ** Notions for the further properties *)

(** How a call of [detectLiveness] ends, read off the frame alone: at the
    ReferenceError of the guard, at the return of the guard, at the rejection
    of the detector, at one of the two early returns, at a throw of one of the
    two ratio computations, or at the final [return]. *)
Inductive FrameKind :=
| Unloaded
| AtGuard
| Rejected
| NoFace
| ManyFaces
| EyeThrows (lm : FaceLandmarks)
| MouthThrows (lm : FaceLandmarks) (e : float)
| RunsThrough (lm : FaceLandmarks) (e mouthAR : float).

Definition kindOf (f : Frame) : FrameKind :=
  if negb (videoElement f) then AtGuard
  else
    match faceapi f with
    | Undeclared => Unloaded
    | Declared false => AtGuard
    | Declared true =>
    match detectAllFaces f with
    | Throw => Rejected
    | Normal [] => NoFace
    | Normal [d] =>
        match eyeRatio (landmarks d) with
        | Throw => EyeThrows (landmarks d)
        | Normal e =>
            match mouthRatio (landmarks d) with
            | Throw => MouthThrows (landmarks d) e
            | Normal mouthAR => RunsThrough (landmarks d) e mouthAR
            end
        end
    | Normal (_ :: _ :: _) => ManyFaces
    end
    end.

(** The values [antiSpoofingScore] takes. *)
Definition antiSpoofingValues : list float :=
  [0; 20; 50; 70; 100]%float.

(** What a true verdict stands for, in terms of the fields: the gates of
    [calculateLivenessScore] and the threshold the host adds on the
    real-person score. *)
Definition verdictBacked (s : LivenessDetector) : Prop :=
  isLivenessActive s = true ->
  photoSpoofingDetected s = false /\
  screenSpoofingDetected s = false /\
  2 <= blinkCount s /\
  headMovementDetected s = true /\
  Js.geb (antiSpoofingScore s) 70 = true /\
  Js.geb (livenessScore s) 80 = true /\
  Js.geb (realPersonScore s) 70 = true.

(** What a frame does to the four blink fields when [calculateEyeAspectRatio]
    completes and [calculateMouthAspectRatio] throws: the counters move, and
    [detectBlinks] does not run. *)
Definition eyeOnlyStep (shut : bool) (v : nat * nat * bool * nat)
    : nat * nat * bool * nat :=
  let '(closed, open, latched, count) := v in
  (if shut then S closed else 0, if shut then 0 else S open, latched, count).

(** A lower bound on the number of calls before the blink counter can move:
    with the latch set, the open frames that clear it and then 3 shut frames;
    with the latch clear, the shut frames still missing. *)
Definition framesUntilBlink (v : nat * nat * bool * nat) : nat :=
  let '(closed, open, latched, count) := v in
  if latched then Nat.max 1 (3 - open) + 3 else Nat.max 1 (3 - closed).

(** A lower bound on the number of calls before the counter reaches
    [target]: each blink after the next takes 6 more. *)
Definition framesNeeded (target : nat) (v : nat * nat * bool * nat) : nat :=
  let '(closed, open, latched, count) := v in
  if target <=? count then 0
  else framesUntilBlink v + 6 * (target - count - 1).

(** *** Head movement *)

(** The test the loop of [detectHeadMovement] makes on one step of the
    history: the nose moved by more than the threshold along x or along y. *)
Definition jump (prev curr : Sample.t) : bool :=
  Js.gtb (abs (Sample.x curr - Sample.x prev)) HEAD_MOVEMENT_THRESHOLD
  || Js.gtb (abs (Sample.y curr - Sample.y prev)) HEAD_MOVEMENT_THRESHOLD.

(** Some two successive entries of [h] are a jump. *)
Fixpoint anyJump (h : list Sample.t) : bool :=
  match h with
  | [] => false
  | prev :: rest =>
      match rest with
      | [] => false
      | curr :: _ => jump prev curr || anyJump rest
      end
  end.

(** *** The mouth latch *)

(** The mouth aspect ratio of a frame whose single-face path runs to the
    end. *)
Definition mouthRatioOf (f : Frame) : option float :=
  match kindOf f with
  | RunsThrough _ _ mouthAR => Some mouthAR
  | _ => None
  end.

(** A processed frame whose mouth ratio is above the threshold, and one whose
    ratio is not (a NaN ratio is not above). *)
Definition mouthWide (f : Frame) : bool :=
  match mouthRatioOf f with
  | Some mouthAR => Js.gtb mouthAR MOUTH_AR_THRESHOLD
  | None => false
  end.

Definition mouthNarrow (f : Frame) : bool :=
  match mouthRatioOf f with
  | Some mouthAR => negb (Js.gtb mouthAR MOUTH_AR_THRESHOLD)
  | None => false
  end.

(** The three fields of the mouth detector, what [detectMouthMovements] does
    to them, and what one processed frame does, [wide] telling whether its
    ratio is above the threshold. *)
Definition mouthView (s : LivenessDetector) : nat * nat * bool :=
  (mouthOpenFrames s, mouthClosedFrames s, mouthOpenDetected s).

Definition mouthLatch (v : nat * nat * bool) : nat * nat * bool :=
  let '(open, closed, latched) := v in
  (open, closed,
   if MOUTH_AR_CONSEC_FRAMES <=? closed then false
   else latched || (MOUTH_AR_CONSEC_FRAMES <=? open)).

Definition mouthStep (wide : bool) (v : nat * nat * bool) : nat * nat * bool :=
  let '(open, closed, latched) := v in
  mouthLatch (if wide then (S open, 0, latched) else (0, S closed, latched)).

(** A face that speaks: eyes open, the lips [gap] apart on a mouth of width 4
    (ratio [gap / 4]), nose at [noseX]. *)
Module Speaking.
Open Scope float_scope.

Definition mouth (gap : float) : list Point.t :=
  repeat (Scenario.pt 0 0) 12 ++
  [Scenario.pt 0 0; Scenario.pt 1 gap; Scenario.pt 2 gap; Scenario.pt 3 gap;
   Scenario.pt 4 0; Scenario.pt 3 0; Scenario.pt 2 0; Scenario.pt 1 0].

Definition frame (gap noseX : float) : Frame :=
  Scenario.frame
    [mkDetection
       (mkFaceLandmarks (Scenario.eye 2) (Scenario.eye 2) (mouth gap)
          [Scenario.pt noseX 0])].

End Speaking.

(** *** A face that does not move *)

(** A frame whose single-face path runs to the end and records the nose at
    [(x, y)]; a history whose entries are all at [(x, y)]. *)
Definition stillAt (x y : float) (f : Frame) : Prop :=
  exists entry,
    sampleOf f = Some entry /\ Sample.x entry = x /\ Sample.y entry = y.

Definition allAt (x y : float) (h : list Sample.t) : Prop :=
  Forall (fun entry => Sample.x entry = x /\ Sample.y entry = y) h.

(** *** What the status tells *)

(** A contour is too short for an index the code reads: an eye contour has
    fewer than 6 points, or the mouth contour fewer than 20. *)
Definition tooShort (lm : FaceLandmarks) : Prop :=
  length (getLeftEye lm) < 6 \/ length (getRightEye lm) < 6 \/
  length (getMouth lm) < 20.

(** The call throws at the guard: a video element is given while the library
    is not loaded. *)
Definition unloaded (f : Frame) : Prop :=
  videoElement f = true /\ faceapi f = Undeclared.

(** The guard of [detectLiveness] lets the call through. *)
Definition guardPasses (f : Frame) : Prop :=
  videoElement f = true /\ faceapi f = Declared true.

(** ** The host: [BeautifulCamera] of [static/js/camera.js]

    The part of the class that lets a frame go to the recognition service or
    holds it back.  The record has the instance fields that the liveness
    checks read or write.  What the methods write to the page (texts, classes,
    notifications, log entries) is not part of the state; these operations on
    the page are taken to complete.  [window.livenessDetector] is the
    instance that [liveness.js] creates when it is loaded. *)
Module Camera.

Record BeautifulCamera := mkBeautifulCamera {
  livenessEnabled : bool;
  (** [null], or the last snapshot shown *)
  currentLivenessData : option LivenessData.t;
  (** the overlay element exists ([null] before [createLivenessUI]) *)
  livenessUI : bool;
  livenessCheckPassed : bool;
  spoofingAlertShown : bool;
  consecutiveFailedLivenessChecks : nat }.

Definition REQUIRED_REAL_PERSON_SCORE : float := 70%float.
Definition MAX_FAILED_CHECKS : nat := 3.

(** [new BeautifulCamera()] *)
Definition constructor : BeautifulCamera :=
  {| livenessEnabled := true;
     currentLivenessData := None;
     livenessUI := false;
     livenessCheckPassed := false;
     spoofingAlertShown := false;
     consecutiveFailedLivenessChecks := 0 |}.

Section Assign.
Variable c : BeautifulCamera.

Definition set_currentLivenessData v :=
  mkBeautifulCamera (livenessEnabled c) v (livenessUI c)
    (livenessCheckPassed c) (spoofingAlertShown c)
    (consecutiveFailedLivenessChecks c).

Definition set_livenessCheckPassed v :=
  mkBeautifulCamera (livenessEnabled c) (currentLivenessData c) (livenessUI c)
    v (spoofingAlertShown c) (consecutiveFailedLivenessChecks c).

Definition set_spoofingAlertShown v :=
  mkBeautifulCamera (livenessEnabled c) (currentLivenessData c) (livenessUI c)
    (livenessCheckPassed c) v (consecutiveFailedLivenessChecks c).

Definition set_consecutiveFailedLivenessChecks v :=
  mkBeautifulCamera (livenessEnabled c) (currentLivenessData c) (livenessUI c)
    (livenessCheckPassed c) (spoofingAlertShown c) v.

End Assign.

(** [handleSpoofingDetection(data)]: the alert is shown and logged on the
    page; the flag is cleared by a timer 10 s later ([alertTimeout]). *)
Definition handleSpoofingDetection (data : LivenessData.t)
    (c : BeautifulCamera) : BeautifulCamera :=
  set_spoofingAlertShown c true.

Definition alertTimeout (c : BeautifulCamera) : BeautifulCamera :=
  set_spoofingAlertShown c false.

(** [updateLivenessUI(data)] *)
Definition updateLivenessUI (data : LivenessData.t) (c : BeautifulCamera)
    : BeautifulCamera :=
  if negb (livenessUI c) then c
  else
    let c := set_currentLivenessData c (Some data) in
    let c :=
      set_livenessCheckPassed c
        (LivenessData.isActive data
         && negb (LivenessData.spoofingDetected data)
         && Js.geb (LivenessData.realPersonScore data)
              REQUIRED_REAL_PERSON_SCORE) in
    if LivenessData.spoofingDetected data && negb (spoofingAlertShown c)
    then handleSpoofingDetection data c
    else c.

(** The page's two objects: the camera and the detector. *)
Record Host := mkHost {
  camera : BeautifulCamera;
  detector : LivenessDetector }.

(** [startLivenessChecking(videoElement)], up to the start of the timer. *)
Definition startLivenessChecking (h : Host) : Host :=
  if negb (livenessEnabled (camera h)) then h
  else
    mkHost (set_consecutiveFailedLivenessChecks (camera h) 0)
      (exec reset (detector h)).

(** One run of the timer callback of [startLivenessChecking], every 500 ms:
    [f] is what this call of [detectLiveness] meets. *)
Definition livenessCheck (f : Frame) (h : Host) : Host :=
  let c := camera h in
  match detectLiveness f (detector h) with
  | (Normal livenessData, d) =>
      let c := updateLivenessUI livenessData c in
      if LivenessData.isActive livenessData
      then mkHost (set_consecutiveFailedLivenessChecks c 0) d
      else mkHost (set_consecutiveFailedLivenessChecks c
                     (S (consecutiveFailedLivenessChecks c))) d
  | (Throw, d) =>
      mkHost (set_consecutiveFailedLivenessChecks c
                (S (consecutiveFailedLivenessChecks c))) d
  end.

(** How one run of the timer callback of [startMarking] (every 2 s) begins:
    it stops at one of the three tests with a log entry, or goes on to build
    the request to the recognition service, whose body carries
    [liveness_data: this.currentLivenessData]. *)
Inductive MarkOutcome :=
| LivenessFailed
| SpoofingBlocked
| RealPersonFailed
| Request (liveness_data : option LivenessData.t).

Definition markTick (c : BeautifulCamera) : MarkOutcome :=
  if livenessEnabled c then
    if negb (livenessCheckPassed c) then LivenessFailed
    else if match currentLivenessData c with
            | Some data => LivenessData.spoofingDetected data
            | None => false
            end
    then SpoofingBlocked
    else if match currentLivenessData c with
            | Some data =>
                (LivenessData.realPersonScore data
                 <? REQUIRED_REAL_PERSON_SCORE)%float
            | None => false
            end
    then RealPersonFailed
    else Request (currentLivenessData c)
  else Request (currentLivenessData c).

(** What happens on the page between two mark ticks, in the order in which it
    happens: liveness checks, restarts of the checking, alert timeouts. *)
Inductive Event :=
| LivenessCheck (f : Frame)
| StartLivenessChecking
| AlertTimeout.

Definition handle (h : Host) (e : Event) : Host :=
  match e with
  | LivenessCheck f => livenessCheck f h
  | StartLivenessChecking => startLivenessChecking h
  | AlertTimeout => mkHost (alertTimeout (camera h)) (detector h)
  end.

Definition run (es : list Event) (h : Host) : Host := fold_left handle es h.

(** A snapshot that passed every gate. *)
Definition verified (data : LivenessData.t) : Prop :=
  LivenessData.isActive data = true /\
  LivenessData.spoofingDetected data = false /\
  2 <= LivenessData.eyeBlinkCount data /\
  LivenessData.headMovementDetected data = true /\
  Js.geb (LivenessData.antiSpoofingScore data) 70 = true /\
  Js.geb (LivenessData.livenessScore data) 80 = true /\
  Js.geb (LivenessData.realPersonScore data) 70 = true.

End Camera.

(** * Verification *)

#[local] Arguments Nat.leb : simpl never.
#[local] Arguments Nat.ltb : simpl never.

(** ** Running the monad *)

Lemma run_eq {A} (m : M A) s : m s = (completion m s, exec m s).
Proof. unfold completion, exec. destruct (m s); reflexivity. Qed.

Lemma bind_run {A B} (m : M A) (k : A -> M B) s :
  bind m k s =
  match completion m s with
  | Normal a => k a (exec m s)
  | Throw => (Throw, exec m s)
  end.
Proof.
  unfold bind, completion, exec. destruct (m s) as [[a|] s']; reflexivity.
Qed.

(** Unfolds the monad's operations in the goal. *)
Ltac monad :=
  unfold completion, exec, bind, ret, assign, this, lift, try_catch in *;
  simpl in *.

(** Case analysis on every test the goal branches on. *)
Ltac branches :=
  repeat match goal with
    | |- context [if ?b then _ else _] => destruct b eqn:?; simpl
    | |- context [match ?l with [] => _ | _ :: _ => _ end] =>
        destruct l eqn:?; simpl
    | |- context [match ?o with Some _ => _ | None => _ end] =>
        destruct o eqn:?; simpl
    end.

(** ** A small program logic for the methods *)

Section Rules.
Context {A B : Type}.

Lemma total_ret (a : A) : total (ret a).
Proof. intros s. exists a. reflexivity. Qed.

Lemma total_this : total this.
Proof. intros s. exists s. reflexivity. Qed.

Lemma total_assign f : total (assign f).
Proof. intros s. exists tt. reflexivity. Qed.

Lemma total_bind (m : M A) (k : A -> M B) :
  total m -> (forall a, total (k a)) -> total (bind m k).
Proof.
  intros Hm Hk s. destruct (Hm s) as [a Ha].
  destruct (Hk a (exec m s)) as [b Hb]. exists b.
  unfold completion in *. rewrite bind_run. unfold completion.
  rewrite Ha. exact Hb.
Qed.

Lemma keeps_ret I (a : A) : keeps I (ret a).
Proof. intros s H. exact H. Qed.

Lemma keeps_lift I (c : Completion A) : keeps I (lift c).
Proof. intros s H. exact H. Qed.

Lemma keeps_this I : keeps I this.
Proof. intros s H. exact H. Qed.

Lemma keeps_assign (I : LivenessDetector -> Prop) f :
  (forall s, I s -> I (f s)) -> keeps I (assign f).
Proof. intros H s Hs. apply H, Hs. Qed.

Lemma keeps_bind I (m : M A) (k : A -> M B) :
  keeps I m -> (forall a, keeps I (k a)) -> keeps I (bind m k).
Proof.
  intros Hm Hk s Hs. unfold exec. rewrite bind_run.
  destruct (completion m s) as [a|]; [apply Hk | simpl]; apply Hm, Hs.
Qed.

Lemma keeps_try I (m h : M A) : keeps I m -> keeps I h -> keeps I (try_catch m h).
Proof.
  intros Hm Hh s Hs. unfold exec, try_catch. rewrite (run_eq m s).
  destruct (completion m s); [simpl | apply Hh]; apply Hm, Hs.
Qed.
End Rules.

Lemma total_unit (m : M unit) s : total m -> completion m s = Normal tt.
Proof. intros H. destruct (H s) as [[] E]. exact E. Qed.

(** Decomposes a goal [total m] or [keeps I m] along the structure of [m],
    leaving the assignments of a [keeps] goal. *)
Ltac structure :=
  repeat first
    [ apply total_ret | apply total_this | apply total_assign
    | apply total_bind; [|intro]
    | apply keeps_ret | apply keeps_this | apply keeps_lift
    | apply keeps_bind; [|intro]
    | match goal with
      | |- total (if ?b then _ else _) => destruct b
      | |- keeps _ (if ?b then _ else _) => destruct b
      | |- total (match ?l with [] => _ | _ :: _ => _ end) => destruct l
      | |- keeps _ (match ?l with [] => _ | _ :: _ => _ end) => destruct l
      | |- total (match ?o with Some _ => _ | None => _ end) => destruct o
      | |- keeps _ (match ?o with Some _ => _ | None => _ end) => destruct o
      | |- total (let '(_, _) := ?p in _) => destruct p
      | |- keeps _ (let '(_, _) := ?p in _) => destruct p
      end ].

(** ** The updates never throw *)

Lemma movementLoop_total rest : forall prev total_ n,
  total (movementLoop prev rest total_ n).
Proof.
  induction rest as [|curr rest IH]; intros; simpl; structure. apply IH.
Qed.

Lemma detectBlinks_total : total detectBlinks.
Proof. unfold detectBlinks. structure. Qed.

Lemma detectMouthMovements_total : total detectMouthMovements.
Proof. unfold detectMouthMovements. structure. Qed.

Lemma detectHeadMovement_total f : total (detectHeadMovement f).
Proof. unfold detectHeadMovement. structure. apply movementLoop_total. Qed.

Lemma detectSpoofing_total f : total (detectSpoofing f).
Proof.
  unfold detectSpoofing. structure.
Qed.

Lemma calculateAntiSpoofingScore_total : total calculateAntiSpoofingScore.
Proof.
  unfold calculateAntiSpoofingScore. structure.
Qed.

Lemma calculateLivenessScore_total : total calculateLivenessScore.
Proof.
  unfold calculateLivenessScore. structure.
Qed.

(** ** The two ratio computations *)

(** The contours are only read: [getEAR] and [distance] leave [this] alone,
    and what they complete with does not depend on it. *)
Lemma distance_run p q s :
  distance p q s = (completion (distance p q) constructor, s).
Proof. destruct p, q; reflexivity. Qed.

Lemma getEAR_run eyePoints s :
  getEAR eyePoints s = (completion (getEAR eyePoints) constructor, s).
Proof.
  unfold getEAR. monad.
  rewrite !(distance_run _ _ s), !(distance_run _ _ constructor).
  repeat match goal with
    |- context [completion (distance ?p ?q) constructor] =>
      destruct (completion (distance p q) constructor); simpl;
      rewrite ?(distance_run _ _ s), ?(distance_run _ _ constructor)
  end; reflexivity.
Qed.

Lemma calculateEyeAspectRatio_run s lm :
  faceLandmarks s = Some lm ->
  calculateEyeAspectRatio s =
  match eyeRatio lm with
  | Normal e => (Normal tt, eyeWrites e s)
  | Throw => (Throw, s)
  end.
Proof.
  intros E. unfold calculateEyeAspectRatio, eyeRatio, eyeWrites. monad.
  rewrite E.
  rewrite !(getEAR_run _ s), !(getEAR_run _ constructor).
  destruct (completion (getEAR (getLeftEye lm)) constructor) as [l|]; simpl;
    [|reflexivity].
  destruct (completion (getEAR (getRightEye lm)) constructor) as [r|]; simpl;
    [|reflexivity].
  destruct ((l + r) / 2 <? EYE_AR_THRESHOLD)%float; reflexivity.
Qed.

Lemma calculateMouthAspectRatio_run s lm :
  faceLandmarks s = Some lm ->
  calculateMouthAspectRatio s =
  match mouthRatio lm with
  | Normal mouthAR => (Normal tt, mouthWrites mouthAR s)
  | Throw => (Throw, s)
  end.
Proof.
  intros E. unfold calculateMouthAspectRatio, mouthRatio, mouthWrites. monad.
  rewrite E.
  rewrite !(distance_run _ _ s), !(distance_run _ _ constructor).
  repeat match goal with
    |- context [completion (distance ?p ?q) constructor] =>
      destruct (completion (distance p q) constructor); simpl;
      rewrite ?(distance_run _ _ s), ?(distance_run _ _ constructor)
  end; try reflexivity.
  match goal with |- context [if ?b then _ else _] => destruct b end;
    reflexivity.
Qed.

(** A contour long enough for every index the code reads is measured; a
    shorter one makes the code read a coordinate of [undefined]. *)
Lemma getEAR_defined eyePoints :
  (exists e, completion (getEAR eyePoints) constructor = Normal e) <->
  6 <= length eyePoints.
Proof.
  split.
  - intros [e H].
    destruct eyePoints as [|p0 [|p1 [|p2 [|p3 [|p4 [|p5 l]]]]]];
      try discriminate H. simpl. lia.
  - intros H.
    destruct eyePoints as [|p0 [|p1 [|p2 [|p3 [|p4 [|p5 l]]]]]];
      simpl in H; try lia.
    eexists. reflexivity.
Qed.

Lemma eyeRatio_defined lm :
  (exists e, eyeRatio lm = Normal e) <->
  6 <= length (getLeftEye lm) /\ 6 <= length (getRightEye lm).
Proof.
  rewrite <- !getEAR_defined. unfold eyeRatio.
  set (l := completion (getEAR (getLeftEye lm)) constructor).
  set (r := completion (getEAR (getRightEye lm)) constructor).
  unfold completion at 1, bind, ret.
  rewrite !(getEAR_run _ constructor). fold l r.
  destruct l as [a|], r as [b|]; simpl; split;
    try (intros [e H]; discriminate H);
    try (intros [[e H] [e' H']]; discriminate);
    eauto.
Qed.

Lemma mouthRatio_defined lm :
  (exists mouthAR, mouthRatio lm = Normal mouthAR) <->
  20 <= length (getMouth lm).
Proof.
  unfold mouthRatio. cbv zeta. set (mouth := getMouth lm). split.
  - intros [v H]. destruct (le_lt_dec 20 (length mouth)) as [L|L]; [exact L|].
    assert (E : nth_error mouth 19 = None) by (apply nth_error_None; lia).
    unfold completion, bind in H. rewrite E in H. discriminate H.
  - intros L.
    assert (P : forall i, i < 20 -> exists p, nth_error mouth i = Some p).
    { intros i Hi. destruct (nth_error mouth i) as [p|] eqn:E; [eauto|].
      apply nth_error_None in E. lia. }
    destruct (P 12) as [p12 E12]; [lia|]. destruct (P 13) as [p13 E13]; [lia|].
    destruct (P 14) as [p14 E14]; [lia|]. destruct (P 15) as [p15 E15]; [lia|].
    destruct (P 16) as [p16 E16]; [lia|]. destruct (P 17) as [p17 E17]; [lia|].
    destruct (P 18) as [p18 E18]; [lia|]. destruct (P 19) as [p19 E19]; [lia|].
    rewrite E12, E13, E14, E15, E16, E17, E18, E19. eexists. reflexivity.
Qed.

(** ** One call of [detectLiveness], case by case *)

Lemma seq_run {B} (m : M unit) (k : M B) s :
  total m -> bind m (fun _ => k) s = k (exec m s).
Proof. intros H. rewrite bind_run, (total_unit m s H). reflexivity. Qed.

Lemma exec_seq {B} (m : M unit) (k : M B) s :
  total m -> exec (bind m (fun _ => k)) s = exec k (exec m s).
Proof. intros H. unfold exec at 1. rewrite seq_run by exact H. reflexivity. Qed.

Lemma eyeWrites_landmarks e s : faceLandmarks (eyeWrites e s) = faceLandmarks s.
Proof. unfold eyeWrites. destruct (_ <? _)%float; reflexivity. Qed.

Lemma singleFace_run f d s :
  singleFace f d s =
  let lm := landmarks d in
  let s0 := set_faceLandmarks s (Some lm) in
  match eyeRatio lm with
  | Throw => (Throw, s0)
  | Normal e =>
      match mouthRatio lm with
      | Throw => (Throw, eyeWrites e s0)
      | Normal mouthAR =>
          let s' := faceState f lm e mouthAR s in
          (Normal (getLivenessData s'), s')
      end
  end.
Proof.
  unfold singleFace, faceState. cbv zeta.
  rewrite seq_run by apply total_assign. unfold exec at 1, assign at 1.
  cbn [snd].
  set (s0 := set_faceLandmarks s (Some (landmarks d))).
  rewrite bind_run. unfold completion at 1, exec at 1 2.
  rewrite (calculateEyeAspectRatio_run s0 (landmarks d)) by reflexivity.
  destruct (eyeRatio (landmarks d)) as [e|]; [|reflexivity]. cbn [fst snd].
  rewrite bind_run. unfold completion at 1, exec at 1 2.
  rewrite (calculateMouthAspectRatio_run (eyeWrites e s0) (landmarks d))
    by (rewrite eyeWrites_landmarks; reflexivity).
  destruct (mouthRatio (landmarks d)) as [m|]; [|reflexivity]. cbn [fst snd].
  unfold updates.
  rewrite seq_run by apply detectBlinks_total.
  rewrite seq_run by apply detectMouthMovements_total.
  rewrite seq_run by apply detectHeadMovement_total.
  rewrite seq_run by apply detectSpoofing_total.
  rewrite seq_run by apply calculateAntiSpoofingScore_total.
  rewrite seq_run by apply calculateLivenessScore_total.
  rewrite exec_seq by apply detectBlinks_total.
  rewrite exec_seq by apply detectMouthMovements_total.
  rewrite exec_seq by apply detectHeadMovement_total.
  rewrite exec_seq by apply detectSpoofing_total.
  rewrite exec_seq by apply calculateAntiSpoofingScore_total.
  reflexivity.
Qed.

(** The single-face path returns exactly when the contours are long enough
    for the indices the code reads: 6 points per eye, 20 for the mouth. *)
Lemma singleFace_returns f d s :
  (exists c s', singleFace f d s = (Normal c, s')) <->
  6 <= length (getLeftEye (landmarks d)) /\
  6 <= length (getRightEye (landmarks d)) /\
  20 <= length (getMouth (landmarks d)).
Proof.
  rewrite singleFace_run. cbv zeta.
  rewrite <- mouthRatio_defined, <- and_assoc, <- eyeRatio_defined.
  destruct (eyeRatio (landmarks d)) as [e|];
    destruct (mouthRatio (landmarks d)) as [m|]; split;
    try (intros (c & s' & H); discriminate H);
    try (intros [[v H] [v' H']]; discriminate);
    eauto.
Qed.

Lemma processed_inv f s c s' :
  processed f s c s' ->
  exists d e mouthAR,
    detectAllFaces f = Normal [d] /\
    eyeRatio (landmarks d) = Normal e /\
    mouthRatio (landmarks d) = Normal mouthAR /\
    s' = faceState f (landmarks d) e mouthAR s /\
    c = getLivenessData s'.
Proof.
  intros (_ & _ & d & Hd & H). rewrite singleFace_run in H. cbv zeta in H.
  destruct (eyeRatio (landmarks d)) as [e|] eqn:He; [|discriminate H].
  destruct (mouthRatio (landmarks d)) as [m|] eqn:Hm; [|discriminate H].
  injection H as Hc Hs. exists d, e, m. subst c s'. repeat split; auto.
Qed.

Lemma detectLiveness_unloaded f s :
  videoElement f = true -> faceapi f = Undeclared ->
  detectLiveness f s = (Throw, s).
Proof.
  intros V F. unfold detectLiveness, guard. rewrite V, F. reflexivity.
Qed.

Lemma detectLiveness_guard f s :
  videoElement f = false \/ faceapi f = Declared false ->
  detectLiveness f s = (Normal (literal pending false), s).
Proof.
  intros [H|H]; unfold detectLiveness, guard; rewrite H; [reflexivity|].
  destruct (videoElement f); reflexivity.
Qed.

Lemma detectLiveness_try f s :
  videoElement f = true -> faceapi f = Declared true ->
  detectLiveness f s =
  match tryBlock f s with
  | (Normal c, s') => (Normal c, s')
  | (Throw, s') => (Normal (literal error true), s')
  end.
Proof.
  intros V F. unfold detectLiveness, guard. rewrite V, F. reflexivity.
Qed.

Lemma tryBlock_rejected f s :
  detectAllFaces f = Throw -> tryBlock f s = (Throw, s).
Proof. intros H. unfold tryBlock. monad. rewrite H. reflexivity. Qed.

Lemma tryBlock_no_face f s :
  detectAllFaces f = Normal [] ->
  tryBlock f s =
  (Normal (getLivenessData (set_livenessStatus s no_face)),
   set_livenessStatus s no_face).
Proof. intros H. unfold tryBlock. monad. rewrite H. reflexivity. Qed.

Lemma tryBlock_multiple f s ds :
  detectAllFaces f = Normal ds -> 1 < length ds ->
  tryBlock f s =
  (Normal (getLivenessData (set_livenessStatus s multiple_faces)),
   set_livenessStatus s multiple_faces).
Proof.
  intros H L. unfold tryBlock. monad. rewrite H.
  destruct ds as [|d [|d' ds]]; simpl in L; try lia. reflexivity.
Qed.

Lemma tryBlock_single f s d :
  detectAllFaces f = Normal [d] -> tryBlock f s = singleFace f d s.
Proof.
  intros H. unfold tryBlock. unfold bind at 1, lift. rewrite H. reflexivity.
Qed.

Lemma processed_run f s c s' :
  processed f s c s' -> detectLiveness f s = (Normal c, s').
Proof.
  intros (V & F & d & Hd & H). rewrite detectLiveness_try by assumption.
  rewrite (tryBlock_single f s d Hd), H. reflexivity.
Qed.

(** ** The verdict and the status ([calculateLivenessScore]) *)

Lemma calculateLivenessScore_post s :
  let s' := exec calculateLivenessScore s in
  isLivenessActive s' =
    (Js.geb (livenessScore s') MIN_LIVENESS_SCORE
     && (MIN_BLINKS_REQUIRED <=? blinkCount s')
     && headMovementDetected s'
     && Js.geb (antiSpoofingScore s') ANTI_SPOOFING_THRESHOLD
     && negb (photoSpoofingDetected s')
     && negb (screenSpoofingDetected s')) /\
  livenessStatus s' =
    (if isLivenessActive s' then active
     else if photoSpoofingDetected s' then photo_detected
     else if screenSpoofingDetected s' then screen_detected
     else if blinkCount s' <? MIN_BLINKS_REQUIRED then need_blinks
     else if negb (headMovementDetected s') then need_movement
     else if (antiSpoofingScore s' <? ANTI_SPOOFING_THRESHOLD)%float
          then suspicious
     else inactive).
Proof.
  destruct s. unfold calculateLivenessScore, calculateRealPersonScore,
    getDetailedStatus. monad.
  match goal with |- context [set_isLivenessActive _ ?b] =>
    remember b as v eqn:E end.
  destruct v; simpl; [split; [exact E | reflexivity]|].
  branches; try discriminate; (split; [exact E | reflexivity]).
Qed.

Lemma updates_last f s :
  exists s8, exec (updates f) s = exec calculateLivenessScore s8.
Proof.
  unfold updates.
  rewrite exec_seq by apply detectBlinks_total.
  rewrite exec_seq by apply detectMouthMovements_total.
  rewrite exec_seq by apply detectHeadMovement_total.
  rewrite exec_seq by apply detectSpoofing_total.
  rewrite exec_seq by apply calculateAntiSpoofingScore_total.
  eauto.
Qed.

Lemma faceState_post f lm e mouthAR s :
  let s' := faceState f lm e mouthAR s in
  isLivenessActive s' =
    (Js.geb (livenessScore s') MIN_LIVENESS_SCORE
     && (MIN_BLINKS_REQUIRED <=? blinkCount s')
     && headMovementDetected s'
     && Js.geb (antiSpoofingScore s') ANTI_SPOOFING_THRESHOLD
     && negb (photoSpoofingDetected s')
     && negb (screenSpoofingDetected s')) /\
  livenessStatus s' =
    (if isLivenessActive s' then active
     else if photoSpoofingDetected s' then photo_detected
     else if screenSpoofingDetected s' then screen_detected
     else if blinkCount s' <? MIN_BLINKS_REQUIRED then need_blinks
     else if negb (headMovementDetected s') then need_movement
     else if (antiSpoofingScore s' <? ANTI_SPOOFING_THRESHOLD)%float
          then suspicious
     else inactive).
Proof.
  unfold faceState.
  destruct (updates_last f
    (mouthWrites mouthAR (eyeWrites e (set_faceLandmarks s (Some lm)))))
    as [s8 E].
  rewrite E. apply calculateLivenessScore_post.
Qed.

(** ** C1: the final verdict *)

(** C1.  After a successfully processed single-face frame, the verdict
    [isActive] of the returned snapshot (which is the field
    [isLivenessActive] of the session) is true if and only if all the gates
    hold together: [livenessScore >= 80], [blinkCount >= 2], head movement
    detected, [antiSpoofingScore >= 70], no photo spoof, no screen spoof.  In
    particular a blink count of 1 gives [isActive = false] whatever the
    scores. *)
Theorem verdict_iff_all_gates f s c s' :
  processed f s c s' ->
  detectLiveness f s = (Normal c, s') /\
  LivenessData.isActive c = isLivenessActive s' /\
  (LivenessData.isActive c = true <-> Spec.verdict c) /\
  (LivenessData.eyeBlinkCount c = 1 -> LivenessData.isActive c = false).
Proof.
  intros P. split; [apply processed_run, P|].
  destruct (processed_inv _ _ _ _ P) as (d & e & m & _ & _ & _ & Hs & Hc).
  destruct (faceState_post f (landmarks d) e m s) as [V _].
  cbv zeta in V. rewrite <- Hs in V. subst c. unfold Spec.verdict. simpl.
  split; [reflexivity|]. rewrite V.
  unfold MIN_LIVENESS_SCORE, ANTI_SPOOFING_THRESHOLD, MIN_BLINKS_REQUIRED.
  split.
  - rewrite !andb_true_iff, !negb_true_iff, Nat.leb_le. split.
    + intros (((((A & B) & C) & D) & E) & F). rewrite E, F. auto 10.
    + intros (A & B & C & D & E & F).
      injection E as E. injection F as F. auto 10.
  - intros B. rewrite B. simpl. rewrite andb_false_r. reflexivity.
Qed.

Lemma verdict_iff_all_gates_witness :
  let s := session Scenario.oneBlink constructor in
  let f := Scenario.shut 30 in
  let s' := exec (detectLiveness f) s in
  let c := getLivenessData s' in
  processed f s c s' /\
  LivenessData.eyeBlinkCount c = 1 /\
  (detectLiveness f s = (Normal c, s') /\
   LivenessData.isActive c = isLivenessActive s' /\
   (LivenessData.isActive c = true <-> Spec.verdict c) /\
   (LivenessData.eyeBlinkCount c = 1 -> LivenessData.isActive c = false)).
Proof.
  cbv zeta.
  assert (P : processed (Scenario.shut 30)
                (session Scenario.oneBlink constructor)
                (getLivenessData
                   (exec (detectLiveness (Scenario.shut 30))
                      (session Scenario.oneBlink constructor)))
                (exec (detectLiveness (Scenario.shut 30))
                   (session Scenario.oneBlink constructor))).
  { split; [reflexivity|]. split; [reflexivity|].
    exists (Scenario.face 0.5 30). split; [reflexivity|].
    vm_compute. reflexivity. }
  split; [exact P|]. split; [vm_compute; reflexivity|].
  exact (verdict_iff_all_gates _ _ _ _ P).
Defined.

(** ** C2: the status cascade *)

(** C2.  The status of a frame whose [try] block returns is resolved by the
    priority cascade: no detection gives [no_face], more than one gives
    [multiple_faces], otherwise a true verdict gives [active], otherwise the
    first that applies of photo spoof, screen spoof, [blinkCount < 2], no head
    movement, [antiSpoofingScore < 70], and else [inactive].  In particular a
    raised photo-spoof flag gives [photo_detected] on a single-face frame, also
    when [blinkCount < 2]. *)
Theorem status_priority_cascade f s ds c s' :
  videoElement f = true -> faceapi f = Declared true ->
  detectAllFaces f = Normal ds ->
  tryBlock f s = (Normal c, s') ->
  detectLiveness f s = (Normal c, s') /\
  LivenessData.status c = Spec.resolveStatus (length ds) c /\
  (length ds = 1 -> LivenessData.photoSpoofingDetected c = Some true ->
   LivenessData.status c = photo_detected).
Proof.
  intros V F D T. split.
  { rewrite detectLiveness_try, T by assumption. reflexivity. }
  destruct ds as [|d [|d' ds]].
  - rewrite tryBlock_no_face in T by assumption. injection T as Hc _.
    subst c. split; [reflexivity | discriminate].
  - rewrite (tryBlock_single f s d D), singleFace_run in T. cbv zeta in T.
    destruct (eyeRatio (landmarks d)) as [e|]; [|discriminate T].
    destruct (mouthRatio (landmarks d)) as [m|]; [|discriminate T].
    injection T as Hc Hs.
    destruct (faceState_post f (landmarks d) e m s) as [A B].
    cbv zeta in A, B. rewrite Hs in A, B, Hc. subst c.
    unfold Spec.resolveStatus. simpl. rewrite B.
    unfold MIN_BLINKS_REQUIRED, ANTI_SPOOFING_THRESHOLD.
    split.
    + destruct (isLivenessActive s'); [reflexivity|].
      destruct (photoSpoofingDetected s'); [reflexivity|].
      destruct (screenSpoofingDetected s'); reflexivity.
    + intros _ E. injection E as E. rewrite A, E.
      rewrite andb_false_r. reflexivity.
  - rewrite (tryBlock_multiple f s _ D) in T by (simpl; lia).
    injection T as Hc _. subst c. split; [reflexivity | discriminate].
Qed.

Lemma status_priority_cascade_witness :
  let s := session (repeat (Scenario.open 0) 5) constructor in
  let f := Scenario.shut 0 in
  let s' := exec (detectLiveness f) s in
  let c := getLivenessData s' in
  (LivenessData.eyeBlinkCount c < 2 /\
   LivenessData.photoSpoofingDetected c = Some true /\
   LivenessData.status c = photo_detected) /\
  (detectLiveness f s = (Normal c, s') /\
   LivenessData.status c = Spec.resolveStatus 1 c /\
   (1 = 1 -> LivenessData.photoSpoofingDetected c = Some true ->
    LivenessData.status c = photo_detected)).
Proof.
  cbv zeta. split.
  - vm_compute. repeat split. lia.
  - apply (@status_priority_cascade (Scenario.shut 0)
             (session (repeat (Scenario.open 0) 5) constructor)
             [Scenario.face 0.5 0]).
    + reflexivity.
    + reflexivity.
    + reflexivity.
    + vm_compute. reflexivity.
Defined.

(** ** C8 and C10: frames without exactly one face *)

Lemma reset_run s :
  reset s =
  (Normal tt,
   mkLivenessDetector (faceLandmarks s) (eyeAspectRatio s) 0 (headMovement s)
     pending 0 0 false false 0 0 false 0%float 0%float false [] false false
     0%float).
Proof. reflexivity. Qed.

(** C8.  When the detector returns more than one face, the call returns the
    snapshot with status [multiple_faces] and writes nothing but
    [livenessStatus]: the blink count, the consecutive-frame counters, the two
    latches, the head-movement flag, the spoof flags, the motion history and
    the scores are those of the state before the call. *)
Theorem multiple_faces_no_mutation f s ds :
  videoElement f = true -> faceapi f = Declared true ->
  detectAllFaces f = Normal ds -> 1 < length ds ->
  exists c s',
    detectLiveness f s = (Normal c, s') /\
    LivenessData.status c = multiple_faces /\
    s' = set_livenessStatus s multiple_faces /\
    blinkCount s' = blinkCount s /\
    eyeClosedFrames s' = eyeClosedFrames s /\
    eyeOpenFrames s' = eyeOpenFrames s /\
    mouthOpenFrames s' = mouthOpenFrames s /\
    mouthClosedFrames s' = mouthClosedFrames s /\
    blinkDetected s' = blinkDetected s /\
    mouthOpenDetected s' = mouthOpenDetected s /\
    headMovementDetected s' = headMovementDetected s /\
    photoSpoofingDetected s' = photoSpoofingDetected s /\
    screenSpoofingDetected s' = screenSpoofingDetected s /\
    frameHistory s' = frameHistory s /\
    antiSpoofingScore s' = antiSpoofingScore s /\
    livenessScore s' = livenessScore s /\
    realPersonScore s' = realPersonScore s /\
    isLivenessActive s' = isLivenessActive s.
Proof.
  intros V F D L. do 2 eexists. split.
  - rewrite detectLiveness_try, (tryBlock_multiple f s ds D L) by assumption.
    reflexivity.
  - simpl. repeat split.
Qed.

Lemma multiple_faces_no_mutation_witness :
  let s := session Scenario.twoBlinks constructor in
  let f := Scenario.frame [Scenario.face 2 0; Scenario.face 2 50] in
  blinkCount s = 2 /\
  exists c s',
    detectLiveness f s = (Normal c, s') /\
    LivenessData.status c = multiple_faces /\
    s' = set_livenessStatus s multiple_faces /\
    blinkCount s' = blinkCount s /\
    eyeClosedFrames s' = eyeClosedFrames s /\
    eyeOpenFrames s' = eyeOpenFrames s /\
    mouthOpenFrames s' = mouthOpenFrames s /\
    mouthClosedFrames s' = mouthClosedFrames s /\
    blinkDetected s' = blinkDetected s /\
    mouthOpenDetected s' = mouthOpenDetected s /\
    headMovementDetected s' = headMovementDetected s /\
    photoSpoofingDetected s' = photoSpoofingDetected s /\
    screenSpoofingDetected s' = screenSpoofingDetected s /\
    frameHistory s' = frameHistory s /\
    antiSpoofingScore s' = antiSpoofingScore s /\
    livenessScore s' = livenessScore s /\
    realPersonScore s' = realPersonScore s /\
    isLivenessActive s' = isLivenessActive s.
Proof.
  cbv zeta. split; [vm_compute; reflexivity|].
  apply (multiple_faces_no_mutation
           (Scenario.frame [Scenario.face 2 0; Scenario.face 2 50])
           (session Scenario.twoBlinks constructor)
           [Scenario.face 2 0; Scenario.face 2 50]).
  - reflexivity.
  - reflexivity.
  - reflexivity.
  - simpl. lia.
Defined.

(** A session that has processed one open-eyed frame is neither new nor just
    reset (its history holds an entry), and a zero-face frame returns that
    very snapshot. *)
Lemma triple_only_when_fresh_fails : ~ triple_only_when_fresh.
Proof.
  intros H.
  specialize (H [Scenario.open 0] (Scenario.frame [])
                (getLivenessData
                   (set_livenessStatus
                      (session [Scenario.open 0] constructor) no_face))
                (set_livenessStatus
                   (session [Scenario.open 0] constructor) no_face)
                eq_refl eq_refl eq_refl).
  cbv zeta in H.
  assert (E : fresh (session [Scenario.open 0] constructor)).
  { apply H.
    - rewrite detectLiveness_try, tryBlock_no_face; reflexivity.
    - vm_compute. repeat split. }
  apply (f_equal (fun t => length (frameHistory t))) in E.
  vm_compute in E. discriminate E.
Qed.

(** C10, amended.  A frame with no face, or with several, returns a snapshot
    whose fields other than [status] are read from the fields as the earlier
    frames left them: blink count, flags, scores and the verdict [isActive].
    So a [no_face] snapshot reports [isActive = true] after a frame that set
    the verdict.  A zero-face frame returns [isActive = false] and
    [eyeBlinkCount = 0] exactly when the stored verdict is false and the
    stored blink count is 0: on a fresh or just-reset session, and on any
    other session that has not counted a blink yet. *)
Theorem absent_face_snapshot_is_stale f s ds :
  videoElement f = true -> faceapi f = Declared true ->
  detectAllFaces f = Normal ds -> length ds <> 1 ->
  let st := if length ds =? 0 then no_face else multiple_faces in
  let old := getLivenessData s in
  exists c,
    detectLiveness f s = (Normal c, set_livenessStatus s st) /\
    c = LivenessData.mk st
          (LivenessData.eyeBlinkCount old) (LivenessData.mouthMovements old)
          (LivenessData.headMovementDetected old)
          (LivenessData.antiSpoofingScore old)
          (LivenessData.livenessScore old) (LivenessData.isActive old)
          (LivenessData.blinkDetected old) (LivenessData.mouthOpenDetected old)
          (LivenessData.spoofingDetected old)
          (LivenessData.realPersonScore old)
          (LivenessData.photoSpoofingDetected old)
          (LivenessData.screenSpoofingDetected old) /\
    LivenessData.isActive c = isLivenessActive s /\
    LivenessData.eyeBlinkCount c = blinkCount s /\
    (LivenessData.isActive c = false /\ LivenessData.eyeBlinkCount c = 0 <->
     isLivenessActive s = false /\ blinkCount s = 0) /\
    (fresh s ->
     LivenessData.isActive c = false /\ LivenessData.eyeBlinkCount c = 0) /\
    (fresh constructor /\ forall s0, fresh (exec reset s0)) /\
    (exists fs,
       let s1 := session fs constructor in
       let c1 := completion (detectLiveness (Scenario.frame [])) s1 in
       c1 = Normal (getLivenessData (set_livenessStatus s1 no_face)) /\
       isLivenessActive s1 = true /\ blinkCount s1 = 2).
Proof.
  intros V F D L. cbv zeta. eexists. split; [|split; [reflexivity|]].
  - rewrite detectLiveness_try by assumption.
    destruct ds as [|d [|d' ds]]; [ | simpl in L; lia | ].
    + rewrite tryBlock_no_face by assumption. reflexivity.
    + rewrite (tryBlock_multiple f s _ D) by (simpl; lia). reflexivity.
  - simpl. repeat split; try tauto.
    + apply (f_equal isLivenessActive) in H. exact H.
    + apply (f_equal blinkCount) in H. exact H.
    + exists Scenario.twoBlinks. vm_compute. repeat split.
Qed.

Lemma absent_face_snapshot_is_stale_witness :
  let s := session Scenario.twoBlinks constructor in
  let f := Scenario.frame [] in
  exists c,
    detectLiveness f s = (Normal c, set_livenessStatus s no_face) /\
    LivenessData.status c = no_face /\
    LivenessData.isActive c = true /\
    LivenessData.eyeBlinkCount c = 2.
Proof.
  cbv zeta.
  destruct (absent_face_snapshot_is_stale (Scenario.frame [])
              (session Scenario.twoBlinks constructor) []
              eq_refl eq_refl eq_refl (fun E => O_S 0 E))
    as (c & R & E & _).
  exists c. split; [exact R|]. rewrite E. vm_compute. repeat split.
Defined.

(** ** Which fields each update writes *)

(** Every lemma of this section reads: a property of the state that survives
    the writes the method can make survives the method. *)

Ltac footprint := structure; apply keeps_assign; eauto.

Lemma detectBlinks_keeps (I : LivenessDetector -> Prop) :
  (forall s v, I s -> I (set_blinkCount s v)) ->
  (forall s v, I s -> I (set_blinkDetected s v)) ->
  keeps I detectBlinks.
Proof. intros. unfold detectBlinks. footprint. Qed.

Lemma detectMouthMovements_keeps (I : LivenessDetector -> Prop) :
  (forall s v, I s -> I (set_mouthOpenDetected s v)) ->
  keeps I detectMouthMovements.
Proof. intros. unfold detectMouthMovements. footprint. Qed.

Lemma movementLoop_keeps (I : LivenessDetector -> Prop) rest :
  (forall s, I s -> I (set_headMovementDetected s true)) ->
  forall prev total_ n, keeps I (movementLoop prev rest total_ n).
Proof.
  intros H. induction rest as [|curr rest IH]; intros; simpl.
  - apply keeps_ret.
  - apply keeps_bind; [|intro; apply IH].
    match goal with |- keeps _ (if ?b then _ else _) => destruct b end;
      [apply keeps_assign; auto | apply keeps_ret].
Qed.

Lemma detectHeadMovement_keeps (I : LivenessDetector -> Prop) f :
  (forall s v, I s -> I (set_frameHistory s v)) ->
  (forall s, I s -> I (set_headMovementDetected s true)) ->
  (forall s, I s -> I (set_photoSpoofingDetected s true)) ->
  keeps I (detectHeadMovement f).
Proof.
  intros. unfold detectHeadMovement. structure;
    try (apply keeps_assign; eauto); apply movementLoop_keeps; auto.
Qed.

Lemma detectSpoofing_keeps (I : LivenessDetector -> Prop) f :
  (forall s, I s -> I (set_screenSpoofingDetected s true)) ->
  keeps I (detectSpoofing f).
Proof.
  intros. unfold detectSpoofing. footprint.
Qed.

Lemma calculateAntiSpoofingScore_keeps (I : LivenessDetector -> Prop) :
  (forall s v, I s -> I (set_antiSpoofingScore s v)) ->
  keeps I calculateAntiSpoofingScore.
Proof. intros. unfold calculateAntiSpoofingScore. footprint. Qed.

Lemma calculateLivenessScore_keeps (I : LivenessDetector -> Prop) :
  (forall s v, I s -> I (set_livenessScore s v)) ->
  (forall s v, I s -> I (set_realPersonScore s v)) ->
  (forall s v, I s -> I (set_isLivenessActive s v)) ->
  (forall s v, I s -> I (set_livenessStatus s v)) ->
  keeps I calculateLivenessScore.
Proof.
  intros. unfold calculateLivenessScore. footprint.
Qed.

Lemma scoring_keeps (I : LivenessDetector -> Prop) f :
  (forall s, I s -> I (set_screenSpoofingDetected s true)) ->
  (forall s v, I s -> I (set_antiSpoofingScore s v)) ->
  (forall s v, I s -> I (set_livenessScore s v)) ->
  (forall s v, I s -> I (set_realPersonScore s v)) ->
  (forall s v, I s -> I (set_isLivenessActive s v)) ->
  (forall s v, I s -> I (set_livenessStatus s v)) ->
  keeps I (scoring f).
Proof.
  intros. unfold scoring.
  apply keeps_bind; [apply detectSpoofing_keeps; auto | intro].
  apply keeps_bind; [apply calculateAntiSpoofingScore_keeps; auto | intro].
  apply calculateLivenessScore_keeps; auto.
Qed.

Lemma updates_exec f s :
  exec (updates f) s =
  exec (scoring f)
    (exec (detectHeadMovement f)
       (exec detectMouthMovements (exec detectBlinks s))).
Proof.
  unfold updates, scoring.
  rewrite exec_seq by apply detectBlinks_total.
  rewrite exec_seq by apply detectMouthMovements_total.
  rewrite exec_seq by apply detectHeadMovement_total.
  reflexivity.
Qed.

(** Solves the side conditions of the lemmas above for a property that reads
    fields the assignment leaves alone. *)
Ltac stable := intros [] **; simpl in *; auto.

Lemma exec_this {B} (k : LivenessDetector -> M B) s :
  exec (bind this k) s = exec (k s) s.
Proof. reflexivity. Qed.

Lemma exec_assign {B} f (k : M B) s :
  exec (bind (assign f) (fun _ => k)) s = exec k (f s).
Proof. reflexivity. Qed.

Lemma keeps_eq {A T} (m : M A) (proj : LivenessDetector -> T) s :
  (forall v, keeps (fun t => proj t = v) m) -> proj (exec m s) = proj s.
Proof. intros H. apply (H (proj s)). reflexivity. Qed.

(** ** C5: the motion history *)

Lemma detectHeadMovement_history f s :
  frameHistory (exec (detectHeadMovement f) s) =
  match faceLandmarks s with
  | Some lm =>
      match getNose lm with
      | nosePoint :: _ =>
          pushAndTrim (frameHistory s)
            (Sample.mk (Point.x nosePoint) (Point.y nosePoint) (Date_now f))
      | [] => frameHistory s
      end
  | None => frameHistory s
  end.
Proof.
  unfold detectHeadMovement. rewrite exec_this.
  destruct (faceLandmarks s) as [lm|]; [|reflexivity].
  destruct (getNose lm) as [|p ps]; [reflexivity|]. cbv beta iota.
  rewrite exec_assign, exec_this, exec_seq by structure.
  rewrite keeps_eq.
  - unfold pushAndTrim. simpl.
    destruct (maxHistorySize <? _); reflexivity.
  - intros v.
    structure;
      first [ apply movementLoop_keeps; solve [stable]
            | apply keeps_assign; solve [stable] ].
Qed.

Lemma eyeWrites_history e s : frameHistory (eyeWrites e s) = frameHistory s.
Proof. unfold eyeWrites. destruct (_ <? _)%float; reflexivity. Qed.

Lemma mouthWrites_history m s : frameHistory (mouthWrites m s) = frameHistory s.
Proof. unfold mouthWrites. destruct (Js.gtb _ _); reflexivity. Qed.

Lemma mouthWrites_landmarks m s :
  faceLandmarks (mouthWrites m s) = faceLandmarks s.
Proof. unfold mouthWrites. destruct (Js.gtb _ _); reflexivity. Qed.

Lemma gestures_landmarks s :
  faceLandmarks (exec detectMouthMovements (exec detectBlinks s)) =
  faceLandmarks s.
Proof.
  rewrite (keeps_eq detectMouthMovements faceLandmarks)
    by (intro; apply detectMouthMovements_keeps; stable).
  apply keeps_eq. intro. apply detectBlinks_keeps; stable.
Qed.

Lemma gestures_history s :
  frameHistory (exec detectMouthMovements (exec detectBlinks s)) =
  frameHistory s.
Proof.
  rewrite (keeps_eq detectMouthMovements frameHistory)
    by (intro; apply detectMouthMovements_keeps; stable).
  apply keeps_eq. intro. apply detectBlinks_keeps; stable.
Qed.

Lemma faceState_history f lm e m s :
  frameHistory (faceState f lm e m s) =
  match getNose lm with
  | nosePoint :: _ =>
      pushAndTrim (frameHistory s)
        (Sample.mk (Point.x nosePoint) (Point.y nosePoint) (Date_now f))
  | [] => frameHistory s
  end.
Proof.
  unfold faceState. rewrite updates_exec.
  rewrite (keeps_eq (scoring f) frameHistory)
    by (intro; apply scoring_keeps; stable).
  rewrite detectHeadMovement_history, gestures_landmarks, gestures_history.
  rewrite mouthWrites_landmarks, eyeWrites_landmarks.
  rewrite mouthWrites_history, eyeWrites_history. reflexivity.
Qed.

Lemma detectLiveness_history f s :
  frameHistory (exec (detectLiveness f) s) =
  match sampleOf f with
  | Some entry => pushAndTrim (frameHistory s) entry
  | None => frameHistory s
  end.
Proof.
  unfold sampleOf, exec.
  destruct (videoElement f) eqn:V;
    [destruct (faceapi f) as [|[|]] eqn:F|];
    try (rewrite detectLiveness_guard by auto; reflexivity);
    try (rewrite detectLiveness_unloaded by assumption; reflexivity).
  rewrite detectLiveness_try by assumption. simpl.
  destruct (detectAllFaces f) as [[|d [|d' ds]]|] eqn:D.
  - rewrite tryBlock_no_face by assumption. reflexivity.
  - rewrite (tryBlock_single f s d D), singleFace_run. cbv zeta.
    destruct (eyeRatio (landmarks d)) as [e|]; [|reflexivity].
    destruct (mouthRatio (landmarks d)) as [m|]; simpl.
    + rewrite faceState_history.
      destruct (getNose (landmarks d)); reflexivity.
    + rewrite eyeWrites_history. reflexivity.
  - rewrite (tryBlock_multiple f s _ D) by (simpl; lia). reflexivity.
  - rewrite tryBlock_rejected by assumption. reflexivity.
Qed.

Lemma session_cons f fs s :
  session (f :: fs) s = session fs (exec (detectLiveness f) s).
Proof.
  unfold session, exec. simpl.
  destruct (detectLiveness f s) as [c s1]. simpl.
  destruct (detectAll fs s1). reflexivity.
Qed.

Lemma lastN_length {T} n (l : list T) : length (lastN n l) <= n.
Proof. unfold lastN. rewrite length_skipn. lia. Qed.

Lemma lastN_all {T} n (l : list T) : length l <= n -> lastN n l = l.
Proof.
  intros H. unfold lastN. replace (length l - n) with 0 by lia. reflexivity.
Qed.

Lemma lastN_app_lastN {T} n (l r : list T) :
  lastN n (lastN n l ++ r) = lastN n (l ++ r).
Proof.
  destruct (Nat.le_gt_cases (length l) n) as [H|H].
  - rewrite (lastN_all n l H). reflexivity.
  - unfold lastN. rewrite !length_app, length_skipn.
    replace (length l - (length l - n) + length r - n) with (length r)
      by lia.
    replace (length l + length r - n) with (length r + (length l - n))
      by lia.
    rewrite <- skipn_skipn. f_equal.
    rewrite skipn_app.
    replace (length l - n - length l) with 0 by lia. reflexivity.
Qed.

Lemma pushAndTrim_lastN h entry :
  length h <= maxHistorySize ->
  pushAndTrim h entry = lastN maxHistorySize (h ++ [entry]).
Proof.
  intros H. unfold pushAndTrim, lastN.
  rewrite length_app. simpl length.
  destruct (Nat.ltb_spec maxHistorySize (length h + 1)) as [L|L].
  - replace (length h + 1 - maxHistorySize) with 1 by lia.
    destruct (h ++ [entry]); reflexivity.
  - replace (length h + 1 - maxHistorySize) with 0 by lia. reflexivity.
Qed.

(** C5.  From a history of at most 10 entries (the empty one of a new or
    reset session in particular), after any sequence of calls the history holds
    at most 10 entries, and they are the last 10, in arrival order, of the
    entries it held followed by the entries appended since: the oldest leave
    first.  After 11 appends to an empty history the first appended entry is
    gone and the 10 later ones remain. *)
Theorem history_bounded_fifo fs : forall s,
  length (frameHistory s) <= maxHistorySize ->
  length (frameHistory (session fs s)) <= 10 /\
  frameHistory (session fs s) =
    lastN 10 (frameHistory s ++ samplesOf fs) /\
  (frameHistory s = [] -> length (samplesOf fs) = 11 ->
   frameHistory (session fs s) = tl (samplesOf fs)).
Proof.
  assert (E : forall s, length (frameHistory s) <= maxHistorySize ->
              frameHistory (session fs s) =
              lastN maxHistorySize (frameHistory s ++ samplesOf fs)).
  { induction fs as [|f fs IH]; intros s H.
    - simpl. rewrite app_nil_r. symmetry. apply lastN_all, H.
    - rewrite session_cons. simpl samplesOf.
      pose proof (detectLiveness_history f s) as Hf.
      destruct (sampleOf f) as [entry|].
      + rewrite pushAndTrim_lastN in Hf by exact H.
        rewrite IH by (rewrite Hf; apply lastN_length).
        rewrite Hf, lastN_app_lastN, <- app_assoc. reflexivity.
      + rewrite IH by (rewrite Hf; exact H). rewrite Hf. reflexivity. }
  intros s H. rewrite (E s H). split; [apply lastN_length|].
  split; [reflexivity|].
  intros N L. rewrite N. simpl app. unfold lastN, maxHistorySize.
  rewrite L. simpl. destruct (samplesOf fs); reflexivity.
Qed.

Lemma history_bounded_fifo_witness :
  let fs := map (fun n => Scenario.open (Js.of_nat (10 * n))) (seq 0 11) in
  length (samplesOf fs) = 11 /\
  (length (frameHistory (session fs constructor)) <= 10 /\
   frameHistory (session fs constructor) =
     lastN 10 (frameHistory constructor ++ samplesOf fs) /\
   (frameHistory constructor = [] -> length (samplesOf fs) = 11 ->
    frameHistory (session fs constructor) = tl (samplesOf fs))).
Proof.
  cbv zeta. split; [vm_compute; reflexivity|].
  apply (history_bounded_fifo
           (map (fun n => Scenario.open (Js.of_nat (10 * n))) (seq 0 11))
           constructor).
  simpl. lia.
Defined.

(** ** C4: the blink counter *)

Lemma detectBlinks_view s :
  blinkView (exec detectBlinks s) =
  (eyeClosedFrames s, eyeOpenFrames s,
   if EYE_AR_CONSEC_FRAMES <=? eyeOpenFrames s then false
   else blinkDetected s || (EYE_AR_CONSEC_FRAMES <=? eyeClosedFrames s),
   if (EYE_AR_CONSEC_FRAMES <=? eyeClosedFrames s) && negb (blinkDetected s)
   then S (blinkCount s) else blinkCount s).
Proof.
  destruct s. unfold detectBlinks, blinkView. monad.
  destruct (EYE_AR_CONSEC_FRAMES <=? eyeClosedFrames0), blinkDetected0;
    simpl; destruct (EYE_AR_CONSEC_FRAMES <=? eyeOpenFrames0); reflexivity.
Qed.

Lemma faceState_view f lm e m s :
  blinkView (faceState f lm e m s) =
  blinkStep (e <? EYE_AR_THRESHOLD)%float (blinkView s).
Proof.
  unfold faceState. rewrite updates_exec.
  rewrite (keeps_eq (scoring f) blinkView)
    by (intro; apply scoring_keeps; stable).
  rewrite (keeps_eq (detectHeadMovement f) blinkView)
    by (intro; apply detectHeadMovement_keeps; stable).
  rewrite (keeps_eq detectMouthMovements blinkView)
    by (intro; apply detectMouthMovements_keeps; stable).
  rewrite detectBlinks_view. unfold blinkStep, blinkView, mouthWrites, eyeWrites.
  destruct (e <? EYE_AR_THRESHOLD)%float, (Js.gtb m MOUTH_AR_THRESHOLD);
    reflexivity.
Qed.

Lemma detectLiveness_view f s e :
  eyeRatioOf f = Some e ->
  blinkView (exec (detectLiveness f) s) =
  blinkStep (e <? EYE_AR_THRESHOLD)%float (blinkView s).
Proof.
  unfold eyeRatioOf. intros H.
  destruct (videoElement f) eqn:V, (faceapi f) as [|[|]] eqn:F;
    try discriminate H.
  simpl in H.
  destruct (detectAllFaces f) as [[|d [|d' ds]]|] eqn:D; try discriminate H.
  destruct (eyeRatio (landmarks d)) as [e'|] eqn:E; [|discriminate H].
  destruct (mouthRatio (landmarks d)) as [m|] eqn:Mo; [|discriminate H].
  injection H as H. subst e'. unfold exec.
  rewrite detectLiveness_try, (tryBlock_single f s d D), singleFace_run
    by assumption.
  cbv zeta. rewrite E, Mo. apply faceState_view.
Qed.

Lemma eyesShut_step f s :
  eyesShut f = true ->
  blinkView (exec (detectLiveness f) s) = blinkStep true (blinkView s).
Proof.
  unfold eyesShut. intros H.
  destruct (eyeRatioOf f) as [e|] eqn:E; [|discriminate H].
  rewrite (detectLiveness_view f s e E), H. reflexivity.
Qed.

Lemma eyesOpen_step f s :
  eyesOpen f = true ->
  blinkView (exec (detectLiveness f) s) = blinkStep false (blinkView s).
Proof.
  unfold eyesOpen. intros H.
  destruct (eyeRatioOf f) as [e|] eqn:E; [|discriminate H].
  rewrite (detectLiveness_view f s e E).
  destruct (e <? EYE_AR_THRESHOLD)%float; [discriminate H | reflexivity].
Qed.

Lemma processed_step f s :
  eyesShut f = true \/ eyesOpen f = true ->
  blinkView (exec (detectLiveness f) s) = blinkStep (eyesShut f) (blinkView s).
Proof.
  intros [H|H].
  - rewrite H. apply eyesShut_step, H.
  - rewrite (eyesOpen_step f s H). f_equal.
    unfold eyesShut, eyesOpen in *.
    destruct (eyeRatioOf f); [|discriminate H].
    destruct (_ <? _)%float; [discriminate H | reflexivity].
Qed.

Lemma blinkStep_shut_iter n : forall closed open latched count,
  Nat.iter (S n) (blinkStep true) (closed, open, latched, count) =
  (closed + S n, 0,
   latched || (EYE_AR_CONSEC_FRAMES <=? closed + S n),
   if (EYE_AR_CONSEC_FRAMES <=? closed + S n) && negb latched
   then S count else count).
Proof.
  unfold EYE_AR_CONSEC_FRAMES.
  induction n as [|n IH]; intros closed open latched count.
  - simpl. replace (closed + 1) with (S closed) by lia. reflexivity.
  - rewrite Nat.iter_succ, IH. unfold blinkStep, EYE_AR_CONSEC_FRAMES.
    replace (S (closed + S n)) with (closed + S (S n)) by lia.
    destruct (Nat.leb_spec 3 (closed + S n)),
      (Nat.leb_spec 3 (closed + S (S n))), latched;
      simpl; try reflexivity; lia.
Qed.

Lemma blinkStep_open_iter n : forall closed open latched count,
  Nat.iter (S n) (blinkStep false) (closed, open, latched, count) =
  (0, open + S n,
   if EYE_AR_CONSEC_FRAMES <=? open + S n then false else latched,
   count).
Proof.
  unfold EYE_AR_CONSEC_FRAMES.
  induction n as [|n IH]; intros closed open latched count.
  - simpl. replace (open + 1) with (S open) by lia.
    rewrite orb_false_r. reflexivity.
  - rewrite Nat.iter_succ, IH. unfold blinkStep, EYE_AR_CONSEC_FRAMES.
    replace (S (open + S n)) with (open + S (S n)) by lia.
    destruct (Nat.leb_spec 3 (open + S n)),
      (Nat.leb_spec 3 (open + S (S n)));
      simpl; rewrite ?orb_false_r; try reflexivity; lia.
Qed.

Lemma session_shut run : forall s,
  Forall (fun f => eyesShut f = true) run ->
  blinkView (session run s) =
  Nat.iter (length run) (blinkStep true) (blinkView s).
Proof.
  induction run as [|f run IH]; intros s H; [reflexivity|].
  inversion H as [|? ? Hf Hrun]; subst.
  rewrite session_cons, (IH _ Hrun), (eyesShut_step f s Hf).
  simpl length. rewrite Nat.iter_succ_r. reflexivity.
Qed.

Lemma session_open run : forall s,
  Forall (fun f => eyesOpen f = true) run ->
  blinkView (session run s) =
  Nat.iter (length run) (blinkStep false) (blinkView s).
Proof.
  induction run as [|f run IH]; intros s H; [reflexivity|].
  inversion H as [|? ? Hf Hrun]; subst.
  rewrite session_cons, (IH _ Hrun), (eyesOpen_step f s Hf).
  simpl length. rewrite Nat.iter_succ_r. reflexivity.
Qed.

Lemma openStreak_ge fs : forall o, o <= openStreak o fs.
Proof. destruct fs; intros; simpl; lia. Qed.

Lemma session_latched fs : forall s,
  Forall (fun f => eyesShut f = true \/ eyesOpen f = true) fs ->
  blinkDetected s = true ->
  openStreak (eyeOpenFrames s) fs < EYE_AR_CONSEC_FRAMES ->
  blinkDetected (session fs s) = true /\
  blinkCount (session fs s) = blinkCount s.
Proof.
  unfold EYE_AR_CONSEC_FRAMES.
  induction fs as [|f fs IH]; intros s H L O; [auto|].
  inversion H as [|? ? Hf Hfs]; subst. rewrite session_cons.
  pose proof (processed_step f s Hf) as V.
  unfold blinkView, blinkStep, EYE_AR_CONSEC_FRAMES in V. rewrite L in V.
  rewrite andb_false_r in V. injection V as V1 V2 V3 V4.
  simpl in O.
  assert (E : eyeOpenFrames (exec (detectLiveness f) s) =
              if eyesOpen f then S (eyeOpenFrames s) else 0).
  { rewrite V2. destruct Hf as [Hf|Hf]; rewrite Hf.
    - unfold eyesShut, eyesOpen in *. destruct (eyeRatioOf f); [|discriminate].
      rewrite Hf. reflexivity.
    - unfold eyesShut, eyesOpen in *. destruct (eyeRatioOf f); [|discriminate].
      destruct (_ <? _)%float; [discriminate | reflexivity]. }
  rewrite <- E in O.
  pose proof (openStreak_ge fs (eyeOpenFrames (exec (detectLiveness f) s))).
  destruct (IH (exec (detectLiveness f) s) Hfs) as [A B].
  - rewrite V3.
    destruct (Nat.leb_spec 3
      (if eyesShut f then 0 else S (eyeOpenFrames s))) as [C|C];
      [|reflexivity].
    rewrite <- V2 in C. lia.
  - lia.
  - split; [exact A|]. rewrite B. exact V4.
Qed.

(** Three frames shut, two open, three shut: the second closure meets the
    latch of the first still set, and is not counted. *)
Lemma every_closure_counts_fails : ~ every_closure_counts.
Proof.
  intros H.
  specialize (H [Scenario.shut 0; Scenario.shut 0; Scenario.shut 0;
                 Scenario.open 0; Scenario.open 0]
                [Scenario.shut 0; Scenario.shut 0; Scenario.shut 0]).
  cbv zeta in H.
  assert (E : blinkCount
                (session [Scenario.shut 0; Scenario.shut 0; Scenario.shut 0]
                   (session [Scenario.shut 0; Scenario.shut 0; Scenario.shut 0;
                             Scenario.open 0; Scenario.open 0] constructor))
              = 1) by (vm_compute; reflexivity).
  rewrite E in H.
  assert (E' : blinkCount
                 (session [Scenario.shut 0; Scenario.shut 0; Scenario.shut 0;
                           Scenario.open 0; Scenario.open 0] constructor)
               = 1) by (vm_compute; reflexivity).
  rewrite E' in H.
  assert (C : 1 = 2); [|discriminate C].
  apply H.
  - vm_compute. reflexivity.
  - repeat constructor.
  - simpl. lia.
Qed.

(** C4, amended.  A run of at least 3 consecutive processed frames below the
    threshold, entered right after a frame that was not below, adds exactly 1
    to the blink counter over the whole run, whatever its length, when the
    latch [blinkDetected] is clear on entry, and adds nothing when the latch is
    still set; it leaves the latch set.  From then on, as long as no 3
    consecutive processed frames have a ratio that is not below the threshold,
    the counter does not move and the latch stays set.  Any 3 or more
    consecutive such frames clear the latch, without touching the counter. *)
Theorem blink_once_per_latched_closure s run gap :
  eyeClosedFrames s = 0 ->
  Forall (fun f => eyesShut f = true) run ->
  3 <= length run ->
  Forall (fun f => eyesShut f = true \/ eyesOpen f = true) gap ->
  openStreak 0 gap < 3 ->
  let s1 := session run s in
  let s2 := session gap s1 in
  blinkCount s1 = (if blinkDetected s then blinkCount s else S (blinkCount s)) /\
  blinkDetected s1 = true /\
  blinkCount s2 = blinkCount s1 /\
  blinkDetected s2 = true /\
  (forall t opens,
     Forall (fun f => eyesOpen f = true) opens -> 3 <= length opens ->
     blinkDetected (session opens t) = false /\
     blinkCount (session opens t) = blinkCount t).
Proof.
  intros C R L G O. cbv zeta.
  pose proof (session_shut run s R) as V.
  destruct (length run) as [|n] eqn:N; [lia|].
  unfold blinkView at 2 in V. rewrite blinkStep_shut_iter, C in V.
  unfold EYE_AR_CONSEC_FRAMES in V.
  destruct (Nat.leb_spec 3 (0 + S n)) as [_|]; [|lia].
  rewrite orb_true_r in V. injection V as V1 V2 V3 V4.
  destruct (session_latched gap (session run s) G V3) as [A B].
  { rewrite V2. exact O. }
  repeat split; auto.
  - rewrite V4. destruct (blinkDetected s); reflexivity.
  - pose proof (session_open opens t H) as W.
    destruct (length opens) as [|k] eqn:K; [lia|].
    unfold blinkView at 2 in W. rewrite blinkStep_open_iter in W.
    unfold EYE_AR_CONSEC_FRAMES in W.
    destruct (Nat.leb_spec 3 (eyeOpenFrames t + S k)) as [_|]; [|lia].
    injection W as _ _ W _. exact W.
  - pose proof (session_open opens t H) as W.
    destruct (length opens) as [|k] eqn:K; [lia|].
    unfold blinkView at 2 in W. rewrite blinkStep_open_iter in W.
    injection W as _ _ _ W. exact W.
Qed.

Lemma blink_once_per_latched_closure_witness :
  let s := constructor in
  let run := repeat (Scenario.shut 0) 30 in
  let gap := [Scenario.open 0; Scenario.open 0; Scenario.shut 0;
              Scenario.shut 0; Scenario.shut 0; Scenario.shut 0;
              Scenario.open 0] in
  let s1 := session run s in
  let s2 := session gap s1 in
  blinkCount s1 = (if blinkDetected s then blinkCount s else S (blinkCount s)) /\
  blinkDetected s1 = true /\
  blinkCount s2 = blinkCount s1 /\
  blinkDetected s2 = true /\
  (forall t opens,
     Forall (fun f => eyesOpen f = true) opens -> 3 <= length opens ->
     blinkDetected (session opens t) = false /\
     blinkCount (session opens t) = blinkCount t).
Proof.
  cbv zeta.
  apply (blink_once_per_latched_closure constructor
           (repeat (Scenario.shut 0) 30)
           [Scenario.open 0; Scenario.open 0; Scenario.shut 0;
            Scenario.shut 0; Scenario.shut 0; Scenario.shut 0;
            Scenario.open 0]).
  - reflexivity.
  - apply Forall_forall. intros f H. apply repeat_spec in H. subst f.
    vm_compute. reflexivity.
  - simpl. lia.
  - repeat (apply Forall_cons; [vm_compute; auto|]). apply Forall_nil.
  - vm_compute. lia.
Defined.

(** ** C7: exceptions *)

Lemma bind_assoc {A B C} (m : M A) (k : A -> M B) (h : B -> M C) s :
  bind (bind m k) h s = bind m (fun a => bind (k a) h) s.
Proof. unfold bind. destruct (m s) as [[a|] s1]; reflexivity. Qed.

Lemma runAll_then {B} (k : M B) ms : forall s,
  bind (runAll ms) (fun _ => k) s =
  fold_right (fun m rest => bind m (fun _ => rest)) k ms s.
Proof.
  induction ms as [|m ms IH]; intros s; [reflexivity|].
  simpl. rewrite bind_assoc. unfold bind at 1 3.
  destruct (m s) as [[[]|] s1]; [apply IH | reflexivity].
Qed.

Lemma singleFace_statements f d s :
  singleFace f d s =
  (runAll (statements f d);; s <- this;; ret (getLivenessData s)) s.
Proof. rewrite runAll_then. reflexivity. Qed.

(** Once the guard is passed, the call returns a snapshot.  When the [try]
    block throws (the detector rejects, or a contour is too short for an index
    the code reads), the snapshot is the literal of the [catch] block, with
    status [error], [spoofingDetected] true and [isActive] false, and the
    state is the one the statements completed before the throw have left: the
    statement that throws has written nothing. *)
Lemma exceptions_in_try_are_caught f s :
  videoElement f = true -> faceapi f = Declared true ->
  exists c s',
    detectLiveness f s = (Normal c, s') /\
    forall s'',
      tryBlock f s = (Throw, s'') ->
      c = literal error true /\
      LivenessData.status c = error /\
      LivenessData.spoofingDetected c = true /\
      LivenessData.isActive c = false /\
      s' = s'' /\
      (detectAllFaces f = Throw /\ s'' = s \/
       exists d k m,
         detectAllFaces f = Normal [d] /\
         tryBlock f s =
           (runAll (statements f d);; t <- this;; ret (getLivenessData t)) s /\
         runAll (firstn k (statements f d)) s = (Normal tt, s'') /\
         nth_error (statements f d) k = Some m /\
         m s'' = (Throw, s'')).
Proof.
  intros V F.
  rewrite (detectLiveness_try f s V F).
  destruct (tryBlock f s) as [[c|] s1] eqn:T.
  { exists c, s1. split; [reflexivity|]. intros s'' H. discriminate H. }
  exists (literal error true), s1. split; [reflexivity|].
  intros s'' H. injection H as H. subst s''.
  repeat (split; [reflexivity|]).
  destruct (detectAllFaces f) as [[|d [|d' ds]]|] eqn:D.
  - rewrite tryBlock_no_face in T by assumption. discriminate T.
  - right. pose proof T as T'.
    rewrite (tryBlock_single f s d D), singleFace_run in T. cbv zeta in T.
    rewrite (tryBlock_single f s d D), singleFace_statements in T'.
    destruct (eyeRatio (landmarks d)) as [e|] eqn:E.
    + destruct (mouthRatio (landmarks d)) as [m|] eqn:Mo; [discriminate T|].
      injection T as T. subst s1.
      exists d, 2, calculateMouthAspectRatio.
      repeat split; auto.
      * simpl. monad.
        rewrite (calculateEyeAspectRatio_run _ (landmarks d)), E by reflexivity.
        reflexivity.
      * rewrite (calculateMouthAspectRatio_run _ (landmarks d)), Mo
          by (rewrite eyeWrites_landmarks; reflexivity).
        reflexivity.
    + injection T as T. subst s1.
      exists d, 1, calculateEyeAspectRatio.
      repeat split; auto.
      rewrite (calculateEyeAspectRatio_run _ (landmarks d)), E by reflexivity.
      reflexivity.
  - rewrite (tryBlock_multiple f s _ D) in T by (simpl; lia). discriminate T.
  - left. rewrite tryBlock_rejected in T by assumption.
    injection T as T. auto.
Qed.

(** A face whose mouth contour is missing: the eye counters move, then
    [calculateMouthAspectRatio] throws; the call returns the [error] literal
    and the later updates have not run. *)
Lemma exceptions_in_try_are_caught_witness :
  let lm := mkFaceLandmarks (Scenario.eye 2) (Scenario.eye 2) []
              [Scenario.pt 0 0] in
  let f := Scenario.frame [mkDetection lm] in
  let s'' := set_eyeFrames
               (set_eyeAspectRatio (set_faceLandmarks constructor (Some lm))
                  0.5%float) 0 1 in
  tryBlock f constructor = (Throw, s'') /\
  exists c s',
    detectLiveness f constructor = (Normal c, s') /\
    LivenessData.status c = error /\
    LivenessData.spoofingDetected c = true /\
    LivenessData.isActive c = false /\
    s' = s''.
Proof.
  cbv zeta.
  assert (T : tryBlock
                (Scenario.frame
                   [mkDetection
                      (mkFaceLandmarks (Scenario.eye 2) (Scenario.eye 2) []
                         [Scenario.pt 0 0])])
                constructor =
              (Throw,
               set_eyeFrames
                 (set_eyeAspectRatio
                    (set_faceLandmarks constructor
                       (Some (mkFaceLandmarks (Scenario.eye 2) (Scenario.eye 2)
                                [] [Scenario.pt 0 0])))
                    0.5%float) 0 1))
    by (vm_compute; reflexivity).
  split; [exact T|].
  destruct (exceptions_in_try_are_caught
              (Scenario.frame
                 [mkDetection
                    (mkFaceLandmarks (Scenario.eye 2) (Scenario.eye 2) []
                       [Scenario.pt 0 0])])
              constructor eq_refl eq_refl) as (c & s' & R & H).
  destruct (H _ T) as (_ & A & B & C & D & _).
  exists c, s'. auto.
Defined.

(** C7.  A call of [detectLiveness] made with a video element while the
    library is not loaded throws: the guard reads the undeclared global
    [faceapi] before the [try] is entered, so nothing catches the
    ReferenceError and no snapshot is returned.  The state is left as it was.
    This is the only way a call throws. *)
Theorem detectLiveness_throws_before_load :
  detectLiveness beforeLoad constructor = (Throw, constructor) /\
  ~ never_throws /\
  forall f s,
    (completion (detectLiveness f) s = Throw <->
     videoElement f = true /\ faceapi f = Undeclared) /\
    (completion (detectLiveness f) s = Throw ->
     exec (detectLiveness f) s = s).
Proof.
  split; [reflexivity|]. split.
  { intros H. destruct (H beforeLoad constructor) as [c C]. discriminate C. }
  intros f s. unfold completion, exec.
  destruct (videoElement f) eqn:V;
    [destruct (faceapi f) as [|[|]] eqn:F|].
  - rewrite detectLiveness_unloaded by assumption. simpl. tauto.
  - destruct (exceptions_in_try_are_caught f s V F) as (c & s' & E & _).
    rewrite E. simpl. split; [|discriminate].
    split; [discriminate|]. intros [_ H]. discriminate H.
  - rewrite detectLiveness_guard by auto. simpl. split; [|discriminate].
    split; [discriminate|]. intros [_ H]. discriminate H.
  - rewrite detectLiveness_guard by auto. simpl. split; [|discriminate].
    split; [discriminate|]. intros [H _]. discriminate H.
Qed.

(** ** C6: the eye aspect ratio *)

(** An eye 4 wide and 2 high: the code computes 0.5, the wording 0.25. *)
Lemma getEAR_asWorded_fails : ~ EarSpec.getEAR_asWorded.
Proof.
  intros H. specialize (H (Scenario.eye 2)).
  assert (L : 6 <= length (Scenario.eye 2)) by (simpl; lia).
  specialize (H L).
  assert (C : completion (getEAR (Scenario.eye 2)) constructor
              = Normal 0.5%float) by (vm_compute; reflexivity).
  assert (W : EarSpec.asWorded (Scenario.eye 2) = 0.25%float)
    by (vm_compute; reflexivity).
  rewrite C, W in H.
  pose proof (f_equal (fun c => match c with
                                | Normal v => (v <? 0.3)%float
                                | Throw => false
                                end) H) as E.
  vm_compute in E. discriminate E.
Qed.

Lemma getEAR_amended eyePoints s :
  6 <= length eyePoints ->
  getEAR eyePoints s = (Normal (EarSpec.amended eyePoints), s).
Proof.
  intros H.
  destruct eyePoints as [|p0 [|p1 [|p2 [|p3 [|p4 [|p5 l]]]]]];
    simpl in H; try lia.
  reflexivity.
Qed.

(** C6, amended.  For an eye contour of at least 6 points [getEAR] returns
    the sum of the Euclidean distances between points (1,5) and (2,4),
    divided by twice the Euclidean distance between points (0,3); and the
    per-frame ratio that [calculateEyeAspectRatio] stores in [eyeAspectRatio]
    is the mean of the left-eye and right-eye values. *)
Theorem eye_aspect_ratio_formula lm s :
  faceLandmarks s = Some lm ->
  6 <= length (getLeftEye lm) -> 6 <= length (getRightEye lm) ->
  getEAR (getLeftEye lm) s = (Normal (EarSpec.amended (getLeftEye lm)), s) /\
  getEAR (getRightEye lm) s = (Normal (EarSpec.amended (getRightEye lm)), s) /\
  completion calculateEyeAspectRatio s = Normal tt /\
  eyeAspectRatio (exec calculateEyeAspectRatio s) =
    ((EarSpec.amended (getLeftEye lm) + EarSpec.amended (getRightEye lm)) / 2)%float.
Proof.
  intros E L R.
  pose proof (getEAR_amended (getLeftEye lm) constructor L) as HL.
  pose proof (getEAR_amended (getRightEye lm) constructor R) as HR.
  split; [apply getEAR_amended, L|]. split; [apply getEAR_amended, R|].
  unfold completion, exec. rewrite (calculateEyeAspectRatio_run s lm E).
  unfold eyeRatio, completion, bind, ret. rewrite HL, HR. simpl.
  unfold eyeWrites. split; [reflexivity|].
  destruct (_ <? _)%float; reflexivity.
Qed.

Lemma eye_aspect_ratio_formula_witness :
  let lm := landmarks (Scenario.face 2 0) in
  let s := set_faceLandmarks constructor (Some lm) in
  EarSpec.amended (Scenario.eye 2) = 0.5%float /\
  (getEAR (getLeftEye lm) s = (Normal (EarSpec.amended (getLeftEye lm)), s) /\
   getEAR (getRightEye lm) s = (Normal (EarSpec.amended (getRightEye lm)), s) /\
   completion calculateEyeAspectRatio s = Normal tt /\
   eyeAspectRatio (exec calculateEyeAspectRatio s) =
     ((EarSpec.amended (getLeftEye lm) + EarSpec.amended (getRightEye lm)) / 2)%float).
Proof.
  cbv zeta. split; [vm_compute; reflexivity|].
  apply (eye_aspect_ratio_formula (landmarks (Scenario.face 2 0))
           (set_faceLandmarks constructor
              (Some (landmarks (Scenario.face 2 0))))).
  - reflexivity.
  - simpl. lia.
  - simpl. lia.
Defined.

(** ** C9 and C3: what a call depends on *)

Lemma movementLoop_scan rest : forall prev t n s,
  movementLoop prev rest t n s =
  let '(t', n', b) := movementScan prev rest t n in
  (Normal (t', n'), if b then set_headMovementDetected s true else s).
Proof.
  induction rest as [|curr rest IH]; intros prev t n s; [reflexivity|].
  simpl. unfold bind.
  match goal with |- context [if ?c then assign _ else ret tt] =>
    destruct c end; simpl; rewrite IH;
  match goal with |- context [movementScan ?a ?b ?c ?d] =>
    destruct (movementScan a b c d) as [[t' n'] b'] end;
  destruct b'; reflexivity.
Qed.

Lemma untimed_length h : length (untimed h) = length h.
Proof. apply length_map. Qed.

Lemma untimed_idem h : untimed (untimed h) = untimed h.
Proof. unfold untimed. rewrite map_map. reflexivity. Qed.

Lemma untimed_tl h : untimed (tl h) = tl (untimed h).
Proof. destruct h; reflexivity. Qed.

Lemma untimed_pushAndTrim h e e' :
  Sample.x e = Sample.x e' -> Sample.y e = Sample.y e' ->
  untimed (pushAndTrim (untimed h) e) = untimed (pushAndTrim h e').
Proof.
  intros X Y. unfold pushAndTrim.
  rewrite !length_app, untimed_length. simpl length.
  assert (E : untimed (untimed h ++ [e]) = untimed (h ++ [e'])).
  { unfold untimed. rewrite !map_app, map_map. simpl. rewrite X, Y.
    reflexivity. }
  destruct (maxHistorySize <? length h + 1); rewrite ?untimed_tl, E;
    reflexivity.
Qed.

Lemma variationLoop_untimed rest : forall prev t n,
  variationLoop (Sample.mk (Sample.x prev) (Sample.y prev) 0) (untimed rest) t n
  = variationLoop prev rest t n.
Proof.
  induction rest as [|curr rest IH]; intros; [reflexivity|].
  simpl. apply IH.
Qed.

Lemma movementScan_untimed rest : forall prev t n,
  movementScan (Sample.mk (Sample.x prev) (Sample.y prev) 0) (untimed rest) t n
  = movementScan prev rest t n.
Proof.
  induction rest as [|curr rest IH]; intros; [reflexivity|].
  simpl. rewrite IH. reflexivity.
Qed.

Lemma calculateMovementVariation_norm s :
  calculateMovementVariation (norm s) = calculateMovementVariation s.
Proof.
  unfold calculateMovementVariation.
  change (frameHistory (norm s)) with (untimed (frameHistory s)).
  rewrite untimed_length.
  destruct (frameHistory s) as [|first rest]; [reflexivity|].
  change (untimed (first :: rest))
    with (Sample.mk (Sample.x first) (Sample.y first) 0 :: untimed rest).
  cbv iota beta. rewrite variationLoop_untimed. reflexivity.
Qed.

(** Each update commutes with the erasure. *)

Ltac erased := unfold norm; simpl; rewrite ?untimed_idem; reflexivity.

Lemma detectBlinks_norm s :
  norm (exec detectBlinks (norm s)) = norm (exec detectBlinks s).
Proof. destruct s. unfold detectBlinks. monad. branches; erased. Qed.

Lemma detectMouthMovements_norm s :
  norm (exec detectMouthMovements (norm s)) =
  norm (exec detectMouthMovements s).
Proof.
  destruct s. unfold detectMouthMovements. monad. branches; erased.
Qed.

Lemma detectSpoofing_norm f1 f2 s :
  norm (exec (detectSpoofing f2) (norm s)) = norm (exec (detectSpoofing f1) s).
Proof.
  unfold detectSpoofing. cbv zeta. rewrite !exec_this.
  rewrite calculateMovementVariation_norm.
  change (frameHistory (norm s)) with (untimed (frameHistory s)).
  rewrite untimed_length.
  destruct (8 <=? length (frameHistory s)); [|unfold exec, ret; erased].
  destruct (_ <? _)%float; unfold exec, ret, assign; erased.
Qed.

Lemma calculateAntiSpoofingScore_norm s :
  norm (exec calculateAntiSpoofingScore (norm s)) =
  norm (exec calculateAntiSpoofingScore s).
Proof.
  unfold calculateAntiSpoofingScore. cbv zeta. rewrite !exec_this.
  rewrite calculateMovementVariation_norm.
  unfold exec, assign. erased.
Qed.

Lemma calculateLivenessScore_norm s :
  norm (exec calculateLivenessScore (norm s)) =
  norm (exec calculateLivenessScore s).
Proof.
  destruct s. unfold calculateLivenessScore, calculateRealPersonScore,
    getDetailedStatus. monad.
  match goal with |- context [set_isLivenessActive _ ?b] =>
    generalize b; intros v end.
  destruct v; erased.
Qed.

Lemma movementOf_untimed h : movementOf (untimed h) = movementOf h.
Proof. destruct h; [reflexivity|]. apply movementScan_untimed. Qed.

Lemma detectHeadMovement_skip f s :
  match faceLandmarks s with
  | Some lm => getNose lm = []
  | None => True
  end ->
  exec (detectHeadMovement f) s = s.
Proof.
  intros H. unfold detectHeadMovement. rewrite exec_this.
  destruct (faceLandmarks s) as [lm|]; [|reflexivity].
  rewrite H. reflexivity.
Qed.

Lemma detectHeadMovement_run f s lm nosePoint others :
  faceLandmarks s = Some lm -> getNose lm = nosePoint :: others ->
  exec (detectHeadMovement f) s =
  let h := pushAndTrim (frameHistory s)
             (Sample.mk (Point.x nosePoint) (Point.y nosePoint) (Date_now f)) in
  let s1 := set_frameHistory s h in
  if 3 <=? length h then
    let '(t, n, b) := movementOf h in
    let s2 := if b then set_headMovementDetected s1 true else s1 in
    if (t / Js.of_nat n <? PHOTO_SPOOFING_THRESHOLD)%float && (5 <=? length h)
    then set_photoSpoofingDetected s2 true
    else s2
  else s1.
Proof.
  intros L N. unfold detectHeadMovement. rewrite exec_this, L, N.
  cbv beta iota zeta. rewrite exec_assign, exec_this.
  unfold pushAndTrim.
  cbn [frameHistory set_frameHistory].
  set (h1 := frameHistory s ++ _).
  destruct (maxHistorySize <? length h1).
  - rewrite exec_assign, exec_this. cbn [frameHistory set_frameHistory].
    set (h := tl h1).
    destruct (3 <=? length h); [|reflexivity].
    unfold exec, bind. destruct h as [|first rest].
    + simpl. reflexivity.
    + rewrite movementLoop_scan.
      unfold movementOf.
      destruct (movementScan first rest 0 0) as [[t n] b].
      destruct b; cbn [frameHistory set_frameHistory
                         set_headMovementDetected this fst snd];
        match goal with |- context [if ?c then _ else _] => destruct c end;
        reflexivity.
  - rewrite exec_seq by apply total_ret. rewrite exec_this.
    unfold exec at 2, ret. cbn [snd frameHistory set_frameHistory].
    destruct (3 <=? length h1); [|reflexivity].
    unfold exec, bind. destruct h1 as [|first rest].
    + simpl. reflexivity.
    + cbn [snd frameHistory set_frameHistory].
      rewrite movementLoop_scan.
      unfold movementOf.
      destruct (movementScan first rest 0 0) as [[t n] b].
      destruct b; cbn [frameHistory set_frameHistory
                         set_headMovementDetected this fst snd];
        match goal with |- context [if ?c then _ else _] => destruct c end;
        reflexivity.
Qed.

Lemma detectHeadMovement_norm f1 f2 s :
  norm (exec (detectHeadMovement f2) (norm s)) =
  norm (exec (detectHeadMovement f1) s).
Proof.
  destruct (faceLandmarks s) as [lm|] eqn:L.
  - destruct (getNose lm) as [|p ps] eqn:N.
    + rewrite !detectHeadMovement_skip; [erased | |].
      * rewrite L. exact N.
      * change (faceLandmarks (norm s)) with (faceLandmarks s).
        rewrite L. exact N.
    + rewrite (detectHeadMovement_run f1 s lm p ps L N).
      rewrite (detectHeadMovement_run f2 (norm s) lm p ps L N).
      cbv zeta.
      change (frameHistory (norm s)) with (untimed (frameHistory s)).
      set (e1 := Sample.mk (Point.x p) (Point.y p) (Date_now f1)).
      set (e2 := Sample.mk (Point.x p) (Point.y p) (Date_now f2)).
      pose proof (untimed_pushAndTrim (frameHistory s) e2 e1 eq_refl eq_refl)
        as U.
      set (h1 := pushAndTrim (frameHistory s) e1) in *.
      set (h2 := pushAndTrim (untimed (frameHistory s)) e2) in *.
      assert (Len : length h2 = length h1)
        by (rewrite <- (untimed_length h2), U; apply untimed_length).
      assert (Sc : movementOf h2 = movementOf h1)
        by (rewrite <- (movementOf_untimed h2), U; apply movementOf_untimed).
      rewrite Len, Sc.
      destruct (3 <=? length h1).
      * destruct (movementOf h1) as [[t n] b].
        destruct b;
          match goal with |- context [if ?c then _ else _] => destruct c end;
          unfold norm; simpl; rewrite U; reflexivity.
      * unfold norm; simpl; rewrite U; reflexivity.
  - rewrite !detectHeadMovement_skip; [erased | |].
    + rewrite L. exact I.
    + change (faceLandmarks (norm s)) with (faceLandmarks s).
      rewrite L. exact I.
Qed.

Lemma norm_step (m1 m2 : M unit) :
  (forall s, norm (exec m2 (norm s)) = norm (exec m1 s)) ->
  (forall s, norm (exec m2 (norm s)) = norm (exec m2 s)) ->
  forall t1 t2, norm t2 = norm t1 -> norm (exec m2 t2) = norm (exec m1 t1).
Proof.
  intros H12 H22 t1 t2 E. rewrite <- H22, E. apply H12.
Qed.

Lemma updates_full f s :
  exec (updates f) s =
  exec calculateLivenessScore
    (exec calculateAntiSpoofingScore
       (exec (detectSpoofing f)
          (exec (detectHeadMovement f)
             (exec detectMouthMovements (exec detectBlinks s))))).
Proof.
  rewrite updates_exec. unfold scoring.
  rewrite exec_seq by apply detectSpoofing_total.
  rewrite exec_seq by apply calculateAntiSpoofingScore_total.
  reflexivity.
Qed.

Lemma updates_norm f1 f2 t1 t2 :
  norm t2 = norm t1 ->
  norm (exec (updates f2) t2) = norm (exec (updates f1) t1).
Proof.
  intros E. rewrite !updates_full.
  apply norm_step; auto using calculateLivenessScore_norm.
  apply norm_step; auto using calculateAntiSpoofingScore_norm.
  apply norm_step; auto using detectSpoofing_norm.
  apply norm_step; auto using detectHeadMovement_norm.
  apply norm_step; auto using detectMouthMovements_norm.
  apply norm_step; auto using detectBlinks_norm.
Qed.

Lemma norm_observable s1 s2 :
  norm s1 = norm s2 -> observable s1 = observable s2.
Proof. intros E. unfold observable. rewrite E. reflexivity. Qed.

Lemma getLivenessData_observable s1 s2 :
  observable s1 = observable s2 -> getLivenessData s1 = getLivenessData s2.
Proof.
  intros E.
  change (getLivenessData (observable s1) = getLivenessData (observable s2)).
  rewrite E. reflexivity.
Qed.

Lemma eyeWrites_observable e s1 s2 lm :
  observable s1 = observable s2 ->
  norm (eyeWrites e (set_faceLandmarks s1 lm)) =
  norm (eyeWrites e (set_faceLandmarks s2 lm)).
Proof.
  intros E.
  assert (H : forall s, norm (eyeWrites e (set_faceLandmarks s lm)) =
                        norm (eyeWrites e (set_faceLandmarks (observable s) lm))).
  { intros s. unfold eyeWrites. destruct (_ <? _)%float; erased. }
  rewrite (H s1), (H s2), E. reflexivity.
Qed.

Lemma mouthWrites_norm m t1 t2 :
  norm t1 = norm t2 -> norm (mouthWrites m t1) = norm (mouthWrites m t2).
Proof.
  intros E.
  assert (H : forall s, norm (mouthWrites m s) = norm (mouthWrites m (norm s))).
  { intros s. unfold mouthWrites. destruct (Js.gtb _ _); erased. }
  rewrite (H t1), (H t2), E. reflexivity.
Qed.

Lemma faceState_observable f1 f2 lm e m s1 s2 :
  observable s1 = observable s2 ->
  norm (faceState f1 lm e m s1) = norm (faceState f2 lm e m s2).
Proof.
  intros E. unfold faceState.
  apply updates_norm, mouthWrites_norm, eyeWrites_observable, E.
Qed.

Lemma detectLiveness_observable f1 f2 s1 s2 :
  sameLandmarks f1 f2 -> observable s1 = observable s2 ->
  completion (detectLiveness f1) s1 = completion (detectLiveness f2) s2 /\
  observable (exec (detectLiveness f1) s1) =
  observable (exec (detectLiveness f2) s2).
Proof.
  intros (V & F & D) E. unfold completion, exec.
  destruct (videoElement f1) eqn:V1;
    [destruct (faceapi f1) as [|[|]] eqn:F1|]; symmetry in V, F;
    try (rewrite !detectLiveness_guard by auto; auto);
    try (rewrite !detectLiveness_unloaded by assumption; auto).
  rewrite (detectLiveness_try f1 s1 V1 F1).
  rewrite (detectLiveness_try f2 s2 V F).
  destruct (detectAllFaces f2) as [[|d [|d' ds]]|] eqn:D2.
  - rewrite !tryBlock_no_face by congruence. simpl. split.
    + f_equal. apply getLivenessData_observable.
      change (set_livenessStatus (observable s1) no_face =
              set_livenessStatus (observable s2) no_face).
      rewrite E. reflexivity.
    + change (set_livenessStatus (observable s1) no_face =
              set_livenessStatus (observable s2) no_face).
      rewrite E. reflexivity.
  - rewrite (tryBlock_single f1 s1 d D), (tryBlock_single f2 s2 d D2).
    rewrite !singleFace_run. cbv zeta.
    destruct (eyeRatio (landmarks d)) as [e|].
    + destruct (mouthRatio (landmarks d)) as [m|]; simpl.
      * pose proof (faceState_observable f1 f2 (landmarks d) e m s1 s2 E) as N.
        apply norm_observable in N. split; [|exact N].
        f_equal. apply getLivenessData_observable, N.
      * split; [reflexivity|].
        apply norm_observable, eyeWrites_observable, E.
    + simpl. split; [reflexivity|].
      change (observable s1 = observable s2). exact E.
  - rewrite (tryBlock_multiple f1 s1 _ D), (tryBlock_multiple f2 s2 _ D2)
      by (simpl; lia).
    simpl. split.
    + f_equal. apply getLivenessData_observable.
      change (set_livenessStatus (observable s1) multiple_faces =
              set_livenessStatus (observable s2) multiple_faces).
      rewrite E. reflexivity.
    + change (set_livenessStatus (observable s1) multiple_faces =
              set_livenessStatus (observable s2) multiple_faces).
      rewrite E. reflexivity.
  - rewrite !tryBlock_rejected by congruence. simpl. auto.
Qed.

Lemma detectAll_cons f fs s :
  fst (detectAll (f :: fs) s) =
  completion (detectLiveness f) s
  :: fst (detectAll fs (exec (detectLiveness f) s)).
Proof.
  unfold completion, exec. simpl.
  destruct (detectLiveness f s) as [c s1]. simpl.
  destruct (detectAll fs s1). reflexivity.
Qed.

Lemma detectAll_observable fs1 fs2 :
  Forall2 sameLandmarks fs1 fs2 ->
  forall s1 s2,
    observable s1 = observable s2 ->
    fst (detectAll fs1 s1) = fst (detectAll fs2 s2) /\
    observable (session fs1 s1) = observable (session fs2 s2).
Proof.
  induction 1 as [|f1 f2 fs1 fs2 Hf Hfs IH]; intros s1 s2 E; [auto|].
  destruct (detectLiveness_observable f1 f2 s1 s2 Hf E) as [C O].
  destruct (IH _ _ O) as [A B].
  rewrite !detectAll_cons, !session_cons, C, A. auto.
Qed.

Lemma sameLandmarks_refl fs : Forall2 sameLandmarks fs fs.
Proof. induction fs; constructor; unfold sameLandmarks; auto. Qed.

Lemma replay_sameLandmarks fs : Forall2 sameLandmarks fs (replay fs).
Proof. induction fs; constructor; unfold sameLandmarks; auto. Qed.

(** C9.  The snapshots are a function of what the detector returns and of
    the observable part of the prior state.  Two sequences of calls that see
    the same detections, from states with the same observable part (the same
    state in particular), return the same snapshots and leave the same
    counters, latches, flags, scores, status and history positions, whatever
    [Math.random()] and [Date.now()] return during the calls and whatever
    timestamps the histories held. *)
Theorem snapshots_ignore_random_and_time fs1 fs2 s1 s2 :
  Forall2 sameLandmarks fs1 fs2 ->
  observable s1 = observable s2 ->
  fst (detectAll fs1 s1) = fst (detectAll fs2 s2) /\
  observable (session fs1 s1) = observable (session fs2 s2).
Proof. intros H E. apply detectAll_observable; assumption. Qed.

Lemma snapshots_ignore_random_and_time_witness :
  let fs := Scenario.twoBlinks ++ [Scenario.frame []] in
  map Date_now fs <> map Date_now (replay fs) /\
  map Math_random fs <> map Math_random (replay fs) /\
  (fst (detectAll fs constructor) = fst (detectAll (replay fs) constructor) /\
   observable (session fs constructor) =
   observable (session (replay fs) constructor)).
Proof.
  cbv zeta. split; [|split].
  - vm_compute. discriminate.
  - intros H.
    pose proof (f_equal (fun l => match l with
                                  | v :: _ => (v <? 0.25)%float
                                  | [] => false
                                  end) H) as E.
    vm_compute in E. discriminate E.
  - apply (snapshots_ignore_random_and_time
             (Scenario.twoBlinks ++ [Scenario.frame []])
             (replay (Scenario.twoBlinks ++ [Scenario.frame []]))
             constructor constructor).
    + apply replay_sameLandmarks.
    + reflexivity.
Defined.

(** ** C3: the spoof flags and [reset] *)

Lemma calculateEyeAspectRatio_keeps (I : LivenessDetector -> Prop) :
  (forall s v, I s -> I (set_eyeAspectRatio s v)) ->
  (forall s a b, I s -> I (set_eyeFrames s a b)) ->
  keeps I calculateEyeAspectRatio.
Proof.
  intros. unfold calculateEyeAspectRatio, getEAR, distance. footprint.
Qed.

Lemma calculateMouthAspectRatio_keeps (I : LivenessDetector -> Prop) :
  (forall s a b, I s -> I (set_mouthFrames s a b)) ->
  keeps I calculateMouthAspectRatio.
Proof.
  intros. unfold calculateMouthAspectRatio, distance. footprint.
Qed.

(** Every write a call of [detectLiveness] can make. *)
Lemma detectLiveness_keeps (I : LivenessDetector -> Prop) f :
  (forall s v, I s -> I (set_faceLandmarks s v)) ->
  (forall s v, I s -> I (set_eyeAspectRatio s v)) ->
  (forall s a b, I s -> I (set_eyeFrames s a b)) ->
  (forall s a b, I s -> I (set_mouthFrames s a b)) ->
  (forall s v, I s -> I (set_blinkCount s v)) ->
  (forall s v, I s -> I (set_blinkDetected s v)) ->
  (forall s v, I s -> I (set_mouthOpenDetected s v)) ->
  (forall s v, I s -> I (set_frameHistory s v)) ->
  (forall s, I s -> I (set_headMovementDetected s true)) ->
  (forall s, I s -> I (set_photoSpoofingDetected s true)) ->
  (forall s, I s -> I (set_screenSpoofingDetected s true)) ->
  (forall s v, I s -> I (set_antiSpoofingScore s v)) ->
  (forall s v, I s -> I (set_livenessScore s v)) ->
  (forall s v, I s -> I (set_realPersonScore s v)) ->
  (forall s v, I s -> I (set_isLivenessActive s v)) ->
  (forall s v, I s -> I (set_livenessStatus s v)) ->
  keeps I (detectLiveness f).
Proof.
  intros. unfold detectLiveness.
  apply keeps_bind.
  { unfold guard. destruct (negb (videoElement f)); [apply keeps_ret|].
    destruct (faceapi f); [apply keeps_lift | apply keeps_ret]. }
  intros [|]; [apply keeps_ret|].
  apply keeps_try; [|apply keeps_ret].
  unfold tryBlock. apply keeps_bind; [apply keeps_lift|].
  intros [|d [|d' ds]]; simpl.
  - apply keeps_bind; [apply keeps_assign; auto | intro].
    apply keeps_bind; [apply keeps_this | intro; apply keeps_ret].
  - unfold singleFace.
    apply keeps_bind; [apply keeps_assign; auto | intro].
    apply keeps_bind; [apply calculateEyeAspectRatio_keeps; auto | intro].
    apply keeps_bind; [apply calculateMouthAspectRatio_keeps; auto | intro].
    apply keeps_bind; [apply detectBlinks_keeps; auto | intro].
    apply keeps_bind; [apply detectMouthMovements_keeps; auto | intro].
    apply keeps_bind; [apply detectHeadMovement_keeps; auto | intro].
    apply keeps_bind; [apply detectSpoofing_keeps; auto | intro].
    apply keeps_bind; [apply calculateAntiSpoofingScore_keeps; auto | intro].
    apply keeps_bind; [apply calculateLivenessScore_keeps; auto | intro].
    apply keeps_bind; [apply keeps_this | intro; apply keeps_ret].
  - apply keeps_bind; [apply keeps_assign; auto | intro].
    apply keeps_bind; [apply keeps_this | intro; apply keeps_ret].
Qed.

Lemma session_keeps (I : LivenessDetector -> Prop) fs :
  (forall f, keeps I (detectLiveness f)) ->
  forall s, I s -> I (session fs s).
Proof.
  intros H. induction fs as [|f fs IH]; intros s Hs; [exact Hs|].
  rewrite session_cons. apply IH, H, Hs.
Qed.

(** C3.  The two spoof flags are stuck on: once one is true it is true after
    every further call of [detectLiveness], whatever the frames; no call
    clears it.  [reset()] clears both and puts the session state back to its
    creation-time values: blink count 0, consecutive-frame counters 0, latches
    and head-movement flag false, scores 0, verdict false, history empty,
    status [pending].  (Only [faceLandmarks] and [eyeAspectRatio], which hold
    data of the last frame, are left as they are; every call overwrites them
    before it reads them.)  After [reset()] the session answers every sequence
    of frames as a new session does. *)
Theorem spoof_flags_sticky_until_reset s fs :
  (photoSpoofingDetected s = true ->
   photoSpoofingDetected (session fs s) = true) /\
  (screenSpoofingDetected s = true ->
   screenSpoofingDetected (session fs s) = true) /\
  (let r := exec reset s in
   completion reset s = Normal tt /\
   photoSpoofingDetected r = false /\
   screenSpoofingDetected r = false /\
   blinkCount r = 0 /\
   eyeClosedFrames r = 0 /\ eyeOpenFrames r = 0 /\
   mouthOpenFrames r = 0 /\ mouthClosedFrames r = 0 /\
   blinkDetected r = false /\ mouthOpenDetected r = false /\
   headMovementDetected r = false /\
   frameHistory r = [] /\
   livenessStatus r = pending /\
   isLivenessActive r = false /\
   observable r = observable constructor /\
   fst (detectAll fs r) = fst (detectAll fs constructor) /\
   observable (session fs r) = observable (session fs constructor)).
Proof.
  split; [|split].
  - apply (session_keeps (fun t => photoSpoofingDetected t = true)).
    intro f. apply detectLiveness_keeps; stable.
  - apply (session_keeps (fun t => screenSpoofingDetected t = true)).
    intro f. apply detectLiveness_keeps; stable.
  - cbv zeta. unfold completion, exec. rewrite reset_run. simpl.
    repeat (split; [reflexivity|]).
    apply detectAll_observable; [apply sameLandmarks_refl | reflexivity].
Qed.

Lemma spoof_flags_sticky_until_reset_witness :
  let s := session (repeat (Scenario.open 0) 8) constructor in
  let fs := Scenario.twoBlinks in
  (photoSpoofingDetected s = true /\ screenSpoofingDetected s = true) /\
  (photoSpoofingDetected (session fs s) = true /\
   screenSpoofingDetected (session fs s) = true) /\
  (photoSpoofingDetected (exec reset (session fs s)) = false /\
   screenSpoofingDetected (exec reset (session fs s)) = false /\
   LivenessData.isActive
     (getLivenessData (session fs (exec reset (session fs s)))) = true).
Proof.
  cbv zeta.
  pose proof (spoof_flags_sticky_until_reset
                (session (repeat (Scenario.open 0) 8) constructor)
                Scenario.twoBlinks) as (P & S & _).
  assert (F : photoSpoofingDetected
                (session (repeat (Scenario.open 0) 8) constructor) = true /\
              screenSpoofingDetected
                (session (repeat (Scenario.open 0) 8) constructor) = true)
    by (vm_compute; split; reflexivity).
  split; [exact F|].
  split; [exact (conj (P (proj1 F)) (S (proj2 F)))|].
  vm_compute. repeat split.
Defined.

(** * Further properties of the detector *)

(** ** How a call ends *)

Lemma detectLiveness_kind f s :
  detectLiveness f s =
  match kindOf f with
  | Unloaded => (Throw, s)
  | AtGuard => (Normal (literal pending false), s)
  | Rejected => (Normal (literal error true), s)
  | NoFace =>
      (Normal (getLivenessData (set_livenessStatus s no_face)),
       set_livenessStatus s no_face)
  | ManyFaces =>
      (Normal (getLivenessData (set_livenessStatus s multiple_faces)),
       set_livenessStatus s multiple_faces)
  | EyeThrows lm =>
      (Normal (literal error true), set_faceLandmarks s (Some lm))
  | MouthThrows lm e =>
      (Normal (literal error true),
       eyeWrites e (set_faceLandmarks s (Some lm)))
  | RunsThrough lm e mouthAR =>
      (Normal (getLivenessData (faceState f lm e mouthAR s)),
       faceState f lm e mouthAR s)
  end.
Proof.
  unfold kindOf.
  destruct (videoElement f) eqn:V;
    [destruct (faceapi f) as [|[|]] eqn:F|]; cbn [negb]; cbv iota;
    try (apply detectLiveness_guard; auto; fail);
    try (apply detectLiveness_unloaded; assumption).
  rewrite (detectLiveness_try f s V F).
  destruct (detectAllFaces f) as [[|d [|d' ds]]|] eqn:D.
  - rewrite tryBlock_no_face by assumption. reflexivity.
  - rewrite (tryBlock_single f s d D), singleFace_run. cbv zeta.
    destruct (eyeRatio (landmarks d)); [|reflexivity].
    destruct (mouthRatio (landmarks d)); reflexivity.
  - rewrite (tryBlock_multiple f s _ D) by (simpl; lia). reflexivity.
  - rewrite tryBlock_rejected by assumption. reflexivity.
Qed.

(** A property of the state that the status, the landmarks and the eye
    fields do not touch, and that the final [return] establishes, holds after
    every call. *)
Lemma detectLiveness_invariant (I : LivenessDetector -> Prop) f s :
  (forall t v, I t -> I (set_livenessStatus t v)) ->
  (forall t v, I t -> I (set_faceLandmarks t v)) ->
  (forall t v, I t -> I (set_eyeAspectRatio t v)) ->
  (forall t a b, I t -> I (set_eyeFrames t a b)) ->
  (forall lm e m, kindOf f = RunsThrough lm e m -> I (faceState f lm e m s)) ->
  I s -> I (exec (detectLiveness f) s).
Proof.
  intros H1 H2 H3 H4 H5 Hs. unfold exec. rewrite detectLiveness_kind.
  destruct (kindOf f) as [| | | | |lm|lm e|lm e m]; simpl; auto.
  unfold eyeWrites. destruct (_ <? _)%float; auto.
Qed.

Lemma session_invariant (I : LivenessDetector -> Prop) fs :
  (forall f s, I s -> I (exec (detectLiveness f) s)) ->
  forall s, I s -> I (session fs s).
Proof.
  intros H. induction fs as [|f fs IH]; intros s Hs; [exact Hs|].
  rewrite session_cons. apply IH, H, Hs.
Qed.

(** ** The values of the anti-spoofing score *)

Lemma ltb_005_01 x : (x <? 0.05)%float = true -> (x <? 0.1)%float = true.
Proof.
  rewrite !ltb_spec.
  replace (Prim2SF 0.05) with (S754_finite false 7205759403792794 (-57))
    by (vm_compute; reflexivity).
  replace (Prim2SF 0.1) with (S754_finite false 7205759403792794 (-56))
    by (vm_compute; reflexivity).
  destruct (Prim2SF x) as [sg|sg| |sg m e]; unfold SFltb, SFcompare;
    try (destruct sg); try congruence.
  destruct (Z.compare_spec e (-57)); destruct (Z.compare_spec e (-56));
    try congruence; lia.
Qed.

Lemma calculateAntiSpoofingScore_values s :
  In (antiSpoofingScore (exec calculateAntiSpoofingScore s)) antiSpoofingValues.
Proof.
  unfold calculateAntiSpoofingScore, exec, bind, this, assign. cbv zeta.
  cbn [snd antiSpoofingScore set_antiSpoofingScore].
  pose proof (ltb_005_01 (calculateMovementVariation s)) as T.
  destruct (photoSpoofingDetected s), (screenSpoofingDetected s),
    (calculateMovementVariation s <? 0.1)%float,
    (calculateMovementVariation s <? 0.05)%float;
    try (specialize (T eq_refl); discriminate T);
    vm_compute; auto 10.
Qed.

Lemma faceState_scoring f lm e m s :
  exists s6,
    faceState f lm e m s =
    exec calculateLivenessScore (exec calculateAntiSpoofingScore s6).
Proof. unfold faceState. rewrite updates_full. eauto. Qed.

Lemma faceState_anti f lm e m s :
  In (antiSpoofingScore (faceState f lm e m s)) antiSpoofingValues.
Proof.
  destruct (faceState_scoring f lm e m s) as [s6 E]. rewrite E.
  rewrite (keeps_eq calculateLivenessScore antiSpoofingScore)
    by (intro; apply calculateLivenessScore_keeps; stable).
  apply calculateAntiSpoofingScore_values.
Qed.

(** A call that throws leaves the state as it was.  The snapshot a call
    returns is one of the two literals or is read from the state the call
    leaves. *)
Lemma detectLiveness_snapshot f s :
  match completion (detectLiveness f) s with
  | Throw => exec (detectLiveness f) s = s
  | Normal c =>
      c = literal pending false \/ c = literal error true \/
      c = getLivenessData (exec (detectLiveness f) s)
  end.
Proof.
  unfold completion, exec. rewrite detectLiveness_kind.
  destruct (kindOf f); simpl; auto.
Qed.

(** Lifts a property of the states to the snapshots of a whole session. *)
Lemma detectAll_Forall (I : LivenessDetector -> Prop)
    (P : LivenessData.t -> Prop) fs :
  (forall f s, I s -> I (exec (detectLiveness f) s)) ->
  P (literal pending false) -> P (literal error true) ->
  (forall s, I s -> P (getLivenessData s)) ->
  forall s, I s ->
    Forall (fun c => forall d, c = Normal d -> P d) (fst (detectAll fs s)).
Proof.
  intros Hstep Hp He Hd.
  induction fs as [|f fs IH]; intros s Hs; [constructor|].
  rewrite detectAll_cons. constructor; [|apply IH, Hstep, Hs].
  pose proof (detectLiveness_snapshot f s) as K.
  destruct (completion (detectLiveness f) s) as [c|]; intros d E;
    [|discriminate E].
  injection E as <-. destruct K as [C|[C|C]]; subst c; auto.
Qed.

(** X1.  The anti-spoofing score only ever takes the values 0, 20, 50, 70
    and 100, all within [0, 100]: in the state after any calls made from a
    new or reset session, and in every snapshot returned on the way (a call
    made before the library is loaded throws and returns none). *)
Theorem antiSpoofingScore_five_values fs s :
  In (antiSpoofingScore s) antiSpoofingValues ->
  In (antiSpoofingScore (session fs s)) antiSpoofingValues /\
  Forall (fun c => forall d, c = Normal d ->
                   In (LivenessData.antiSpoofingScore d) antiSpoofingValues)
    (fst (detectAll fs s)) /\
  (forall v, In v antiSpoofingValues ->
     (0 <=? v)%float = true /\ (v <=? 100)%float = true).
Proof.
  assert (Step : forall f t,
            In (antiSpoofingScore t) antiSpoofingValues ->
            In (antiSpoofingScore (exec (detectLiveness f) t))
              antiSpoofingValues).
  { intros f t Ht.
    apply (detectLiveness_invariant
             (fun u => In (antiSpoofingScore u) antiSpoofingValues));
      [stable | stable | stable | stable
      | intros; apply faceState_anti | exact Ht]. }
  intros H. split; [|split].
  - apply (session_invariant
             (fun u => In (antiSpoofingScore u) antiSpoofingValues));
      assumption.
  - apply (detectAll_Forall
             (fun u => In (antiSpoofingScore u) antiSpoofingValues)); auto.
    + vm_compute. auto.
    + vm_compute. auto.
  - intros v Hv.
    repeat (destruct Hv as [Hv|Hv]; [subst v; vm_compute; auto|]).
    destruct Hv.
Qed.

Lemma antiSpoofingScore_five_values_witness :
  let fs := Scenario.twoBlinks ++ repeat (Scenario.open 80) 10 in
  antiSpoofingScore (session fs constructor) = 0%float /\
  (In (antiSpoofingScore (session fs constructor)) antiSpoofingValues /\
   Forall (fun c => forall d, c = Normal d ->
                    In (LivenessData.antiSpoofingScore d) antiSpoofingValues)
     (fst (detectAll fs constructor)) /\
   (forall v, In v antiSpoofingValues ->
      (0 <=? v)%float = true /\ (v <=? 100)%float = true)).
Proof.
  cbv zeta. split; [vm_compute; reflexivity|].
  apply (antiSpoofingScore_five_values
           (Scenario.twoBlinks ++ repeat (Scenario.open 80) 10) constructor).
  vm_compute. auto.
Defined.

(** ** A true verdict is backed by the fields *)

Lemma calculateLivenessScore_real s :
  realPersonScore (exec calculateLivenessScore s) =
  calculateRealPersonScore (exec calculateLivenessScore s).
Proof.
  destruct s. unfold calculateLivenessScore, calculateRealPersonScore,
    getDetailedStatus. monad.
  match goal with |- context [set_isLivenessActive _ ?b] =>
    generalize b; intros v end.
  destruct v; reflexivity.
Qed.

Lemma faceState_backed f lm e m s : verdictBacked (faceState f lm e m s).
Proof.
  destruct (faceState_post f lm e m s) as [V _]. cbv zeta in V.
  pose proof (faceState_anti f lm e m s) as A.
  destruct (faceState_scoring f lm e m s) as [s6 E].
  pose proof (calculateLivenessScore_real
                (exec calculateAntiSpoofingScore s6)) as R.
  rewrite <- E in R.
  set (s' := faceState f lm e m s) in *. clearbody s'. clear E.
  intros H. rewrite H in V. symmetry in V.
  unfold MIN_LIVENESS_SCORE, ANTI_SPOOFING_THRESHOLD, MIN_BLINKS_REQUIRED in V.
  rewrite !andb_true_iff, !negb_true_iff in V.
  destruct V as (((((L & B) & Hm) & G) & P) & S).
  repeat (split; [first [assumption | apply Nat.leb_le, B]|]).
  rewrite R. unfold calculateRealPersonScore. cbv zeta. rewrite B, Hm.
  unfold antiSpoofingValues in A.
  destruct (3 <=? blinkCount s'), (mouthOpenDetected s');
    repeat (destruct A as [A|A];
            [rewrite <- A in *;
             first [ vm_compute; reflexivity
                   | vm_compute in G; discriminate G ]|]);
    destruct A.
Qed.

Lemma detectLiveness_backed f t :
  verdictBacked t -> verdictBacked (exec (detectLiveness f) t).
Proof.
  intros Ht.
  apply (detectLiveness_invariant verdictBacked);
    [ unfold verdictBacked; stable | unfold verdictBacked; stable
    | unfold verdictBacked; stable | unfold verdictBacked; stable
    | intros; apply faceState_backed | exact Ht ].
Qed.

(** X2.  Whenever the stored verdict is true, the fields back it: no spoof
    flag is raised, at least 2 blinks are counted, head movement is detected,
    [antiSpoofingScore >= 70], [livenessScore >= 80] and
    [realPersonScore >= 70].  This holds after any calls from a new or reset
    session, also after the calls that return early or throw, and for every
    snapshot returned, the ones of frames without a face included. *)
Theorem true_verdict_is_backed fs s :
  verdictBacked s ->
  verdictBacked (session fs s) /\
  Forall (fun c => forall d, c = Normal d ->
            (LivenessData.isActive d = true ->
             LivenessData.spoofingDetected d = false /\
             2 <= LivenessData.eyeBlinkCount d /\
             LivenessData.headMovementDetected d = true /\
             Js.geb (LivenessData.antiSpoofingScore d) 70 = true /\
             Js.geb (LivenessData.livenessScore d) 80 = true /\
             Js.geb (LivenessData.realPersonScore d) 70 = true))
    (fst (detectAll fs s)).
Proof.
  intros H. split.
  - apply (session_invariant verdictBacked);
      auto using detectLiveness_backed.
  - apply (detectAll_Forall verdictBacked);
      auto using detectLiveness_backed.
    + discriminate.
    + discriminate.
    + intros t Ht A. destruct (Ht A) as (P & S & Rest). simpl.
      rewrite P, S. split; [reflexivity | exact Rest].
Qed.

Lemma true_verdict_is_backed_witness :
  let fs := Scenario.twoBlinks ++ [Scenario.frame []] in
  isLivenessActive (session fs constructor) = true /\
  (verdictBacked (session fs constructor) /\
   Forall (fun c => forall d, c = Normal d ->
             (LivenessData.isActive d = true ->
              LivenessData.spoofingDetected d = false /\
              2 <= LivenessData.eyeBlinkCount d /\
              LivenessData.headMovementDetected d = true /\
              Js.geb (LivenessData.antiSpoofingScore d) 70 = true /\
              Js.geb (LivenessData.livenessScore d) 80 = true /\
              Js.geb (LivenessData.realPersonScore d) 70 = true))
     (fst (detectAll fs constructor))).
Proof.
  cbv zeta. split; [vm_compute; reflexivity|].
  apply (true_verdict_is_backed
           (Scenario.twoBlinks ++ [Scenario.frame []]) constructor).
  intros H. discriminate H.
Defined.

(** ** How fast the blink counter can grow *)

Lemma detectLiveness_view_kind f s :
  blinkView (exec (detectLiveness f) s) =
  match kindOf f with
  | RunsThrough _ e _ => blinkStep (e <? EYE_AR_THRESHOLD)%float (blinkView s)
  | MouthThrows _ e => eyeOnlyStep (e <? EYE_AR_THRESHOLD)%float (blinkView s)
  | _ => blinkView s
  end.
Proof.
  unfold exec. rewrite detectLiveness_kind.
  destruct (kindOf f) as [| | | | |lm|lm e|lm e m]; try reflexivity.
  - simpl. unfold eyeWrites, eyeOnlyStep, blinkView.
    destruct (_ <? _)%float; reflexivity.
  - apply faceState_view.
Qed.

Ltac blink_cases :=
  repeat match goal with
    | |- context [(3 <=? ?b)] => destruct (Nat.leb_spec 3 b)
    end;
  cbn [andb orb negb];
  repeat match goal with
    | |- context [(?a <=? ?b)] => destruct (Nat.leb_spec a b)
    end;
  try lia.

Lemma framesNeeded_blinkStep target shut v :
  framesNeeded target v <= S (framesNeeded target (blinkStep shut v)).
Proof.
  destruct v as [[[closed open] latched] count].
  unfold framesNeeded, framesUntilBlink, blinkStep, EYE_AR_CONSEC_FRAMES.
  destruct shut, latched; cbn [andb orb negb]; blink_cases.
Qed.

Lemma framesNeeded_eyeOnlyStep target shut v :
  framesNeeded target v <= S (framesNeeded target (eyeOnlyStep shut v)).
Proof.
  destruct v as [[[closed open] latched] count].
  unfold framesNeeded, framesUntilBlink, eyeOnlyStep.
  destruct shut, latched; blink_cases.
Qed.

Lemma framesNeeded_call target f s :
  framesNeeded target (blinkView s) <=
  S (framesNeeded target (blinkView (exec (detectLiveness f) s))).
Proof.
  rewrite detectLiveness_view_kind.
  destruct (kindOf f); auto using framesNeeded_blinkStep,
    framesNeeded_eyeOnlyStep.
Qed.

Lemma framesNeeded_session target fs : forall s,
  framesNeeded target (blinkView s) <=
  length fs + framesNeeded target (blinkView (session fs s)).
Proof.
  induction fs as [|f fs IH]; intros s;
    [change (session [] s) with s; simpl length; lia|].
  rewrite session_cons. simpl length.
  pose proof (framesNeeded_call target f s).
  pose proof (IH (exec (detectLiveness f) s)). lia.
Qed.

Lemma blinkCount_call f s :
  blinkCount s <= blinkCount (exec (detectLiveness f) s) <= S (blinkCount s).
Proof.
  pose proof (detectLiveness_view_kind f s) as V.
  destruct (blinkView s) as [[[closed open] latched] count] eqn:E.
  unfold blinkView in E. injection E as E1 E2 E3 E4.
  destruct (kindOf f); unfold blinkView, blinkStep, eyeOnlyStep in V;
    injection V as _ _ _ V; rewrite V, E4;
    try match goal with |- context [if ?b then _ else _] => destruct b end;
    lia.
Qed.

(** X3.  The blink counter never decreases from one call to the next, and a
    call adds at most 1 to it: after any calls it lies between its former
    value and that value plus the number of calls. *)
Theorem blinkCount_never_decreases fs s :
  blinkCount s <= blinkCount (session fs s) <= blinkCount s + length fs.
Proof.
  revert s. induction fs as [|f fs IH]; intros s.
  - change (session [] s) with s. simpl length. lia.
  - rewrite session_cons. simpl length.
    pose proof (blinkCount_call f s).
    pose proof (IH (exec (detectLiveness f) s)). lia.
Qed.

Lemma verdict_needs_blinks t :
  verdictBacked t -> 0 < framesNeeded 2 (blinkView t) ->
  isLivenessActive t = false.
Proof.
  intros B N. destruct (isLivenessActive t) eqn:A; [|reflexivity].
  destruct (B A) as (_ & _ & C & _).
  unfold framesNeeded, blinkView in N.
  destruct (Nat.leb_spec 2 (blinkCount t)); lia.
Qed.

Lemma early_snapshots_inactive fs : forall s,
  verdictBacked s ->
  length fs < framesNeeded 2 (blinkView s) ->
  isLivenessActive (session fs s) = false /\
  Forall (fun c => forall d, c = Normal d -> LivenessData.isActive d = false)
    (fst (detectAll fs s)).
Proof.
  pose proof verdict_needs_blinks as Off.
  induction fs as [|f fs IH]; intros s B L.
  - change (session [] s) with s. split; [|constructor].
    apply Off; [exact B|]. simpl length in L. lia.
  - pose proof (framesNeeded_call 2 f s) as N. simpl length in L.
    pose proof (detectLiveness_backed f s B) as B1.
    destruct (IH (exec (detectLiveness f) s) B1) as [A F]; [lia|].
    rewrite session_cons, detectAll_cons. split; [exact A|].
    constructor; [|exact F].
    pose proof (detectLiveness_snapshot f s) as K.
    destruct (completion (detectLiveness f) s) as [c|]; intros d E;
      [|discriminate E].
    injection E as <-. destruct K as [C|[C|C]]; subst c; try reflexivity.
    apply Off; [exact B1 | lia].
Qed.

(** X4.  From a new or reset session the blink counter after [n] calls is at
    most [(n + 3) / 6]: the first blink takes 3 calls, each further one 6.
    So the verdict is false, in the state and in every snapshot returned, as
    long as fewer than 9 calls have been made, whatever the frames show. *)
Theorem no_verdict_before_ninth_call fs s :
  eyeClosedFrames s = 0 -> blinkDetected s = false -> blinkCount s = 0 ->
  isLivenessActive s = false ->
  6 * blinkCount (session fs s) <= length fs + 3 /\
  (length fs < 9 ->
   isLivenessActive (session fs s) = false /\
   Forall (fun c => forall d, c = Normal d -> LivenessData.isActive d = false)
     (fst (detectAll fs s))).
Proof.
  intros C L K A. split.
  - pose proof (framesNeeded_session (blinkCount (session fs s)) fs s) as N.
    unfold framesNeeded, framesUntilBlink, blinkView in N.
    rewrite C, L, K, Nat.leb_refl in N.
    destruct (Nat.leb_spec (blinkCount (session fs s)) 0); lia.
  - intros Short. apply early_snapshots_inactive.
    + intros H. rewrite A in H. discriminate H.
    + unfold framesNeeded, framesUntilBlink, blinkView.
      rewrite C, L, K. simpl. exact Short.
Qed.

Lemma no_verdict_before_ninth_call_witness :
  let fs := firstn 8 Scenario.twoBlinks in
  isLivenessActive (session Scenario.twoBlinks constructor) = true /\
  length Scenario.twoBlinks = 9 /\
  (6 * blinkCount (session fs constructor) <= length fs + 3 /\
   (length fs < 9 ->
    isLivenessActive (session fs constructor) = false /\
    Forall (fun c => forall d, c = Normal d -> LivenessData.isActive d = false)
      (fst (detectAll fs constructor)))).
Proof.
  cbv zeta. split; [vm_compute; reflexivity|]. split; [reflexivity|].
  apply (no_verdict_before_ninth_call (firstn 8 Scenario.twoBlinks)
           constructor); reflexivity.
Defined.

(** ** When head movement is detected *)

Lemma anyJump_cons prev curr rest :
  anyJump (prev :: curr :: rest) = jump prev curr || anyJump (curr :: rest).
Proof. reflexivity. Qed.

Lemma movementScan_jump rest : forall prev t n,
  snd (movementScan prev rest t n) = anyJump (prev :: rest).
Proof.
  induction rest as [|curr rest IH]; intros prev t n; [reflexivity|].
  rewrite anyJump_cons, <- (IH curr (t + (abs (Sample.x curr - Sample.x prev)
                                         + abs (Sample.y curr - Sample.y prev)))%float
                              (S n)).
  simpl movementScan.
  destruct (movementScan curr rest _ _) as [[t' n'] b]. reflexivity.
Qed.

Lemma movementOf_jump h : snd (movementOf h) = anyJump h.
Proof. destruct h; [reflexivity | apply movementScan_jump]. Qed.

Lemma detectHeadMovement_head f s lm nosePoint others :
  faceLandmarks s = Some lm -> getNose lm = nosePoint :: others ->
  headMovementDetected (exec (detectHeadMovement f) s) =
  let h := pushAndTrim (frameHistory s)
             (Sample.mk (Point.x nosePoint) (Point.y nosePoint) (Date_now f)) in
  headMovementDetected s || (3 <=? length h) && anyJump h.
Proof.
  intros L N. rewrite (detectHeadMovement_run f s lm nosePoint others L N).
  cbv zeta.
  set (h := pushAndTrim _ _). rewrite <- (movementOf_jump h).
  destruct (3 <=? length h); [|simpl; rewrite orb_false_r; reflexivity].
  destruct (movementOf h) as [[t n] b].
  destruct b;
    match goal with |- context [if ?c then _ else _] => destruct c end;
    simpl; rewrite ?orb_true_r, ?orb_false_r; reflexivity.
Qed.

Lemma sampleOf_kind f :
  sampleOf f =
  match kindOf f with
  | RunsThrough lm _ _ =>
      match getNose lm with
      | nosePoint :: _ =>
          Some (Sample.mk (Point.x nosePoint) (Point.y nosePoint) (Date_now f))
      | [] => None
      end
  | _ => None
  end.
Proof.
  unfold sampleOf, kindOf.
  destruct (videoElement f), (faceapi f) as [|[|]]; try reflexivity. simpl.
  destruct (detectAllFaces f) as [[|d [|d' ds]]|]; try reflexivity.
  destruct (eyeRatio (landmarks d)); [|reflexivity].
  destruct (mouthRatio (landmarks d)); reflexivity.
Qed.

Lemma faceState_head f lm e m s :
  headMovementDetected (faceState f lm e m s) =
  match getNose lm with
  | nosePoint :: _ =>
      let h := pushAndTrim (frameHistory s)
                 (Sample.mk (Point.x nosePoint) (Point.y nosePoint)
                    (Date_now f)) in
      headMovementDetected s || (3 <=? length h) && anyJump h
  | [] => headMovementDetected s
  end.
Proof.
  unfold faceState. rewrite updates_exec.
  rewrite (keeps_eq (scoring f) headMovementDetected)
    by (intro; apply scoring_keeps; stable).
  set (t := mouthWrites m (eyeWrites e (set_faceLandmarks s (Some lm)))).
  set (u := exec detectMouthMovements (exec detectBlinks t)).
  assert (L : faceLandmarks u = Some lm).
  { unfold u, t. rewrite gestures_landmarks, mouthWrites_landmarks,
      eyeWrites_landmarks. reflexivity. }
  assert (H : frameHistory u = frameHistory s).
  { unfold u, t. rewrite gestures_history, mouthWrites_history,
      eyeWrites_history. reflexivity. }
  assert (D : headMovementDetected u = headMovementDetected s).
  { unfold u.
    rewrite (keeps_eq detectMouthMovements headMovementDetected)
      by (intro; apply detectMouthMovements_keeps; stable).
    rewrite (keeps_eq detectBlinks headMovementDetected)
      by (intro; apply detectBlinks_keeps; stable).
    unfold t, mouthWrites, eyeWrites.
    destruct (Js.gtb _ _), (_ <? _)%float; reflexivity. }
  destruct (getNose lm) as [|p ps] eqn:N.
  - rewrite detectHeadMovement_skip; [exact D | rewrite L; exact N].
  - rewrite (detectHeadMovement_head f u lm p ps L N). cbv zeta.
    rewrite H, D. reflexivity.
Qed.

Lemma detectLiveness_head f s :
  headMovementDetected (exec (detectLiveness f) s) =
  match sampleOf f with
  | Some entry =>
      let h := pushAndTrim (frameHistory s) entry in
      headMovementDetected s || (3 <=? length h) && anyJump h
  | None => headMovementDetected s
  end.
Proof.
  rewrite sampleOf_kind. unfold exec. rewrite detectLiveness_kind.
  destruct (kindOf f) as [| | | | |lm|lm e|lm e m]; try reflexivity.
  - simpl. unfold eyeWrites. destruct (_ <? _)%float; reflexivity.
  - cbn [snd]. rewrite faceState_head.
    destruct (getNose lm); reflexivity.
Qed.

Lemma anyJump_split l1 : forall a l2,
  anyJump (l1 ++ a :: l2) = anyJump (l1 ++ [a]) || anyJump (a :: l2).
Proof.
  induction l1 as [|b l1 IH]; intros a l2; [reflexivity|].
  destruct l1 as [|c l1].
  - simpl app. rewrite !anyJump_cons.
    change (anyJump [a]) with false. rewrite orb_false_r. reflexivity.
  - change ((b :: c :: l1) ++ a :: l2) with (b :: c :: (l1 ++ a :: l2)).
    change ((b :: c :: l1) ++ [a]) with (b :: c :: (l1 ++ [a])).
    rewrite !anyJump_cons.
    change (c :: (l1 ++ a :: l2)) with ((c :: l1) ++ a :: l2).
    rewrite IH, orb_assoc. reflexivity.
Qed.

Lemma anyJump_tl x l : anyJump l = true -> anyJump (x :: l) = true.
Proof.
  destruct l as [|y l]; [discriminate|].
  intros H. rewrite anyJump_cons, H. apply orb_true_r.
Qed.

Lemma anyJump_skipn k : forall l,
  anyJump (skipn k l) = true -> anyJump l = true.
Proof.
  induction k as [|k IH]; intros l H; [exact H|].
  destruct l as [|x l]; [discriminate H|].
  apply anyJump_tl, IH, H.
Qed.

(** The part of the history that the bound of 10 entries drops has been
    scanned before it was dropped. *)
Lemma anyJump_window k l a e :
  k <= length l ->
  anyJump (l ++ [a]) || anyJump (skipn k (l ++ [a; e])) =
  anyJump (l ++ [a; e]).
Proof.
  intros K. rewrite skipn_app.
  replace (k - length l) with 0 by lia. simpl skipn at 2.
  rewrite (anyJump_split (skipn k l) a [e]), (anyJump_split l a [e]).
  pose proof (anyJump_skipn k (l ++ [a])) as S.
  rewrite skipn_app in S. replace (k - length l) with 0 in S by lia.
  simpl skipn at 2 in S.
  destruct (anyJump (skipn k l ++ [a])), (anyJump (l ++ [a]));
    try reflexivity.
  discriminate (S eq_refl).
Qed.

Lemma head_window l e :
  (3 <=? length l) && anyJump l
  || (3 <=? length (lastN 10 (l ++ [e]))) && anyJump (lastN 10 (l ++ [e])) =
  (3 <=? length (l ++ [e])) && anyJump (l ++ [e]).
Proof.
  destruct l as [|a l _] using rev_ind; [reflexivity|].
  rewrite <- app_assoc. change ([a] ++ [e]) with [a; e].
  unfold lastN. rewrite length_skipn, !length_app. simpl length.
  set (k := length l + 2 - 10).
  destruct (Nat.le_gt_cases 2 (length l)) as [G|G].
  - pose proof (anyJump_window k l a e ltac:(unfold k; lia)) as W.
    replace (3 <=? length l + 1) with true by (symmetry; apply Nat.leb_le; lia).
    replace (3 <=? length l + 2 - k) with true
      by (symmetry; apply Nat.leb_le; unfold k; lia).
    replace (3 <=? length l + 2) with true
      by (symmetry; apply Nat.leb_le; lia).
    exact W.
  - replace (3 <=? length l + 1) with false
      by (symmetry; apply Nat.leb_gt; lia).
    replace k with 0 by (unfold k; lia). rewrite Nat.sub_0_r. reflexivity.
Qed.

Lemma head_session fs : forall s pre,
  frameHistory s = lastN 10 pre ->
  headMovementDetected s = (3 <=? length pre) && anyJump pre ->
  headMovementDetected (session fs s) =
  (3 <=? length (pre ++ samplesOf fs)) && anyJump (pre ++ samplesOf fs).
Proof.
  induction fs as [|f fs IH]; intros s pre H D.
  - change (session [] s) with s. simpl samplesOf. rewrite app_nil_r. exact D.
  - rewrite session_cons. simpl samplesOf.
    pose proof (detectLiveness_history f s) as Hf.
    pose proof (detectLiveness_head f s) as Df.
    destruct (sampleOf f) as [entry|].
    + replace (pre ++ entry :: samplesOf fs)
        with ((pre ++ [entry]) ++ samplesOf fs)
        by (rewrite <- app_assoc; reflexivity).
      assert (E : pushAndTrim (frameHistory s) entry =
                  lastN 10 (pre ++ [entry])).
      { rewrite H, pushAndTrim_lastN by apply lastN_length.
        apply lastN_app_lastN. }
      apply IH.
      * rewrite Hf. exact E.
      * rewrite Df. cbv zeta. rewrite E, D. apply head_window.
    + apply IH; [rewrite Hf; exact H | rewrite Df; exact D].
Qed.

(** X5.  From a new or reset session, head movement is detected after a
    sequence of calls exactly when at least three frames contributed a nose
    position and some two successive positions, in the order they were
    recorded and whatever time or calls lie between them, differ by more than
    5 along x or along y.  Nothing is lost to the bound of 10 on the history:
    a jump is seen before its entries leave. *)
Theorem head_movement_iff_jump fs s :
  frameHistory s = [] -> headMovementDetected s = false ->
  headMovementDetected (session fs s) =
  (3 <=? length (samplesOf fs)) && anyJump (samplesOf fs).
Proof.
  intros H D. apply (head_session fs s []); [rewrite H|rewrite D]; reflexivity.
Qed.

Lemma head_movement_iff_jump_witness :
  anyJump (samplesOf Scenario.oneBlink) = true /\
  headMovementDetected (session Scenario.oneBlink constructor) =
  (3 <=? length (samplesOf Scenario.oneBlink))
  && anyJump (samplesOf Scenario.oneBlink).
Proof.
  split; [vm_compute; reflexivity|].
  apply (head_movement_iff_jump Scenario.oneBlink constructor); reflexivity.
Defined.

(** X6.  [headMovementDetected] is never cleared by a call: once set it stays
    set through any frames, those without a face included, until [reset],
    which clears it. *)
Theorem head_movement_sticky fs s :
  headMovementDetected s = true ->
  headMovementDetected (session fs s) = true /\
  headMovementDetected (exec reset (session fs s)) = false.
Proof.
  intros H. split; [|reflexivity].
  revert s H. induction fs as [|f fs IH]; intros s H; [exact H|].
  rewrite session_cons. apply IH. rewrite detectLiveness_head, H.
  destruct (sampleOf f); reflexivity.
Qed.

Lemma head_movement_sticky_witness :
  let s := session Scenario.oneBlink constructor in
  let fs := repeat (Scenario.frame []) 4 ++ repeat (Scenario.open 7) 6 in
  headMovementDetected s = true /\
  headMovementDetected (session fs s) = true /\
  headMovementDetected (exec reset (session fs s)) = false.
Proof.
  cbv zeta. split; [vm_compute; reflexivity|].
  apply (head_movement_sticky
           (repeat (Scenario.frame []) 4 ++ repeat (Scenario.open 7) 6)
           (session Scenario.oneBlink constructor)).
  vm_compute. reflexivity.
Defined.

(** ** The mouth latch *)

Lemma detectMouthMovements_view s :
  mouthView (exec detectMouthMovements s) = mouthLatch (mouthView s).
Proof.
  destruct s. unfold detectMouthMovements, mouthView, mouthLatch. monad.
  destruct (MOUTH_AR_CONSEC_FRAMES <=? mouthOpenFrames0), mouthOpenDetected0;
    simpl; destruct (MOUTH_AR_CONSEC_FRAMES <=? mouthClosedFrames0);
    reflexivity.
Qed.

Lemma faceState_mouth f lm e m s :
  mouthView (faceState f lm e m s) =
  mouthStep (Js.gtb m MOUTH_AR_THRESHOLD) (mouthView s).
Proof.
  unfold faceState. rewrite updates_exec.
  rewrite (keeps_eq (scoring f) mouthView)
    by (intro; apply scoring_keeps; stable).
  rewrite (keeps_eq (detectHeadMovement f) mouthView)
    by (intro; apply detectHeadMovement_keeps; stable).
  rewrite detectMouthMovements_view.
  rewrite (keeps_eq detectBlinks mouthView)
    by (intro; apply detectBlinks_keeps; stable).
  unfold mouthStep, mouthView, mouthWrites, eyeWrites.
  destruct (e <? EYE_AR_THRESHOLD)%float, (Js.gtb m MOUTH_AR_THRESHOLD);
    reflexivity.
Qed.

Lemma detectLiveness_mouth f s :
  mouthView (exec (detectLiveness f) s) =
  match mouthRatioOf f with
  | Some m => mouthStep (Js.gtb m MOUTH_AR_THRESHOLD) (mouthView s)
  | None => mouthView s
  end.
Proof.
  unfold mouthRatioOf, exec. rewrite detectLiveness_kind.
  destruct (kindOf f) as [| | | | |lm|lm e|lm e m]; try reflexivity.
  - simpl. unfold eyeWrites. destruct (_ <? _)%float; reflexivity.
  - apply faceState_mouth.
Qed.

Lemma mouthWide_step f s :
  mouthWide f = true ->
  mouthView (exec (detectLiveness f) s) = mouthStep true (mouthView s).
Proof.
  unfold mouthWide. intros H. rewrite detectLiveness_mouth.
  destruct (mouthRatioOf f); [rewrite H; reflexivity | discriminate H].
Qed.

Lemma mouthNarrow_step f s :
  mouthNarrow f = true ->
  mouthView (exec (detectLiveness f) s) = mouthStep false (mouthView s).
Proof.
  unfold mouthNarrow. intros H. rewrite detectLiveness_mouth.
  destruct (mouthRatioOf f); [|discriminate H].
  destruct (Js.gtb _ _); [discriminate H | reflexivity].
Qed.

Lemma session_wide run : forall s,
  Forall (fun f => mouthWide f = true) run -> run <> [] ->
  mouthView (session run s) =
  (mouthOpenFrames s + length run, 0,
   mouthOpenDetected s
   || (MOUTH_AR_CONSEC_FRAMES <=? mouthOpenFrames s + length run)).
Proof.
  unfold MOUTH_AR_CONSEC_FRAMES.
  induction run as [|f run IH]; intros s H N; [congruence|].
  inversion H as [|? ? Hf Hrun]; subst. rewrite session_cons.
  pose proof (mouthWide_step f s Hf) as E.
  unfold mouthStep, mouthLatch, mouthView, MOUTH_AR_CONSEC_FRAMES in E.
  change (5 <=? 0) with false in E. cbv iota in E.
  destruct run as [|g run].
  - change (session [] ?t) with t. unfold mouthView. rewrite E.
    simpl length. rewrite Nat.add_1_r. reflexivity.
  - rewrite (IH _ Hrun) by discriminate.
    injection E as -> _ ->. simpl length.
    replace (S (mouthOpenFrames s) + S (length run))
      with (mouthOpenFrames s + S (S (length run))) by lia.
    f_equal.
    destruct (Nat.leb_spec 5 (S (mouthOpenFrames s))),
      (Nat.leb_spec 5 (mouthOpenFrames s + S (S (length run))));
      rewrite ?orb_true_r, ?orb_false_r; try reflexivity; lia.
Qed.

Lemma session_narrow run : forall s,
  Forall (fun f => mouthNarrow f = true) run -> run <> [] ->
  mouthView (session run s) =
  (0, mouthClosedFrames s + length run,
   if MOUTH_AR_CONSEC_FRAMES <=? mouthClosedFrames s + length run then false
   else mouthOpenDetected s).
Proof.
  unfold MOUTH_AR_CONSEC_FRAMES.
  induction run as [|f run IH]; intros s H N; [congruence|].
  inversion H as [|? ? Hf Hrun]; subst. rewrite session_cons.
  pose proof (mouthNarrow_step f s Hf) as E.
  unfold mouthStep, mouthLatch, mouthView, MOUTH_AR_CONSEC_FRAMES in E.
  change (5 <=? 0) with false in E. rewrite orb_false_r in E.
  destruct run as [|g run].
  - change (session [] ?t) with t. unfold mouthView. rewrite E.
    simpl length. rewrite Nat.add_1_r. reflexivity.
  - rewrite (IH _ Hrun) by discriminate.
    injection E as _ -> ->. simpl length.
    replace (S (mouthClosedFrames s) + S (length run))
      with (mouthClosedFrames s + S (S (length run))) by lia.
    f_equal.
    destruct (Nat.leb_spec 5 (S (mouthClosedFrames s))),
      (Nat.leb_spec 5 (mouthClosedFrames s + S (S (length run))));
      try reflexivity; lia.
Qed.

(** X7.  The mouth flag is a latch with hysteresis, not a counter.  Five
    processed frames in a row with the mouth ratio above 0.35 set it, whatever
    the state before; five in a row with the ratio not above 0.35 clear it
    again, and with it the points it earned.  A shorter run, counted from the
    start of the streak, leaves it as it was. *)
Theorem mouth_latch_hysteresis run s :
  (Forall (fun f => mouthWide f = true) run ->
   (5 <= length run -> mouthOpenDetected (session run s) = true) /\
   (mouthOpenFrames s + length run < 5 ->
    mouthOpenDetected (session run s) = mouthOpenDetected s)) /\
  (Forall (fun f => mouthNarrow f = true) run ->
   (5 <= length run -> mouthOpenDetected (session run s) = false) /\
   (mouthClosedFrames s + length run < 5 ->
    mouthOpenDetected (session run s) = mouthOpenDetected s)).
Proof.
  destruct run as [|f run].
  { repeat split; intros; try reflexivity; simpl in *; lia. }
  split; intros H.
  - pose proof (session_wide (f :: run) s H ltac:(discriminate)) as E.
    unfold mouthView, MOUTH_AR_CONSEC_FRAMES in E.
    injection E as _ _ E. rewrite E. simpl length.
    destruct (Nat.leb_spec 5 (mouthOpenFrames s + S (length run)));
      split; intros L; rewrite ?orb_true_r, ?orb_false_r;
      try reflexivity; lia.
  - pose proof (session_narrow (f :: run) s H ltac:(discriminate)) as E.
    unfold mouthView, MOUTH_AR_CONSEC_FRAMES in E.
    injection E as _ _ E. rewrite E. simpl length.
    destruct (Nat.leb_spec 5 (mouthClosedFrames s + S (length run)));
      split; intros L; try reflexivity; lia.
Qed.

Lemma mouth_latch_hysteresis_witness :
  let s := session (repeat (Speaking.frame 2 0) 2) constructor in
  let wide := repeat (Speaking.frame 2 0) 5 in
  let narrow := repeat (Speaking.frame 1 0) 5 in
  (Forall (fun f => mouthWide f = true) wide /\ 5 <= length wide /\
   mouthOpenDetected (session wide s) = true) /\
  (Forall (fun f => mouthNarrow f = true) narrow /\ 5 <= length narrow /\
   mouthOpenDetected (session narrow (session wide s)) = false).
Proof.
  cbv zeta.
  assert (W : Forall (fun f => mouthWide f = true)
                (repeat (Speaking.frame 2 0) 5))
    by (repeat (apply Forall_cons; [vm_compute; reflexivity|]);
        apply Forall_nil).
  assert (N : Forall (fun f => mouthNarrow f = true)
                (repeat (Speaking.frame 1 0) 5))
    by (repeat (apply Forall_cons; [vm_compute; reflexivity|]);
        apply Forall_nil).
  split.
  - split; [exact W|]. split; [simpl; lia|].
    apply (mouth_latch_hysteresis (repeat (Speaking.frame 2 0) 5)
             (session (repeat (Speaking.frame 2 0) 2) constructor));
      [exact W | simpl; lia].
  - split; [exact N|]. split; [simpl; lia|].
    apply (mouth_latch_hysteresis (repeat (Speaking.frame 1 0) 5)
             (session (repeat (Speaking.frame 2 0) 5)
                (session (repeat (Speaking.frame 2 0) 2) constructor)));
      [exact N | simpl; lia].
Defined.

(** ** A face that does not move *)

Lemma session_app fs1 : forall fs2 s,
  session (fs1 ++ fs2) s = session fs2 (session fs1 s).
Proof.
  induction fs1 as [|f fs1 IH]; intros fs2 s; [reflexivity|].
  simpl app. rewrite !session_cons. apply IH.
Qed.

Lemma zero_average k :
  1 <= k <= 9 -> (0 / Js.of_nat k)%float = 0%float.
Proof.
  intros H.
  do 10 (destruct k as [|k]; [try lia; try (vm_compute; reflexivity)|]).
  lia.
Qed.

Lemma detectSpoofing_fields f s :
  frameHistory (exec (detectSpoofing f) s) = frameHistory s /\
  photoSpoofingDetected (exec (detectSpoofing f) s) = photoSpoofingDetected s.
Proof.
  split; apply keeps_eq; intro; apply detectSpoofing_keeps; stable.
Qed.

Lemma calculateAntiSpoofingScore_fields s :
  let s' := exec calculateAntiSpoofingScore s in
  frameHistory s' = frameHistory s /\
  photoSpoofingDetected s' = photoSpoofingDetected s /\
  screenSpoofingDetected s' = screenSpoofingDetected s.
Proof.
  repeat split; apply keeps_eq; intro;
    apply calculateAntiSpoofingScore_keeps; stable.
Qed.

Lemma calculateLivenessScore_fields s :
  let s' := exec calculateLivenessScore s in
  frameHistory s' = frameHistory s /\
  photoSpoofingDetected s' = photoSpoofingDetected s /\
  screenSpoofingDetected s' = screenSpoofingDetected s /\
  antiSpoofingScore s' = antiSpoofingScore s.
Proof.
  repeat split; apply keeps_eq; intro;
    apply calculateLivenessScore_keeps; stable.
Qed.

Section Still.
Variables x y : float.
Hypothesis finite_x : (x - x)%float = 0%float.
Hypothesis finite_y : (y - y)%float = 0%float.

Lemma movementScan_still rest : forall prev n,
  allAt x y (prev :: rest) ->
  movementScan prev rest 0 n = (0%float, n + length rest, false).
Proof.
  induction rest as [|curr rest IH]; intros prev n H.
  - simpl. rewrite Nat.add_0_r. reflexivity.
  - destruct (Forall_inv H) as [Px Py].
    pose proof (Forall_inv_tail H) as H'.
    destruct (Forall_inv H') as [Cx Cy].
    simpl movementScan. rewrite Px, Py, Cx, Cy, finite_x, finite_y.
    replace (0 + (abs 0 + abs 0))%float with 0%float by reflexivity.
    rewrite (IH curr (S n) H'). simpl length.
    replace (S n + length rest) with (n + S (length rest)) by lia.
    reflexivity.
Qed.

Lemma variationLoop_still rest : forall prev n,
  allAt x y (prev :: rest) ->
  variationLoop prev rest 0 n = (0%float, n + length rest).
Proof.
  induction rest as [|curr rest IH]; intros prev n H.
  - simpl. rewrite Nat.add_0_r. reflexivity.
  - destruct (Forall_inv H) as [Px Py].
    pose proof (Forall_inv_tail H) as H'.
    destruct (Forall_inv H') as [Cx Cy].
    simpl variationLoop. rewrite Px, Py, Cx, Cy, finite_x, finite_y.
    replace (0 + sqrt (Js.pow2 0 + Js.pow2 0))%float with 0%float
      by reflexivity.
    rewrite (IH curr (S n) H'). simpl length.
    replace (S n + length rest) with (n + S (length rest)) by lia.
    reflexivity.
Qed.

Lemma calculateMovementVariation_still s :
  allAt x y (frameHistory s) -> length (frameHistory s) <= 10 ->
  calculateMovementVariation s = 0%float.
Proof.
  intros H L. unfold calculateMovementVariation.
  destruct (Nat.ltb_spec (length (frameHistory s)) 2) as [C|C];
    [reflexivity|].
  destruct (frameHistory s) as [|first rest]; [simpl in C; lia|].
  rewrite (variationLoop_still rest first 0 H). simpl in C, L.
  simpl Nat.add.
  destruct (Nat.ltb_spec 0 (length rest)); [|lia].
  apply zero_average. lia.
Qed.

Lemma pushAndTrim_still h entry :
  allAt x y h -> Sample.x entry = x -> Sample.y entry = y ->
  length h <= 10 ->
  allAt x y (pushAndTrim h entry) /\
  length (pushAndTrim h entry) = Nat.min (length h + 1) 10.
Proof.
  intros H X Y L. unfold pushAndTrim, maxHistorySize.
  assert (A : allAt x y (h ++ [entry])).
  { apply Forall_app. split; [exact H|]. constructor; [auto|constructor]. }
  rewrite length_app. simpl length.
  destruct (Nat.ltb_spec 10 (length h + 1)).
  - destruct h as [|a h]; [simpl in *; lia|]. simpl app in *. simpl tl.
    split; [exact (Forall_inv_tail A)|].
    rewrite length_app. simpl in *. lia.
  - split; [exact A|]. rewrite length_app. simpl. lia.
Qed.

Lemma detectHeadMovement_still f u lm nosePoint others :
  faceLandmarks u = Some lm -> getNose lm = nosePoint :: others ->
  Point.x nosePoint = x -> Point.y nosePoint = y ->
  allAt x y (frameHistory u) -> length (frameHistory u) <= 10 ->
  5 <= length (frameHistory (exec (detectHeadMovement f) u)) ->
  photoSpoofingDetected (exec (detectHeadMovement f) u) = true.
Proof.
  intros L N X Y A B. rewrite detectHeadMovement_history, L, N.
  rewrite (detectHeadMovement_run f u lm nosePoint others L N). cbv zeta.
  set (entry := Sample.mk _ _ _).
  destruct (pushAndTrim_still (frameHistory u) entry A X Y B) as [Ah Lh].
  set (h := pushAndTrim (frameHistory u) entry) in *. clearbody h.
  intros C.
  replace (3 <=? length h) with true by (symmetry; apply Nat.leb_le; lia).
  replace (5 <=? length h) with true by (symmetry; apply Nat.leb_le; lia).
  destruct h as [|first rest]; [simpl in C; lia|].
  unfold movementOf. rewrite (movementScan_still rest first 0 Ah).
  simpl Nat.add. simpl in C, Lh.
  rewrite zero_average by lia. reflexivity.
Qed.

Lemma detectSpoofing_still f s :
  allAt x y (frameHistory s) -> length (frameHistory s) <= 10 ->
  8 <= length (frameHistory s) ->
  screenSpoofingDetected (exec (detectSpoofing f) s) = true.
Proof.
  intros A B C. unfold detectSpoofing. cbv zeta. rewrite exec_this.
  replace (8 <=? length (frameHistory s)) with true
    by (symmetry; apply Nat.leb_le; lia).
  rewrite (calculateMovementVariation_still s A B). reflexivity.
Qed.

Lemma calculateAntiSpoofingScore_still s :
  allAt x y (frameHistory s) -> length (frameHistory s) <= 10 ->
  photoSpoofingDetected s = true ->
  antiSpoofingScore (exec calculateAntiSpoofingScore s) = 0%float.
Proof.
  intros A B P.
  unfold calculateAntiSpoofingScore, exec, bind, this, assign. cbv zeta.
  cbn [snd antiSpoofingScore set_antiSpoofingScore].
  rewrite (calculateMovementVariation_still s A B), P.
  destruct (screenSpoofingDetected s); vm_compute; reflexivity.
Qed.

Lemma still_call f s :
  stillAt x y f ->
  allAt x y (frameHistory s) -> length (frameHistory s) <= 10 ->
  let s' := exec (detectLiveness f) s in
  allAt x y (frameHistory s') /\
  length (frameHistory s') = Nat.min (length (frameHistory s) + 1) 10 /\
  (5 <= length (frameHistory s') ->
   photoSpoofingDetected s' = true /\
   antiSpoofingScore s' = 0%float /\
   isLivenessActive s' = false /\
   livenessStatus s' = photo_detected) /\
  (8 <= length (frameHistory s') -> screenSpoofingDetected s' = true).
Proof.
  intros (entry & Se & Ex & Ey) A B. cbv zeta.
  pose proof (detectLiveness_history f s) as Hh. rewrite Se in Hh.
  destruct (pushAndTrim_still (frameHistory s) entry A Ex Ey B) as [Ah Lh].
  rewrite <- Hh in Ah, Lh. split; [exact Ah|]. split; [exact Lh|].
  rewrite sampleOf_kind in Se.
  destruct (kindOf f) as [| | | | |lm|lm e|lm e m] eqn:K; try discriminate Se.
  destruct (getNose lm) as [|p ps] eqn:N; [discriminate Se|].
  injection Se as Se. subst entry. simpl in Ex, Ey.
  assert (E : exec (detectLiveness f) s = faceState f lm e m s)
    by (unfold exec; rewrite detectLiveness_kind, K; reflexivity).
  rewrite E in *. clear E Hh. unfold faceState in *.
  rewrite updates_full in *.
  set (t := mouthWrites m (eyeWrites e (set_faceLandmarks s (Some lm)))) in *.
  set (u := exec detectMouthMovements (exec detectBlinks t)) in *.
  assert (Lu : faceLandmarks u = Some lm).
  { unfold u, t. rewrite gestures_landmarks, mouthWrites_landmarks,
      eyeWrites_landmarks. reflexivity. }
  assert (Hu : frameHistory u = frameHistory s).
  { unfold u, t. rewrite gestures_history, mouthWrites_history,
      eyeWrites_history. reflexivity. }
  pose proof (detectHeadMovement_still f u lm p ps Lu N Ex Ey) as P3.
  rewrite Hu in P3. specialize (P3 A B).
  set (s3 := exec (detectHeadMovement f) u) in *.
  destruct (detectSpoofing_fields f s3) as [H4 P4].
  pose proof (detectSpoofing_still f s3) as S4.
  set (s4 := exec (detectSpoofing f) s3) in *.
  destruct (calculateAntiSpoofingScore_fields s4) as (H5 & P5 & S5).
  pose proof (calculateAntiSpoofingScore_still s4) as A5.
  set (s5 := exec calculateAntiSpoofingScore s4) in *.
  destruct (calculateLivenessScore_fields s5) as (H6 & P6 & S6 & A6).
  destruct (calculateLivenessScore_post s5) as [V St]. cbv zeta in V, St.
  set (s6 := exec calculateLivenessScore s5) in *.
  rewrite H6, H5, H4 in Ah, Lh.
  assert (B3 : length (frameHistory s3) <= 10) by (rewrite Lh; lia).
  split.
  - rewrite H6, H5, H4. intros C.
    assert (P : photoSpoofingDetected s6 = true)
      by (rewrite P6, P5, P4; apply P3, C).
    assert (Off : isLivenessActive s6 = false)
      by (rewrite V, P; change (negb true) with false;
          rewrite andb_false_r; reflexivity).
    split; [exact P|]. split; [|split; [exact Off|]].
    + rewrite A6. apply A5; rewrite ?H4; try assumption.
      rewrite P4. apply P3, C.
    + rewrite St, Off, P. reflexivity.
  - rewrite H6, H5, H4. intros C.
    rewrite S6, S5. apply S4; assumption.
Qed.

Lemma still_history run : forall s,
  Forall (stillAt x y) run ->
  allAt x y (frameHistory s) -> length (frameHistory s) <= 10 ->
  allAt x y (frameHistory (session run s)) /\
  length (frameHistory (session run s)) =
  Nat.min (length (frameHistory s) + length run) 10.
Proof.
  induction run as [|f run IH]; intros s H A B.
  - change (session [] s) with s. split; [exact A|]. simpl length. lia.
  - rewrite session_cons.
    destruct (still_call f s (Forall_inv H) A B) as (A1 & L1 & _).
    destruct (IH _ (Forall_inv_tail H) A1 ltac:(rewrite L1; lia)) as [A2 L2].
    split; [exact A2|]. rewrite L2, L1. simpl length. lia.
Qed.

(** X8.  A face whose nose stays at exactly the same position is taken for a
    spoof.  From a new or reset session, once 5 frames in a row have been
    processed with the nose at one finite position, the photo flag is raised,
    the anti-spoofing score is 0, the verdict is false and the status is
    [photo_detected]; once 8 have been, the screen flag is raised too.  Blinks
    and mouth movements in those frames change nothing to it. *)
Theorem still_face_is_flagged run s :
  frameHistory s = [] -> Forall (stillAt x y) run -> 5 <= length run ->
  photoSpoofingDetected (session run s) = true /\
  antiSpoofingScore (session run s) = 0%float /\
  isLivenessActive (session run s) = false /\
  livenessStatus (session run s) = photo_detected /\
  (8 <= length run -> screenSpoofingDetected (session run s) = true).
Proof.
  intros E H L.
  destruct run as [|f run _] using rev_ind; [simpl in L; lia|].
  rewrite length_app in L. simpl in L.
  apply Forall_app in H. destruct H as [Hrun Hf].
  assert (A : allAt x y (frameHistory s)) by (rewrite E; constructor).
  assert (B : length (frameHistory s) <= 10) by (rewrite E; simpl; lia).
  destruct (still_history run s Hrun A B) as [A1 L1].
  rewrite E in L1. simpl in L1.
  rewrite session_app, session_cons.
  change (session [] (exec (detectLiveness f) (session run s)))
    with (exec (detectLiveness f) (session run s)).
  destruct (still_call f (session run s) (Forall_inv Hf) A1
              ltac:(rewrite L1; lia)) as (_ & L2 & P & S).
  cbv zeta in *. rewrite L1 in L2.
  destruct P as (P1 & P2 & P3 & P4); [rewrite L2; lia|].
  repeat (split; [assumption|]).
  intros C. apply S. rewrite L2. rewrite length_app in C.
  simpl length in C. lia.
Qed.

End Still.

Lemma still_face_is_flagged_witness :
  let run := repeat (Scenario.shut 80) 3 ++ repeat (Scenario.open 80) 5 in
  Forall (stillAt 80 0) run /\
  photoSpoofingDetected (session run constructor) = true /\
  antiSpoofingScore (session run constructor) = 0%float /\
  isLivenessActive (session run constructor) = false /\
  livenessStatus (session run constructor) = photo_detected /\
  (8 <= length run -> screenSpoofingDetected (session run constructor) = true).
Proof.
  cbv zeta.
  assert (H : Forall (stillAt 80 0)
                (repeat (Scenario.shut 80) 3 ++ repeat (Scenario.open 80) 5)).
  { repeat (apply Forall_cons;
            [eexists; split; [vm_compute; reflexivity|split; reflexivity]|]).
    apply Forall_nil. }
  split; [exact H|].
  apply (still_face_is_flagged 80 0 eq_refl eq_refl
           (repeat (Scenario.shut 80) 3 ++ repeat (Scenario.open 80) 5)
           constructor);
    [reflexivity | exact H | simpl; lia].
Defined.

(** ** What the status tells *)

Lemma tooShort_throws lm :
  tooShort lm <-> eyeRatio lm = Throw \/ mouthRatio lm = Throw.
Proof.
  unfold tooShort.
  pose proof (eyeRatio_defined lm) as E.
  pose proof (mouthRatio_defined lm) as Mo.
  destruct (eyeRatio lm) as [e|], (mouthRatio lm) as [m|].
  - assert (6 <= length (getLeftEye lm) /\ 6 <= length (getRightEye lm))
      by (apply E; eauto).
    assert (20 <= length (getMouth lm)) by (apply Mo; eauto).
    split; [lia | intros [H'|H']; discriminate H'].
  - split; [auto|]. intros _.
    destruct (Nat.lt_ge_cases (length (getMouth lm)) 20) as [L|L]; [auto|].
    apply Mo in L. destruct L as [m L]. discriminate L.
  - split; [auto|]. intros _.
    destruct (Nat.lt_ge_cases (length (getLeftEye lm)) 6) as [L|L]; [auto|].
    destruct (Nat.lt_ge_cases (length (getRightEye lm)) 6) as [R|R]; [auto|].
    destruct (proj2 E (conj L R)) as [e X]. discriminate X.
  - split; [auto|]. intros _.
    destruct (Nat.lt_ge_cases (length (getMouth lm)) 20) as [L|L]; [auto|].
    apply Mo in L. destruct L as [m L]. discriminate L.
Qed.

Lemma faceState_status f lm e m s :
  In (livenessStatus (faceState f lm e m s))
    [active; photo_detected; screen_detected; need_blinks; need_movement;
     suspicious; inactive].
Proof.
  destruct (faceState_post f lm e m s) as [_ St]. cbv zeta in St.
  rewrite St. branches; simpl; auto 10.
Qed.

Ltac path :=
  repeat match goal with
         | |- _ /\ _ => split
         | |- _ <-> _ => split
         | |- _ -> _ => intro
         | H : _ /\ _ |- _ => destruct H
         | H : _ \/ _ |- _ => destruct H
         | H : exists _, _ |- _ => destruct H
         | H : In _ _ |- _ => destruct H
         | H : Normal _ = Normal _ |- _ => injection H as H; subst
         end;
  try congruence; try reflexivity; try (simpl in *; lia); auto.

(** The call returned: it did not throw, and the snapshot is the one at
    hand. *)
Ltac returned :=
  split;
  [ cbn [fst]; split; [intros ?H; discriminate | intros [?H ?H]; congruence]
  | intros ?c ?E; cbn [fst] in *;
    match goal with E : Normal _ = Normal _ |- _ => injection E as <- end ].

(** X9.  How a call ended can be read off what it gives, whatever the
    state.  It throws, and returns no snapshot, exactly when it is given a
    video element while the library is not loaded.  The status of a snapshot
    it returns is [pending] exactly when the guard stopped the call (no video
    element, or a falsy [faceapi]), [error] exactly when the detector
    rejected or the single face found has a contour too short, [no_face]
    exactly when the detector found nothing and [multiple_faces] exactly when
    it found more than one face. *)
Theorem status_tells_the_path f s :
  (completion (detectLiveness f) s = Throw <->
   videoElement f = true /\ faceapi f = Undeclared) /\
  forall c,
    completion (detectLiveness f) s = Normal c ->
    (LivenessData.status c = pending <->
     videoElement f = false \/ faceapi f = Declared false) /\
    (LivenessData.status c = error <->
     guardPasses f /\
     (detectAllFaces f = Throw \/
      exists d, detectAllFaces f = Normal [d] /\ tooShort (landmarks d))) /\
    (LivenessData.status c = no_face <->
     guardPasses f /\ detectAllFaces f = Normal []) /\
    (LivenessData.status c = multiple_faces <->
     guardPasses f /\
     exists ds, detectAllFaces f = Normal ds /\ 1 < length ds).
Proof.
  unfold completion. rewrite detectLiveness_kind. unfold kindOf, guardPasses.
  destruct (videoElement f) eqn:V;
    [destruct (faceapi f) as [|[|]] eqn:F|]; cbn [negb]; cbv iota.
  - split; [cbn [fst]; tauto|]. intros c E. discriminate E.
  - destruct (detectAllFaces f) as [[|d [|d' ds]]|] eqn:D.
    + returned. simpl. path.
    + pose proof (tooShort_throws (landmarks d)) as T.
      destruct (eyeRatio (landmarks d)) as [e|] eqn:E;
        [destruct (mouthRatio (landmarks d)) as [m|] eqn:Mo|];
        returned; cbn [fst LivenessData.status literal].
      * pose proof (faceState_status f (landmarks d) e m s) as I.
        change (LivenessData.status (getLivenessData ?t))
          with (livenessStatus t).
        set (st := livenessStatus _) in *. clearbody st.
        assert (N : ~ tooShort (landmarks d))
          by (intros N; apply T in N; destruct N; discriminate).
        split; [|split; [|split]];
          (split; [intros H; subst st; exfalso; path|]).
        -- intros [H|H]; discriminate H.
        -- intros [_ [H|[d0 [H K]]]]; [discriminate H|].
           injection H as <-. contradiction.
        -- intros [_ H]. discriminate H.
        -- intros [_ [ds [H K]]]. injection H as <-. simpl in K. lia.
      * assert (N : tooShort (landmarks d)) by (apply T; auto).
        path. right. exists d. auto.
      * assert (N : tooShort (landmarks d)) by (apply T; auto).
        path. right. exists d. auto.
    + returned. simpl. path.
      exists (d :: d' :: ds). split; [reflexivity | simpl; lia].
    + returned. simpl. path.
  - returned. simpl. path.
  - returned. simpl. path.
Qed.

(** ** The host lets a frame through only on a verified snapshot *)

Lemma SFcompare_swap a b :
  SFcompare b a = option_map CompOpp (SFcompare a b).
Proof.
  destruct a as [sa|sa| |sa ma ea], b as [sb|sb| |sb mb eb]; simpl;
    try destruct sa; try destruct sb; try reflexivity;
    rewrite (Z.compare_antisym ea eb); destruct (ea ?= eb)%Z; simpl;
    try reflexivity;
    pose proof (Pos.compare_cont_antisym ma mb Eq) as P; simpl in P;
    rewrite <- P; destruct (Pos.compare_cont Eq ma mb); reflexivity.
Qed.

Lemma geb_not_ltb x y : Js.geb x y = true -> (x <? y)%float = false.
Proof.
  unfold Js.geb. rewrite leb_spec, ltb_spec. unfold SFleb, SFltb.
  rewrite (SFcompare_swap (Prim2SF y) (Prim2SF x)).
  destruct (SFcompare (Prim2SF y) (Prim2SF x)) as [[]|]; simpl; congruence.
Qed.

Lemma snapshot_verified s :
  verdictBacked s ->
  LivenessData.isActive (getLivenessData s) = true ->
  Camera.verified (getLivenessData s).
Proof.
  intros B A. destruct (B A) as (P & S & Rest).
  unfold Camera.verified. simpl. rewrite P, S. auto.
Qed.

(** What the host state satisfies between two events. *)
Lemma updateLivenessUI_pass data c :
  (LivenessData.isActive data = true -> Camera.verified data) ->
  (Camera.livenessCheckPassed c = true ->
   exists d, Camera.currentLivenessData c = Some d /\ Camera.verified d) ->
  Camera.livenessCheckPassed (Camera.updateLivenessUI data c) = true ->
  exists d,
    Camera.currentLivenessData (Camera.updateLivenessUI data c) = Some d /\
    Camera.verified d.
Proof.
  intros V I. unfold Camera.updateLivenessUI.
  destruct (Camera.livenessUI c); simpl; [|exact I].
  destruct (LivenessData.spoofingDetected data && _); simpl; intros P;
    exists data; (split; [reflexivity|]); apply V;
    destruct (LivenessData.isActive data); [reflexivity | discriminate P
                                           | reflexivity | discriminate P].
Qed.

Lemma handle_pass e h :
  verdictBacked (Camera.detector h) ->
  (Camera.livenessCheckPassed (Camera.camera h) = true ->
   exists d, Camera.currentLivenessData (Camera.camera h) = Some d /\
             Camera.verified d) ->
  verdictBacked (Camera.detector (Camera.handle h e)) /\
  (Camera.livenessCheckPassed (Camera.camera (Camera.handle h e)) = true ->
   exists d,
     Camera.currentLivenessData (Camera.camera (Camera.handle h e)) = Some d /\
     Camera.verified d).
Proof.
  intros B I. destruct e as [f| |]; simpl.
  - unfold Camera.livenessCheck.
    pose proof (detectLiveness_backed f _ B) as B1.
    pose proof (detectLiveness_snapshot f (Camera.detector h)) as C.
    unfold completion, exec in *.
    destruct (detectLiveness f (Camera.detector h)) as [[c|] d];
      cbn [fst snd] in *.
    + assert (V : LivenessData.isActive c = true -> Camera.verified c).
      { destruct C as [C|[C|C]]; subst c; try discriminate.
        apply snapshot_verified, B1. }
      destruct (LivenessData.isActive c) eqn:A;
        cbn [Camera.detector Camera.camera Camera.livenessCheckPassed
             Camera.currentLivenessData
             Camera.set_consecutiveFailedLivenessChecks];
        (split; [exact B1|]);
        apply updateLivenessUI_pass; try assumption; rewrite A; assumption.
    + split; [exact B1 | exact I].
  - unfold Camera.startLivenessChecking.
    destruct (Camera.livenessEnabled (Camera.camera h)); simpl; [|auto].
    split; [|exact I]. intros H. discriminate H.
  - auto.
Qed.

Lemma run_pass es : forall h,
  verdictBacked (Camera.detector h) ->
  (Camera.livenessCheckPassed (Camera.camera h) = true ->
   exists d, Camera.currentLivenessData (Camera.camera h) = Some d /\
             Camera.verified d) ->
  verdictBacked (Camera.detector (Camera.run es h)) /\
  (Camera.livenessCheckPassed (Camera.camera (Camera.run es h)) = true ->
   exists d,
     Camera.currentLivenessData (Camera.camera (Camera.run es h)) = Some d /\
     Camera.verified d).
Proof.
  induction es as [|e es IH]; intros h B I; [auto|].
  destruct (handle_pass e h B I) as [B1 I1].
  apply (IH (Camera.handle h e) B1 I1).
Qed.

(** X10.  With liveness checking enabled, a mark tick of the host goes on to
    the recognition request only with a snapshot in hand that passed every
    gate of the detector: verdict true, no spoofing, at least 2 blinks, head
    movement, [antiSpoofingScore >= 70], [livenessScore >= 80] and
    [realPersonScore >= 70]; this snapshot is the [liveness_data] of the
    request.  Otherwise the tick stops at its first test.  Its second and
    third test (spoofing, real-person score) never stop a tick that passed
    the first.  This holds after any liveness checks, restarts and alert
    timeouts, from a host that has not passed yet. *)
Theorem request_only_on_verified_snapshot es h :
  Camera.livenessCheckPassed (Camera.camera h) = false ->
  isLivenessActive (Camera.detector h) = false ->
  Camera.livenessEnabled (Camera.camera (Camera.run es h)) = true ->
  match Camera.markTick (Camera.camera (Camera.run es h)) with
  | Camera.LivenessFailed =>
      Camera.livenessCheckPassed (Camera.camera (Camera.run es h)) = false
  | Camera.Request (Some data) => Camera.verified data
  | _ => False
  end.
Proof.
  intros P A E.
  destruct (run_pass es h) as [_ I].
  { intros H. rewrite A in H. discriminate H. }
  { intros H. rewrite P in H. discriminate H. }
  unfold Camera.markTick. rewrite E.
  destruct (Camera.livenessCheckPassed (Camera.camera (Camera.run es h)));
    cbn [negb]; cbv iota; [|reflexivity].
  destruct (I eq_refl) as (d & C & V). rewrite C.
  destruct V as (V1 & V2 & V3 & V4 & V5 & V6 & V7). rewrite V2.
  unfold Camera.REQUIRED_REAL_PERSON_SCORE.
  rewrite (geb_not_ltb _ _ V7). unfold Camera.verified. auto 10.
Qed.

Lemma request_only_on_verified_snapshot_witness :
  let h := Camera.mkHost
             (Camera.mkBeautifulCamera true None true false false 0)
             constructor in
  let es := Camera.StartLivenessChecking
            :: map Camera.LivenessCheck Scenario.twoBlinks in
  (exists data,
     Camera.markTick (Camera.camera (Camera.run es h)) =
     Camera.Request (Some data)) /\
  match Camera.markTick (Camera.camera (Camera.run es h)) with
  | Camera.LivenessFailed =>
      Camera.livenessCheckPassed (Camera.camera (Camera.run es h)) = false
  | Camera.Request (Some data) => Camera.verified data
  | _ => False
  end.
Proof.
  cbv zeta. split; [eexists; vm_compute; reflexivity|].
  apply (request_only_on_verified_snapshot
           (Camera.StartLivenessChecking
            :: map Camera.LivenessCheck Scenario.twoBlinks)
           (Camera.mkHost
              (Camera.mkBeautifulCamera true None true false false 0)
              constructor));
    reflexivity.
Defined.

(** ** A restart of the checking does not clear the pass *)

Lemma updateLivenessUI_fields data c :
  Camera.livenessEnabled (Camera.updateLivenessUI data c) =
    Camera.livenessEnabled c /\
  Camera.livenessUI (Camera.updateLivenessUI data c) = Camera.livenessUI c /\
  (Camera.livenessUI c = true ->
   Camera.livenessCheckPassed (Camera.updateLivenessUI data c) =
   LivenessData.isActive data
   && negb (LivenessData.spoofingDetected data)
   && Js.geb (LivenessData.realPersonScore data)
        Camera.REQUIRED_REAL_PERSON_SCORE).
Proof.
  unfold Camera.updateLivenessUI.
  destruct (Camera.livenessUI c) eqn:U; cbn [negb]; cbv iota zeta.
  - destruct (LivenessData.spoofingDetected data && _); auto.
  - repeat split; auto. discriminate.
Qed.

Lemma throws_iff_unloaded f s :
  completion (detectLiveness f) s = Throw <-> unloaded f.
Proof.
  unfold completion, unloaded. rewrite detectLiveness_kind. unfold kindOf.
  destruct (videoElement f);
    [destruct (faceapi f) as [|[|]]|]; cbn [negb]; cbv iota;
    try (split; [discriminate | intros [? ?]; discriminate]).
  - split; auto.
  - destruct (detectAllFaces f) as [[|d [|d' ds]]|];
      try (split; [discriminate | intros [? ?]; discriminate]).
    destruct (eyeRatio (landmarks d));
      [destruct (mouthRatio (landmarks d))|];
      split; try discriminate; intros [? ?]; discriminate.
Qed.

Lemma livenessCheck_fields f h :
  Camera.detector (Camera.livenessCheck f h) =
    exec (detectLiveness f) (Camera.detector h) /\
  Camera.livenessEnabled (Camera.camera (Camera.livenessCheck f h)) =
    Camera.livenessEnabled (Camera.camera h) /\
  Camera.livenessUI (Camera.camera (Camera.livenessCheck f h)) =
    Camera.livenessUI (Camera.camera h) /\
  match completion (detectLiveness f) (Camera.detector h) with
  | Throw =>
      Camera.markTick (Camera.camera (Camera.livenessCheck f h)) =
      Camera.markTick (Camera.camera h) /\
      Camera.livenessCheckPassed (Camera.camera (Camera.livenessCheck f h)) =
      Camera.livenessCheckPassed (Camera.camera h)
  | Normal c =>
      Camera.livenessUI (Camera.camera h) = true ->
      LivenessData.isActive c = false ->
      Camera.livenessCheckPassed (Camera.camera (Camera.livenessCheck f h)) =
      false
  end.
Proof.
  unfold Camera.livenessCheck, completion, exec.
  destruct (detectLiveness f (Camera.detector h)) as [[c|] d];
    cbn [fst snd]; [|repeat split].
  destruct (updateLivenessUI_fields c (Camera.camera h)) as (En & Ui & Pa).
  destruct (LivenessData.isActive c) eqn:A;
    cbn [Camera.detector Camera.camera Camera.livenessCheckPassed
         Camera.livenessEnabled Camera.livenessUI
         Camera.set_consecutiveFailedLivenessChecks];
    repeat split; auto; try discriminate.
Qed.

Lemma run_cons e es h :
  Camera.run (e :: es) h = Camera.run es (Camera.handle h e).
Proof. reflexivity. Qed.

(** Checks that throw leave the decision of a mark tick as it was. *)
Lemma run_unloaded gs : forall h,
  Forall unloaded gs ->
  Camera.markTick (Camera.camera (Camera.run (map Camera.LivenessCheck gs) h))
  = Camera.markTick (Camera.camera h).
Proof.
  induction gs as [|f gs IH]; intros h H; [reflexivity|].
  simpl map. rewrite run_cons, (IH _ (Forall_inv_tail H)).
  cbn [Camera.handle].
  destruct (livenessCheck_fields f h) as (_ & _ & _ & K).
  rewrite (proj2 (throws_iff_unloaded f (Camera.detector h)) (Forall_inv H))
    in K.
  apply K.
Qed.

(** Once a check has returned after a restart, the pass is withdrawn, and
    stays so while the detector cannot have counted two blinks. *)
Lemma run_withdraws_pass fs : forall h,
  Camera.livenessUI (Camera.camera h) = true ->
  verdictBacked (Camera.detector h) ->
  length fs < framesNeeded 2 (blinkView (Camera.detector h)) ->
  Camera.livenessCheckPassed (Camera.camera h) = false \/
  Exists (fun f => ~ unloaded f) fs ->
  Camera.livenessCheckPassed
    (Camera.camera (Camera.run (map Camera.LivenessCheck fs) h)) = false /\
  Camera.livenessEnabled
    (Camera.camera (Camera.run (map Camera.LivenessCheck fs) h)) =
  Camera.livenessEnabled (Camera.camera h).
Proof.
  induction fs as [|f fs IH]; intros h U B L D.
  - split; [|reflexivity]. destruct D as [D|D]; [exact D | inversion D].
  - simpl map. rewrite run_cons. cbn [Camera.handle].
    destruct (livenessCheck_fields f h) as (D1 & E1 & U1 & K).
    pose proof (detectLiveness_backed f _ B) as B1.
    pose proof (framesNeeded_call 2 f (Camera.detector h)) as N.
    pose proof (detectLiveness_snapshot f (Camera.detector h)) as S.
    pose proof (throws_iff_unloaded f (Camera.detector h)) as T.
    rewrite <- D1 in B1, N. simpl length in L.
    destruct (IH (Camera.livenessCheck f h)) as [P E];
      [rewrite U1; exact U | exact B1 | lia | | split; [exact P|]].
    + destruct (completion (detectLiveness f) (Camera.detector h)) as [c|].
      * left. apply K; [exact U|].
        destruct S as [S|[S|S]]; subst c; try reflexivity.
        rewrite <- D1. apply verdict_needs_blinks; [exact B1 | lia].
      * destruct K as [_ K]. rewrite K.
        destruct D as [D|D]; [left; exact D|].
        inversion D as [? ? H|? ? H]; subst; [|right; exact H].
        exfalso. apply H, T. reflexivity.
    + rewrite E, E1. reflexivity.
Qed.

(** X11.  A restart of the liveness checking resets the detector but leaves
    the host's pass as it is: until the first check after the restart
    returns, a mark tick is decided, and its request filled, by the snapshot
    from before the restart; checks that throw because the library is not
    loaded change nothing to it.  From the first check that returns on, and
    as long as fewer than 9 checks were made since the restart, every mark
    tick stops at its first test. *)
Theorem restart_does_not_clear_the_pass h fs :
  Camera.livenessEnabled (Camera.camera h) = true ->
  Camera.livenessUI (Camera.camera h) = true ->
  1 <= length fs < 9 ->
  Camera.markTick (Camera.camera (Camera.startLivenessChecking h)) =
    Camera.markTick (Camera.camera h) /\
  (forall gs, Forall unloaded gs ->
     Camera.markTick
       (Camera.camera
          (Camera.run
             (Camera.StartLivenessChecking :: map Camera.LivenessCheck gs)
             h)) =
     Camera.markTick (Camera.camera h)) /\
  (Exists (fun f => ~ unloaded f) fs ->
   Camera.markTick
     (Camera.camera
        (Camera.run
           (Camera.StartLivenessChecking :: map Camera.LivenessCheck fs) h)) =
   Camera.LivenessFailed).
Proof.
  intros E U L.
  assert (R : Camera.markTick (Camera.camera (Camera.startLivenessChecking h))
              = Camera.markTick (Camera.camera h)).
  { unfold Camera.startLivenessChecking. rewrite E. reflexivity. }
  split; [exact R|]. split.
  { intros gs G. rewrite run_cons. cbn [Camera.handle].
    rewrite (run_unloaded gs _ G). exact R. }
  intros X. rewrite run_cons. cbn [Camera.handle].
  unfold Camera.startLivenessChecking. rewrite E. cbn [negb]. cbv iota.
  set (h1 := Camera.mkHost _ _).
  destruct (run_withdraws_pass fs h1) as [P En].
  - exact U.
  - intros H. discriminate H.
  - change (framesNeeded 2 (blinkView (Camera.detector h1))) with 9. lia.
  - right. exact X.
  - unfold Camera.markTick. rewrite En, P.
    change (Camera.livenessEnabled (Camera.camera h1))
      with (Camera.livenessEnabled (Camera.camera h)).
    rewrite E. reflexivity.
Qed.

Lemma restart_does_not_clear_the_pass_witness :
  let h := Camera.run (map Camera.LivenessCheck Scenario.twoBlinks)
             (Camera.mkHost
                (Camera.mkBeautifulCamera true None true false false 0)
                constructor) in
  let fs := beforeLoad :: firstn 7 Scenario.twoBlinks in
  (exists data,
     Camera.markTick (Camera.camera (Camera.startLivenessChecking h)) =
     Camera.Request (Some data)) /\
  Exists (fun f => ~ unloaded f) fs /\
  Camera.markTick (Camera.camera (Camera.startLivenessChecking h)) =
    Camera.markTick (Camera.camera h) /\
  (forall gs, Forall unloaded gs ->
     Camera.markTick
       (Camera.camera
          (Camera.run
             (Camera.StartLivenessChecking :: map Camera.LivenessCheck gs)
             h)) =
     Camera.markTick (Camera.camera h)) /\
  (Exists (fun f => ~ unloaded f) fs ->
   Camera.markTick
     (Camera.camera
        (Camera.run
           (Camera.StartLivenessChecking :: map Camera.LivenessCheck fs) h)) =
   Camera.LivenessFailed).
Proof.
  cbv zeta. split; [eexists; vm_compute; reflexivity|].
  split.
  { apply Exists_cons_tl, Exists_cons_hd. intros [_ H]. discriminate H. }
  apply (restart_does_not_clear_the_pass
           (Camera.run (map Camera.LivenessCheck Scenario.twoBlinks)
              (Camera.mkHost
                 (Camera.mkBeautifulCamera true None true false false 0)
                 constructor))
           (beforeLoad :: firstn 7 Scenario.twoBlinks));
    [vm_compute; reflexivity | vm_compute; reflexivity | simpl; lia].
Defined.
